(** * NAMD-xtb QM/MM interface: a shallow embedding of [namd_xtb.py]

    The script converts a NAMD QM/MM step file into the input files of the
    xtb program, runs xtb, and converts its output back.  This development
    embeds the script's functions as Rocq functions and states what they do.

    - Python exceptions are the [Raise] results of an error monad.
    - Python [float] (and numpy [float64]) is IEEE binary64, modelled with
      [spec_float] of the standard library at precision 53; text is parsed
      and printed with correct rounding, as CPython does.
    - Text is a [string] of 8-bit characters (the files the two programs
      exchange are plain ASCII).
    - The file system is a finite map from path names to file contents, the
      external xtb program is an arbitrary function on it. *)

From Stdlib Require Import ZArith String Ascii Bool Lia.
From Stdlib Require Import Floats.SpecFloat Numbers.DecimalString.
From stdpp Require Import base option list gmap strings.

#[local] Open Scope Z_scope.

(** ** Exceptions *)

Inductive exn : Type :=
| IndexError
| ValueError
| UnboundLocalError
| FileNotFoundError
| OSError.

Inductive result (A : Type) : Type :=
| Ok (a : A)
| Raise (e : exn).
Arguments Ok {A} a.
Arguments Raise {A} e.

#[global] Instance result_ret : MRet result := fun A a => Ok a.
#[global] Instance result_bind : MBind result := fun A B f m =>
  match m with
  | Ok a => f a
  | Raise e => Raise e
  end.

Definition is_Ok {A} (r : result A) : Prop := exists a, r = Ok a.
Definition is_Raise {A} (r : result A) : Prop := exists e, r = Raise e.

(** ** Text: the string methods the script uses *)

Module Text.

Definition nl : string := String (ascii_of_nat 10) EmptyString.

(** [str.isspace] on one ASCII character: TAB, LF, VT, FF, CR, the four
    separators FS, GS, RS, US, and the blank. *)
Definition is_space (c : ascii) : bool :=
  let n := N_of_ascii c in
  (((9 <=? n) && (n <=? 13)) || ((28 <=? n) && (n <=? 32)))%N.

Fixpoint lstrip (s : string) : string :=
  match s with
  | EmptyString => EmptyString
  | String c s' => if is_space c then lstrip s' else s
  end.

Fixpoint rstrip (s : string) : string :=
  match s with
  | EmptyString => EmptyString
  | String c s' =>
      match rstrip s' with
      | EmptyString => if is_space c then EmptyString else String c EmptyString
      | r => String c r
      end
  end.

(** [s.strip()] *)
Definition strip (s : string) : string := rstrip (lstrip s).

Definition is_empty (s : string) : bool :=
  match s with EmptyString => true | _ => false end.

(** The word being read at the head of [s], and the words after it. *)
Fixpoint split_go (s : string) : string * list string :=
  match s with
  | EmptyString => (EmptyString, [])
  | String c s' =>
      let '(w, ws) := split_go s' in
      if is_space c then (EmptyString, if is_empty w then ws else w :: ws)
      else (String c w, ws)
  end.

(** [s.split()]: the maximal runs of characters that are not white space. *)
Definition split (s : string) : list string :=
  let '(w, ws) := split_go s in if is_empty w then ws else w :: ws.

(** [s.split(sep)] for a one-character separator: never empty. *)
Fixpoint split_on (sep : ascii) (s : string) : list string :=
  match s with
  | EmptyString => [EmptyString]
  | String c s' =>
      if Ascii.eqb c sep then EmptyString :: split_on sep s'
      else match split_on sep s' with
           | w :: ws => String c w :: ws
           | [] => [String c EmptyString]
           end
  end.

(** [s.replace(a, b)] for single characters. *)
Fixpoint replace (a b : ascii) (s : string) : string :=
  match s with
  | EmptyString => EmptyString
  | String c s' => String (if Ascii.eqb c a then b else c) (replace a b s')
  end.

(** The line being read at the head of the content, and the lines after
    it.  A file opened in text mode translates CR LF and a lone CR to LF. *)
Fixpoint readlines_go (s : string) : string * list string :=
  match s with
  | EmptyString => (EmptyString, [])
  | String c s' =>
      let '(l, ls) := readlines_go s' in
      let eol := (nl, if is_empty l then ls else l :: ls) in
      if Ascii.eqb c (ascii_of_nat 10) then eol
      else if Ascii.eqb c (ascii_of_nat 13) then
        match s' with
        | String c' _ => if Ascii.eqb c' (ascii_of_nat 10) then (l, ls) else eol
        | EmptyString => eol
        end
      else (String c l, ls)
  end.

(** [f.readlines()]: every line keeps its end-of-line character. *)
Definition readlines (content : string) : list string :=
  let '(l, ls) := readlines_go content in if is_empty l then ls else l :: ls.

(** [''.join(parts)] *)
Fixpoint concat (parts : list string) : string :=
  match parts with
  | [] => EmptyString
  | p :: ps => p +:+ concat ps
  end.

(** [s.endswith(suffix)] *)
Fixpoint ends_with (suffix s : string) : bool :=
  String.eqb s suffix ||
  match s with
  | EmptyString => false
  | String _ s' => ends_with suffix s'
  end.

End Text.

(** ** Sequences: indexing as Python does it *)

(** [l[i]]: a negative index counts from the end, an index out of range
    raises. *)
Definition py_index {A} (l : list A) (i : Z) : result A :=
  let n := Z.of_nat (length l) in
  let j := if i <? 0 then i + n else i in
  if (0 <=? j) && (j <? n) then
    match l !! Z.to_nat j with
    | Some a => Ok a
    | None => Raise IndexError
    end
  else Raise IndexError.

(** [l[i]] for an index that the program text makes non-negative. *)
Definition py_get {A} (l : list A) (i : nat) : result A :=
  match l !! i with
  | Some a => Ok a
  | None => Raise IndexError
  end.

(** ** Integers: [int(s)] and [str(n)] *)

Module PyInt.

Definition digit_of (c : ascii) : option Z :=
  let n := Z.of_N (N_of_ascii c) in
  if (48 <=? n) && (n <=? 57) then Some (n - 48) else None.

Definition is_underscore (c : ascii) : bool := Ascii.eqb c "_"%char.

(** A digit part: decimal digits, single underscores allowed between two
    digits.  Returns the value and the number of digits.  [after_digit]
    tells whether the previous character was a digit. *)
Fixpoint digitpart_go (s : string) (acc : Z) (count : nat) (after_digit : bool)
  : option (Z * nat) :=
  match s with
  | EmptyString => if after_digit then Some (acc, count) else None
  | String c s' =>
      match digit_of c with
      | Some d => digitpart_go s' (10 * acc + d) (S count) true
      | None =>
          if is_underscore c && after_digit then digitpart_go s' acc count false
          else None
      end
  end.

Definition digitpart (s : string) : option (Z * nat) := digitpart_go s 0 0%nat false.

(** An optional sign, and what follows it. *)
Definition sign_of (s : string) : bool * string :=
  match s with
  | String "-"%char s' => (true, s')
  | String "+"%char s' => (false, s')
  | _ => (false, s)
  end.

(** The white space that [int] and [float] skip at both ends of an ASCII
    text ([Py_ISSPACE]): TAB, LF, VT, FF, CR and the blank.  The separators
    FS, GS, RS and US, which [str.strip] removes, are not skipped: a text
    that begins or ends with one of them is not a number. *)
Definition py_isspace (c : ascii) : bool :=
  let n := N_of_ascii c in
  (((9 <=? n) && (n <=? 13)) || (n =? 32))%N.

Fixpoint skip_left (s : string) : string :=
  match s with
  | EmptyString => EmptyString
  | String c s' => if py_isspace c then skip_left s' else s
  end.

Fixpoint skip_right (s : string) : string :=
  match s with
  | EmptyString => EmptyString
  | String c s' =>
      match skip_right s' with
      | EmptyString => if py_isspace c then EmptyString else String c EmptyString
      | r => String c r
      end
  end.

Definition skip_space (s : string) : string := skip_right (skip_left s).

(** [int(s)] in base ten. *)
Definition py_int (s : string) : result Z :=
  let '(neg, body) := sign_of (skip_space s) in
  match digitpart body with
  | Some (n, _) => Ok (if neg then - n else n)
  | None => Raise ValueError
  end.

(** [str(n)] *)
Definition py_str (n : Z) : string := NilZero.string_of_int (Z.to_int n).

End PyInt.

(** ** Floating point: binary64, [float(s)] and ['{:.6f}'.format(x)] *)

Module Float64.

Definition prec : Z := 53.
Definition emax : Z := 1024.

Abbreviation float := spec_float.

Definition zero : float := S754_zero false.

(** [x * y] *)
Definition mul (x y : float) : float := SFmul prec emax x y.

(** The conversion of a Python [int] operand of a float operation. *)
Definition of_int (n : Z) : float := binary_normalize prec emax n 0 false.

(** The binary64 number nearest to [m * 10 ^ e10] (ties to even), for a
    mantissa [0 <= m]; the sign is kept on a zero. *)
Definition of_decimal (neg : bool) (m e10 : Z) : float :=
  match m with
  | Zpos _ =>
      if 0 <=? e10 then
        binary_normalize prec emax (cond_Zopp neg (m * 10 ^ e10)) 0 neg
      else
        let '(q, e, l) := SFdiv_core_binary prec emax m 0 (10 ^ (- e10)) 0 in
        binary_round_aux prec emax neg q e l
  | _ => S754_zero neg
  end.

(** The longest prefix made of digits and underscores, and the rest. *)
Fixpoint span_digits (s : string) : string * string :=
  match s with
  | EmptyString => (EmptyString, EmptyString)
  | String c s' =>
      if bool_decide (is_Some (PyInt.digit_of c)) || PyInt.is_underscore c then
        let '(d, r) := span_digits s' in (String c d, r)
      else (EmptyString, s)
  end.

Definition lower (c : ascii) : ascii :=
  let n := N_of_ascii c in
  if ((65 <=? n) && (n <=? 90))%N then ascii_of_N (n + 32) else c.

Fixpoint lower_string (s : string) : string :=
  match s with
  | EmptyString => EmptyString
  | String c s' => String (lower c) (lower_string s')
  end.

(** What follows the mantissa: nothing, or [e] or [E], an optional sign and
    a digit part. *)
Definition parse_exponent (s : string) : option Z :=
  match s with
  | EmptyString => Some 0
  | String c s' =>
      if Ascii.eqb (lower c) "e"%char then
        let '(neg, body) := PyInt.sign_of s' in
        match PyInt.digitpart body with
        | Some (n, _) => Some (if neg then - n else n)
        | None => None
        end
      else None
  end.

(** An unsigned decimal number, as the integer of all its digits and the
    power of ten that scales it. *)
Definition parse_number (s : string) : option (Z * Z) :=
  let '(ip, r1) := span_digits s in
  let '(dot, fp, r2) :=
    match r1 with
    | String "."%char r => let '(fp, r2) := span_digits r in (true, fp, r2)
    | _ => (false, EmptyString, r1)
    end in
  match parse_exponent r2 with
  | None => None
  | Some ex =>
      match Text.is_empty ip, Text.is_empty fp with
      | true, true => None
      | true, false =>
          match PyInt.digitpart fp with
          | Some (f, nf) => Some (f, ex - Z.of_nat nf)
          | None => None
          end
      | false, true =>
          match PyInt.digitpart ip with
          | Some (i, _) => Some (i, ex)
          | None => None
          end
      | false, false =>
          match PyInt.digitpart ip, PyInt.digitpart fp with
          | Some (i, _), Some (f, nf) =>
              Some (i * 10 ^ Z.of_nat nf + f, ex - Z.of_nat nf)
          | _, _ => None
          end
      end
  end.

(** [float(s)] *)
Definition py_float (s : string) : result float :=
  let '(neg, body) := PyInt.sign_of (PyInt.skip_space s) in
  let name := lower_string body in
  if String.eqb name "inf" || String.eqb name "infinity" then Ok (S754_infinity neg)
  else if String.eqb name "nan" then Ok S754_nan
  else match parse_number body with
       | Some (m, e10) => Ok (of_decimal neg m e10)
       | None => Raise ValueError
       end.

(** A float literal of the program text. *)
Definition literal (s : string) : float :=
  match py_float s with
  | Ok x => x
  | Raise _ => S754_nan
  end.

(** [n / d] rounded to the nearest integer, ties to even ([0 <= n], [0 < d]). *)
Definition div_half_even (n d : Z) : Z :=
  let q := n / d in
  match 2 * (n mod d) ?= d with
  | Lt => q
  | Gt => q + 1
  | Eq => if Z.even q then q else q + 1
  end.

(** [m * 2 ^ e * 10 ^ 6] rounded to the nearest integer, ties to even. *)
Definition scaled6 (m : positive) (e : Z) : Z :=
  if 0 <=? e then Zpos m * 2 ^ e * 10 ^ 6
  else div_half_even (Zpos m * 10 ^ 6) (2 ^ (- e)).

Definition digit_char (d : Z) : ascii := ascii_of_N (Z.to_N (48 + d mod 10)).

(** The last [k] decimal digits of [n], most significant first. *)
Fixpoint digits_fixed (k : nat) (n : Z) : string :=
  match k with
  | O => EmptyString
  | S k' => digits_fixed k' (n / 10) +:+ String (digit_char n) EmptyString
  end.

(** The text of [n / 10 ^ 6] with six decimals, for [0 <= n]. *)
Definition fixed6 (n : Z) : string :=
  PyInt.py_str (n / 10 ^ 6) +:+ "." +:+ digits_fixed 6 (n mod 10 ^ 6).

Definition sign_text (neg : bool) : string := if neg then "-" else "".

(** ['{:.6f}'.format(x)] *)
Definition format_6f (x : float) : string :=
  match x with
  | S754_nan => "nan"
  | S754_infinity s => sign_text s +:+ "inf"
  | S754_zero s => sign_text s +:+ fixed6 0
  | S754_finite s m e => sign_text s +:+ fixed6 (scaled6 m e)
  end.

End Float64.

Import Float64.

(** ** numpy arrays of two dimensions *)

Module Np.

Abbreviation array := (list (list float)).

(** [np.zeros((rows, cols))]; a negative dimension is refused. *)
Definition zeros (rows : Z) (cols : nat) : result array :=
  if rows <? 0 then Raise ValueError
  else Ok (replicate (Z.to_nat rows) (replicate cols zero)).

(** [a[r, c] = v] *)
Definition set (a : array) (r c : nat) (v : float) : result array :=
  match a !! r with
  | Some row =>
      if bool_decide (c < length row)%nat then Ok (<[r := <[c := v]> row]> a)
      else Raise IndexError
  | None => Raise IndexError
  end.

(** [a[r, c]] *)
Definition get (a : array) (r c : nat) : result float :=
  row ← py_get a r; py_get row c.

End Np.

(** [l[i] = v] on a Python list *)
Definition list_set {A} (l : list A) (i : nat) (v : A) : result (list A) :=
  if bool_decide (i < length l)%nat then Ok (<[i := v]> l) else Raise IndexError.

(** [for i in l: s = body(i, s)], stopped by the first exception. *)
Fixpoint for_each {I S} (l : list I) (body : I -> S -> result S) (s : S) : result S :=
  match l with
  | [] => Ok s
  | i :: l' => s' ← body i s; for_each l' body s'
  end.

(** The fields of a line: [line.strip().split()] *)
Definition fields (line : string) : list string := Text.split (Text.strip line).

(** ** The constants of the script *)

(** The path of the xtb program and the charge of each QM part, which the
    user of the script sets. *)
Definition XTBDIR : string := "/home/chinfo/software/chem/xtb/xtb".
Definition QMCHARGE : list Z := [0].

(** Ångström to Bohr, the literal [1.88973] *)
Definition bohr : float := literal "1.88973".

(** ** [read_namdinput] *)

(** The local variables that the first line binds. *)
Record namd_vars : Type := {
  atom_num : nat;
  pcharge_num : nat;
  element : list (option string);
  coor : Np.array;
  pcharge : Np.array
}.

(** Line 1: the numbers of atoms and of point charges; the three arrays
    are allocated.  [np.zeros] refuses a negative number, so that the two
    counts are natural numbers from here on. *)
Definition namd_header (line : string) : result namd_vars :=
  let atom_pcharge_num := fields line in
  a ← py_get atom_pcharge_num 0;
  n ← PyInt.py_int a;
  b ← py_get atom_pcharge_num 1;
  m ← PyInt.py_int b;
  c ← Np.zeros n 3;
  p ← Np.zeros m 4;
  Ok {| atom_num := Z.to_nat n; pcharge_num := Z.to_nat m;
        element := replicate (Z.to_nat n) None; coor := c; pcharge := p |}.

(** Lines [2 .. atom_num + 1]: coordinates and element of one atom. *)
Definition namd_atom (line : string) (line_count : nat) (v : namd_vars)
  : result namd_vars :=
  let atom_data := fields line in
  c ← for_each (seq 0 3) (fun i c =>
         d ← py_get atom_data i;
         x ← py_float d;
         Np.set c (line_count - 2) i x) (coor v);
  d ← py_get atom_data 3;
  e ← list_set (element v) (line_count - 2) (Some d);
  Ok {| atom_num := atom_num v; pcharge_num := pcharge_num v;
        element := e; coor := c; pcharge := pcharge v |}.

(** The following [pcharge_num] lines: one point charge, its position
    converted to Bohr.  The charge is stored as numpy converts the text. *)
Definition namd_pcharge (line : string) (line_count : nat) (v : namd_vars)
  : result namd_vars :=
  let pcharge_data := fields line in
  let r := (line_count - 2 - atom_num v)%nat in
  d ← py_get pcharge_data 3;
  q ← py_float d;
  p ← Np.set (pcharge v) r 0 q;
  p ← for_each (seq 0 3) (fun i p =>
         d ← py_get pcharge_data i;
         x ← py_float d;
         Np.set p r (i + 1) (mul x bohr)) p;
  Ok {| atom_num := atom_num v; pcharge_num := pcharge_num v;
        element := element v; coor := coor v; pcharge := p |}.

(** A name that is read before any line bound it. *)
Definition bound {A} (v : option A) : result A :=
  match v with
  | Some a => Ok a
  | None => Raise UnboundLocalError
  end.

(** The body of the loop over the lines, [line_count] already incremented. *)
Definition namd_line (line_count : nat) (line : string) (vars : option namd_vars)
  : result (option namd_vars) :=
  vars ← (if (line_count =? 1)%nat
          then v ← namd_header line; Ok (Some v) else Ok vars);
  v ← bound vars;
  v ← (if (1 <? line_count)%nat && (line_count <=? atom_num v + 1)%nat
       then namd_atom line line_count v else Ok v);
  v ← (if (1 + atom_num v <? line_count)%nat
          && (line_count <=? 1 + atom_num v + pcharge_num v)%nat
       then namd_pcharge line line_count v else Ok v);
  Ok (Some v).

Fixpoint namd_loop (lines : list string) (line_count : nat) (vars : option namd_vars)
  : result (option namd_vars) :=
  match lines with
  | [] => Ok vars
  | line :: rest =>
      vars ← namd_line (S line_count) line vars;
      namd_loop rest (S line_count) vars
  end.

(** [read_namdinput] on the lines of the file *)
Definition read_namdinput_lines (input_lines : list string)
  : result (list (option string) * Np.array * Np.array) :=
  vars ← namd_loop input_lines 0 None;
  v ← bound vars;
  Ok (element v, coor v, pcharge v).

(** ** The file system *)

Abbreviation files := (gmap string string).

(** [open(file, 'r')] and [readlines] *)
Definition open_readlines (fs : files) (file : string) : result (list string) :=
  match fs !! file with
  | Some content => Ok (Text.readlines content)
  | None => Raise FileNotFoundError
  end.

(** [os.remove(file)] *)
Definition os_remove (file : string) (fs : files) : result unit * files :=
  match fs !! file with
  | Some _ => (Ok (), delete file fs)
  | None => (Raise FileNotFoundError, fs)
  end.

(** The text that a loop of [write] calls leaves in a file: the loop stops
    at the first line that raises, what was written before stays. *)
Fixpoint write_rows (rows : list (result string)) (written : string)
  : result unit * string :=
  match rows with
  | [] => (Ok (), written)
  | Ok l :: rest => write_rows rest (written +:+ l)
  | Raise e :: _ => (Raise e, written)
  end.

Definition read_namdinput (file : string) (fs : files)
  : result (list (option string) * Np.array * Np.array) :=
  input_lines ← open_readlines fs file;
  read_namdinput_lines input_lines.

(** ** [write_xtbinput] *)

(** ['{}'.format(e)] for an element of the list [element] *)
Definition format_element (e : option string) : string :=
  match e with
  | Some s => s
  | None => "None"
  end.

Definition xyz_row (element : list (option string)) (coor : Np.array) (i : nat)
  : result string :=
  e ← py_get element i;
  x ← Np.get coor i 0;
  y ← Np.get coor i 1;
  z ← Np.get coor i 2;
  Ok (format_element e +:+ " " +:+ format_6f x +:+ " " +:+ format_6f y
        +:+ " " +:+ format_6f z +:+ Text.nl).

Definition row4 (a : Np.array) (i : nat) : result string :=
  x0 ← Np.get a i 0;
  x1 ← Np.get a i 1;
  x2 ← Np.get a i 2;
  x3 ← Np.get a i 3;
  Ok (format_6f x0 +:+ " " +:+ format_6f x1 +:+ " " +:+ format_6f x2
        +:+ " " +:+ format_6f x3 +:+ Text.nl).

Definition len {A} (l : list A) : Z := Z.of_nat (length l).

Definition xyz_text (element : list (option string)) (coor : Np.array)
  : result unit * string :=
  write_rows (xyz_row element coor <$> seq 0 (length element))
             (PyInt.py_str (len element) +:+ Text.nl +:+ Text.nl).

Definition pc_text (pcharge : Np.array) : result unit * string :=
  write_rows (row4 pcharge <$> seq 0 (length pcharge))
             (PyInt.py_str (len pcharge) +:+ Text.nl).

Definition write_xtbinput (xyzfile pchargefile : string)
    (element : list (option string)) (coor pcharge : Np.array) (fs : files)
  : result unit * files :=
  let '(r, text) := xyz_text element coor in
  let fs := <[xyzfile := text]> fs in
  match r with
  | Raise e => (Raise e, fs)
  | Ok _ =>
      let '(r, text) := pc_text pcharge in
      (r, <[pchargefile := text]> fs)
  end.

Definition convert_input (namdinput xtbinput_xyz xtbinput_pc : string) (fs : files)
  : result unit * files :=
  match read_namdinput namdinput fs with
  | Raise e => (Raise e, fs)
  | Ok (element, coor, pcharge) =>
      write_xtbinput xtbinput_xyz xtbinput_pc element coor pcharge fs
  end.

(** ** [read_xtboutput] *)

(** The loop over the lines of the file of charges: every line that is not
    blank holds the charge of one atom. *)
Fixpoint charge_loop (charge_lines : list string) (atom_charge : list float)
  : result (list float) :=
  match charge_lines with
  | [] => Ok atom_charge
  | line :: rest =>
      if Text.is_empty (Text.strip line) then charge_loop rest atom_charge
      else q ← py_float (Text.strip line); charge_loop rest (atom_charge ++ [q])
  end.

(** Hartree to kcal/mol, the literal [630] *)
Definition kcal : float := of_int 630.

(** The force of a gradient: [g * (-630) * 1.88973], as Python evaluates
    it, from left to right. *)
Definition force_of_grad (g : float) : float := mul (mul g (of_int (-630))) bohr.

(** The text of a gradient as [float] accepts it. *)
Definition fortran (s : string) : string := Text.replace "D"%char "E"%char s.

(** A line of gradients: the row [count - atom_num - 2 - 1] of [info]
    receives the three forces and the charge of the atom. *)
Definition grad_atom (atom_charge : list float) (line : string) (row : nat)
    (info : Np.array) : result Np.array :=
  let data := fields line in
  info ← for_each (seq 0 3) (fun i info =>
            d ← py_get data i;
            g ← py_float (fortran d);
            Np.set info row i (force_of_grad g)) info;
  q ← py_get atom_charge row;
  Np.set info row 3 q.

(** The body of the loop over the lines of the gradient file, [count]
    already incremented; the state is the energy, once bound, and [info]. *)
Definition grad_line (atom_num : nat) (atom_charge : list float) (count : nat)
    (line : string) (st : option float * Np.array)
  : result (option float * Np.array) :=
  let '(energy, info) := st in
  if (count =? 1)%nat then Ok st
  else
    energy ← (if (count =? 2)%nat
              then d ← py_get (fields line) 6; e ← py_float d; Ok (Some (mul e kcal))
              else Ok energy);
    info ← (if (atom_num + 2 <? count)%nat && (count <=? atom_num + atom_num + 2)%nat
            then grad_atom atom_charge line (count - atom_num - 2 - 1) info
            else Ok info);
    Ok (energy, info).

Fixpoint grad_loop (atom_num : nat) (atom_charge : list float)
    (grad_lines : list string) (count : nat) (st : option float * Np.array)
  : result (option float * Np.array) :=
  match grad_lines with
  | [] => Ok st
  | line :: rest =>
      st ← grad_line atom_num atom_charge (S count) line st;
      grad_loop atom_num atom_charge rest (S count) st
  end.

(** [read_xtboutput] on the lines of the two files *)
Definition read_xtboutput_lines (charge_lines grad_lines : list string)
  : result (float * Np.array) :=
  atom_charge ← charge_loop charge_lines [];
  let atom_num := length atom_charge in
  info ← Np.zeros (Z.of_nat atom_num) 4;
  st ← grad_loop atom_num atom_charge grad_lines 0 (None, info);
  energy ← bound (fst st);
  Ok (energy, snd st).

Definition read_xtboutput (charge_file grad_file : string) (fs : files)
  : result (float * Np.array) :=
  charge_lines ← open_readlines fs charge_file;
  atom_charge ← charge_loop charge_lines [];
  let atom_num := length atom_charge in
  info ← Np.zeros (Z.of_nat atom_num) 4;
  grad_lines ← open_readlines fs grad_file;
  st ← grad_loop atom_num atom_charge grad_lines 0 (None, info);
  energy ← bound (fst st);
  Ok (energy, snd st).

(** ** [write_namdoutput] *)

Definition namd_text (energy : float) (info : Np.array) : result unit * string :=
  write_rows (row4 info <$> seq 0 (length info)) (format_6f energy +:+ Text.nl).

Definition write_namdoutput (file : string) (energy : float) (info : Np.array)
    (fs : files) : result unit * files :=
  let '(r, text) := namd_text energy info in (r, <[file := text]> fs).

Definition convert_output (xtboutput_charge xtboutput_grad namdoutput : string)
    (fs : files) : result unit * files :=
  match read_xtboutput xtboutput_charge xtboutput_grad fs with
  | Raise e => (Raise e, fs)
  | Ok (energy, info) => write_namdoutput namdoutput energy info fs
  end.

(** ** Path names: [os.path.dirname] and [os.path.basename] *)

Module Path.

Definition is_sep (c : ascii) : bool := Ascii.eqb c "/"%char.

(** [p[:i]] and [p[i:]] for [i = p.rfind('/') + 1], when [p] has a slash. *)
Fixpoint rsplit (p : string) : option (string * string) :=
  match p with
  | EmptyString => None
  | String c p' =>
      match rsplit p' with
      | Some (head, tail) => Some (String c head, tail)
      | None => if is_sep c then Some (String c EmptyString, p') else None
      end
  end.

Fixpoint all_sep (s : string) : bool :=
  match s with
  | EmptyString => true
  | String c s' => is_sep c && all_sep s'
  end.

(** [s.rstrip('/')] *)
Fixpoint rstrip_sep (s : string) : string :=
  match s with
  | EmptyString => EmptyString
  | String c s' =>
      match rstrip_sep s' with
      | EmptyString => if is_sep c then EmptyString else String c EmptyString
      | r => String c r
      end
  end.

Definition dirname (p : string) : string :=
  match rsplit p with
  | None => EmptyString
  | Some (head, _) => if all_sep head then head else rstrip_sep head
  end.

Definition basename (p : string) : string :=
  match rsplit p with
  | None => p
  | Some (_, tail) => tail
  end.

End Path.

(** ** [run_qmmm] *)

(** The world of one step: the files, and the command lines with which
    the xtb program was started so far. *)
Record world : Type := {
  w_files : files;
  w_calls : list (list string)
}.

Section Run.

(** The two constants of the script, as the user set them. *)
Variable xtbdir : string.
Variable qmcharge : list Z.

(** [subprocess.call]: what running a command line does to the files;
    [None] when the program cannot be started. *)
Variable engine : list string -> files -> option files.

Definition subprocess_call (args : list string) (w : world) : result unit * world :=
  let calls := w_calls w ++ [args] in
  match engine args (w_files w) with
  | Some fs => (Ok (), {| w_files := fs; w_calls := calls |})
  | None => (Raise OSError, {| w_files := w_files w; w_calls := calls |})
  end.

(** A file operation in a world. *)
Definition on_files (op : files -> result unit * files) (w : world)
  : result unit * world :=
  let '(r, fs) := op (w_files w) in (r, {| w_files := fs; w_calls := w_calls w |}).

(** [a; b]: the second statement runs when the first one did not raise. *)
Definition andthen (a b : world -> result unit * world) (w : world)
  : result unit * world :=
  match a w with
  | (Ok _, w') => b w'
  | (Raise e, w') => (Raise e, w')
  end.

Definition run_qmmm_with (directory : string) (w : world) : result unit * world :=
  let path := Path.dirname directory in
  let base := Path.basename directory in
  match (s ← py_index (Text.split_on "/"%char path) (-1); PyInt.py_int s) with
  | Raise e => (Raise e, w)
  | Ok qmpart =>
      let xtbxyz := path +:+ "/xtbxyz.xyz" in
      let xtbpcfile := path +:+ "/pcharge" in
      let xtbcharges := path +:+ "/charges" in
      let xtbgrad := path +:+ "/gradient" in
      let xtbrestart := path +:+ "/xtbrestart" in
      let namdoutput := path +:+ "/" +:+ base +:+ ".result" in
      andthen (on_files (convert_input directory xtbxyz xtbpcfile))
     (andthen (fun w =>
                 match py_index qmcharge qmpart with
                 | Raise e => (Raise e, w)
                 | Ok q =>
                     subprocess_call
                       [xtbdir; xtbxyz; "-grad"; "-charge"; PyInt.py_str q] w
                 end)
     (andthen (on_files (convert_output xtbcharges xtbgrad namdoutput))
     (andthen (on_files (os_remove xtbxyz))
     (andthen (on_files (os_remove xtbpcfile))
     (andthen (on_files (os_remove xtbcharges))
     (andthen (on_files (os_remove xtbgrad))
              (on_files (os_remove xtbrestart))))))))
        w
  end.

End Run.

(** A statement that starts no program. *)
Definition keeps_calls (a : world -> result unit * world) : Prop :=
  forall w, w_calls (snd (a w)) = w_calls w.

(** [run_qmmm] with the constants of the script as it is distributed. *)
Definition run_qmmm := run_qmmm_with XTBDIR QMCHARGE.


(** * What the files say

    The content of the files that the script reads, line by line, stated
    without the counters and the arrays of the loops that read them. *)

Definition ok {A} (r : result A) : option A :=
  match r with
  | Ok a => Some a
  | Raise _ => None
  end.

(** ** The step file of NAMD *)

Record atom : Type := {
  a_x : float;
  a_y : float;
  a_z : float;
  a_element : string
}.

Record point_charge : Type := {
  p_x : float;
  p_y : float;
  p_z : float;
  p_charge : float
}.

(** The two counts of the first line. *)
Definition header_of_line (line : string) : option (Z * Z) :=
  match fields line with
  | sn :: sm :: _ => n ← ok (PyInt.py_int sn); m ← ok (PyInt.py_int sm); Some (n, m)
  | _ => None
  end.

(** A line [x y z element]. *)
Definition atom_of_line (line : string) : option atom :=
  match fields line with
  | sx :: sy :: sz :: e :: _ =>
      x ← ok (py_float sx); y ← ok (py_float sy); z ← ok (py_float sz);
      Some {| a_x := x; a_y := y; a_z := z; a_element := e |}
  | _ => None
  end.

(** A line [x y z charge]. *)
Definition point_charge_of_line (line : string) : option point_charge :=
  match fields line with
  | sx :: sy :: sz :: sq :: _ =>
      x ← ok (py_float sx); y ← ok (py_float sy); z ← ok (py_float sz);
      q ← ok (py_float sq);
      Some {| p_x := x; p_y := y; p_z := z; p_charge := q |}
  | _ => None
  end.

(** The row of [coor] of an atom: its position as the file gives it. *)
Definition coor_row (a : atom) : list float := [a_x a; a_y a; a_z a].

(** The row of [pcharge] of a point charge: the charge, then the position
    in Bohr. *)
Definition pcharge_row (p : point_charge) : list float :=
  [p_charge p; mul (p_x p) bohr; mul (p_y p) bohr; mul (p_z p) bohr].

(** A step file that [read_namdinput] cannot read: the first line lacks a
    count or holds one that is no integer, or one of the lines of atoms and
    point charges that the counts announce has fewer than four fields. *)
Inductive malformed_step : list string -> Prop :=
| header_short header rest :
    (length (fields header) < 2)%nat ->
    malformed_step (header :: rest)
| atom_count_bad header rest sn hrest :
    fields header = sn :: hrest ->
    is_Raise (PyInt.py_int sn) ->
    malformed_step (header :: rest)
| pcharge_count_bad header rest sn sm hrest :
    fields header = sn :: sm :: hrest ->
    is_Raise (PyInt.py_int sm) ->
    malformed_step (header :: rest)
| line_short header rest n m k line :
    header_of_line header = Some (n, m) ->
    rest !! k = Some line ->
    Z.of_nat k < n + m ->
    (length (fields line) < 4)%nat ->
    malformed_step (header :: rest).

(** ** The two result files of xtb *)

(** The lines of a file that exists. *)
Definition file_lines (fs : files) (file : string) : option (list string) :=
  Text.readlines <$> fs !! file.

Record gradient : Type := {
  g_x : float;
  g_y : float;
  g_z : float
}.

Definition nonblank (line : string) : bool := negb (Text.is_empty (Text.strip line)).

(** The lines of the file of charges that are not blank. *)
Definition nonblank_lines (charge_lines : list string) : list string :=
  List.filter nonblank charge_lines.

Definition charge_of_line (line : string) : option float :=
  ok (py_float (Text.strip line)).

(** The charges: one on every line that is not blank. *)
Definition charges_of (charge_lines : list string) : option (list float) :=
  mapM charge_of_line (nonblank_lines charge_lines).

(** The energy in Hartree: the field of index 6 of the second line. *)
Definition energy_of (grad_lines : list string) : option float :=
  line ← grad_lines !! 1%nat; d ← fields line !! 6%nat; ok (py_float d).

(** A line of three gradients in the notation of Fortran. *)
Definition gradient_of_line (line : string) : option gradient :=
  match fields line with
  | sx :: sy :: sz :: _ =>
      x ← ok (py_float (fortran sx)); y ← ok (py_float (fortran sy));
      z ← ok (py_float (fortran sz));
      Some {| g_x := x; g_y := y; g_z := z |}
  | _ => None
  end.

(** The lines of the gradient file that [read_xtboutput] reads gradients
    from, for [n] atoms: it passes over the two first lines and over [n]
    more lines, then reads the next [n] lines, or those of them that the
    file has. *)
Definition gradient_lines (n : nat) (grad_lines : list string) : list string :=
  take n (drop (n + 2) grad_lines).

Definition gradients_of (n : nat) (grad_lines : list string) : option (list gradient) :=
  mapM gradient_of_line (gradient_lines n grad_lines).

(** The row of [info] of an atom: the three forces, then the charge. *)
Definition info_row (g : gradient) (q : float) : list float :=
  [force_of_grad (g_x g); force_of_grad (g_y g); force_of_grad (g_z g); q].

(** The row of [info] that a line of gradients and a charge make. *)
Definition row_of_line (line : string) (q : float) : option (list float) :=
  g ← gradient_of_line line; Some (info_row g q).

Definition zero3 : list float := replicate 3 zero.
Definition zero4 : list float := replicate 4 zero.

(** * Sample files *)

(** The text of a file, given line by line. *)
Definition text_of_lines (lines : list string) : string :=
  Text.concat ((fun l => l +:+ Text.nl) <$> lines).

(** A step file: two hydrogen atoms and one point charge. *)
Definition sample_step_lines : list string :=
  ["2 1"; "0.0 0.0 0.0 H"; "0.0 0.0 1.0 H"; "0.0 0.0 2.0 0.5"].

Definition sample_step : string := text_of_lines sample_step_lines.

Definition sample_atoms : list atom :=
  [ {| a_x := literal "0.0"; a_y := literal "0.0"; a_z := literal "0.0";
       a_element := "H" |};
    {| a_x := literal "0.0"; a_y := literal "0.0"; a_z := literal "1.0";
       a_element := "H" |} ].

Definition sample_pcharges : list point_charge :=
  [ {| p_x := literal "0.0"; p_y := literal "0.0"; p_z := literal "2.0";
       p_charge := literal "0.5" |} ].

(** The two result files of xtb for two atoms, in the layout of xtb: the
    header, the line of the energy, one line of coordinates for each atom,
    one line of gradients for each atom, the closing line. *)
Definition sample_charge_lines : list string := ["0.1"; ""; "-0.1"].

Definition sample_grad_lines : list string :=
  ["$grad";
   "  cycle =      1    SCF energy =    -5.07054444346   |dE/dxyz| =  0.000430";
   "    0.00000000000000      0.00000000000000     -0.74176435144711      h";
   "    0.00000000000000      0.00000000000000      0.74176435144711      h";
   "  -0.1234D-01  0.0D+00  1.0D-01";
   "  0.1234D-01  0.0D+00  -0.0123";
   "$end"].

Definition sample_xtb_files : files :=
  {[ "/w/0/charges" := text_of_lines sample_charge_lines;
     "/w/0/gradient" := text_of_lines sample_grad_lines ]}.

(** The same, the gradient file cut after the gradients of the first atom. *)
Definition short_xtb_files : files :=
  {[ "/w/0/charges" := text_of_lines sample_charge_lines;
     "/w/0/gradient" := text_of_lines (take 5 sample_grad_lines) ]}.

(** The same, the line of the energy cut after its third field. *)
Definition broken_xtb_files : files :=
  {[ "/w/0/charges" := text_of_lines sample_charge_lines;
     "/w/0/gradient" := text_of_lines ["$grad"; "  cycle =      1"] ]}.

(** The lines, the charges, the energy and the gradients of result files. *)
Definition lines_in (fs : files) (file : string) : list string :=
  default [] (file_lines fs file).

Definition charges_in (fs : files) : list float :=
  default [] (charges_of (lines_in fs "/w/0/charges")).

Definition energy_in (fs : files) : float :=
  default S754_nan (energy_of (lines_in fs "/w/0/gradient")).

Definition gradients_in (fs : files) : list gradient :=
  default [] (gradients_of (length (charges_in fs)) (lines_in fs "/w/0/gradient")).

(** A stand-in for xtb: it leaves its three files next to the structure
    file that its command line names. *)
Definition sample_engine (args : list string) (fs : files) : option files :=
  match args !! 1%nat with
  | Some xyz =>
      let dir := Path.dirname xyz in
      Some (<[dir +:+ "/charges" := text_of_lines sample_charge_lines]>
           (<[dir +:+ "/gradient" := text_of_lines sample_grad_lines]>
           (<[dir +:+ "/xtbrestart" := "restart"]> fs)))
  | None => None
  end.

(** A world with one step file, in the directory of the QM part [part]. *)
Definition sample_world (part : string) : world :=
  {| w_files := {[ "/w/" +:+ part +:+ "/qmmm.input" := sample_step ]};
     w_calls := [] |}.

(** * More on the functions of the script *)

(** An array of [rows] rows of [cols] numbers each. *)
Definition shape (rows cols : nat) (a : Np.array) : Prop :=
  length a = rows /\ Forall (fun row => length row = cols) a.

(** The variables of [read_namdinput] hold arrays of the sizes that the
    first line gave. *)
Definition namd_sized (v : namd_vars) : Prop :=
  length (element v) = atom_num v /\
  shape (atom_num v) 3 (coor v) /\
  shape (pcharge_num v) 4 (pcharge v).

(** The exceptions of a line of values: [IndexError] for a missing field,
    [ValueError] for a field that is no number. *)
Definition parse_error (e : exn) : Prop := e = IndexError \/ e = ValueError.


(** The sign of a number: [true] for negative, none for NaN. *)
Definition sign_bit (x : float) : option bool :=
  match x with
  | S754_zero s | S754_infinity s | S754_finite s _ _ => Some s
  | S754_nan => None
  end.

(** The six files that a step reads, writes or removes besides the step
    file: the two input files of xtb, its three output files, and the
    result file. *)
Definition step_files (directory : string) : list string :=
  let path := Path.dirname directory in
  [path +:+ "/xtbxyz.xyz"; path +:+ "/pcharge"; path +:+ "/charges";
   path +:+ "/gradient"; path +:+ "/xtbrestart";
   path +:+ "/" +:+ Path.basename directory +:+ ".result"].

(** A statement that leaves the file [f] as it is. *)
Definition keeps_file (f : string) (a : world -> result unit * world) : Prop :=
  forall w, w_files (snd (a w)) !! f = w_files w !! f.

(** The command line of xtb for the structure file of [directory] and the
    charge [q]. *)
Definition command (xtbdir directory : string) (q : Z) : list string :=
  [xtbdir; Path.dirname directory +:+ "/xtbxyz.xyz"; "-grad"; "-charge";
   PyInt.py_str q].

(** The part of the number of the QM part: [int(path.split('/')[-1])]. *)
Definition qmpart_of (directory : string) : result Z :=
  s ← py_index (Text.split_on "/"%char (Path.dirname directory)) (-1);
  PyInt.py_int s.

(** A stand-in for xtb that leaves no restart file. *)
Definition forgetful_engine (args : list string) (fs : files) : option files :=
  delete (Path.dirname (default "" (args !! 1%nat)) +:+ "/xtbrestart")
    <$> sample_engine args fs.

(** ** The script run as a program *)

(** The body of [if __name__ == '__main__']: the log file is opened for
    writing, which empties it, and [run_qmmm] runs with it. *)
Definition main_with (xtbdir : string) (qmcharge : list Z)
    (engine : list string -> files -> option files) (argv1 : string) (w : world)
  : result unit * world :=
  let useless := Path.dirname argv1 +:+ "/useless.log" in
  run_qmmm_with xtbdir qmcharge engine argv1
    {| w_files := <[useless := ""]> (w_files w); w_calls := w_calls w |}.

(** A text without white space. *)
Fixpoint no_space (s : string) : bool :=
  match s with
  | EmptyString => true
  | String c s' => negb (Text.is_space c) && no_space s'
  end.

(** A field: a text that is not empty and has no white space. *)
Definition is_field (s : string) : Prop :=
  Text.is_empty s = false /\ no_space s = true.
(** * Properties *)

(** ** The error monad *)

Lemma bind_Ok {A B} (f : A -> result B) (a : A) : (Ok a ≫= f) = f a.
Proof. reflexivity. Qed.

Lemma bind_Raise {A B} (f : A -> result B) (e : exn) : (Raise e ≫= f) = Raise e.
Proof. reflexivity. Qed.

Lemma bind_Ok_inv {A B} (f : A -> result B) (m : result A) (b : B) :
  (m ≫= f) = Ok b -> exists a, m = Ok a /\ f a = Ok b.
Proof. destruct m as [a|e]; [eauto | discriminate]. Qed.

Lemma bind_raises {A B} (f : A -> result B) (m : result A) :
  (forall a, is_Raise (f a)) -> is_Raise (m ≫= f).
Proof. intros H. destruct m as [a|e]; [apply H | by exists e]. Qed.

Lemma is_Raise_Raise {A} (e : exn) : is_Raise (@Raise A e).
Proof. by exists e. Qed.

Lemma py_get_lookup {A} (l : list A) (i : nat) (a : A) :
  l !! i = Some a -> py_get l i = Ok a.
Proof. unfold py_get. by intros ->. Qed.

Lemma py_get_short {A} (l : list A) (i : nat) :
  (length l <= i)%nat -> py_get l i = Raise IndexError.
Proof. intros H. unfold py_get. by rewrite (lookup_ge_None_2 l i H). Qed.

#[local] Hint Resolve is_Raise_Raise : core.

(** ** Arrays: a row written field by field *)

Lemma np_set_row (a : Np.array) (r c : nat) (row : list float) (v : float) :
  a !! r = Some row -> (c < length row)%nat ->
  Np.set a r c v = Ok (<[r := <[c := v]> row]> a).
Proof.
  intros Hr Hc. unfold Np.set. rewrite Hr.
  by rewrite bool_decide_eq_true_2.
Qed.

Lemma insert_again {A} (l : list A) (r : nat) (x y : A) :
  <[r := y]> (<[r := x]> l) = <[r := y]> l.
Proof.
  revert r. induction l as [|z l IH]; intros [|r]; simpl; try done.
  by rewrite IH.
Qed.

Lemma lookup_inserted {A} (l : list A) (r : nat) (x y : A) :
  l !! r = Some x -> <[r := y]> l !! r = Some y.
Proof. intros H. apply list_lookup_insert_eq. by eapply lookup_lt_Some. Qed.

(** Writing into the first slot that is still in its initial state adds
    the row to the part already filled. *)
Lemma insert_next {A} (done : list A) (n : nat) (z x : A) :
  <[length done := x]> (done ++ replicate (S n) z) = (done ++ [x]) ++ replicate n z.
Proof.
  rewrite insert_app_r_alt by lia.
  rewrite Nat.sub_diag. simpl. by rewrite <- app_assoc.
Qed.

Lemma lookup_next {A} (done : list A) (n : nat) (z : A) :
  (done ++ replicate (S n) z) !! length done = Some z.
Proof. rewrite lookup_app_r by lia. by rewrite Nat.sub_diag. Qed.

Lemma ok_Some {A} (r : result A) (a : A) : ok r = Some a -> r = Ok a.
Proof. destruct r; simpl; congruence. Qed.

(** ** [read_namdinput] on a well-formed step file *)


(** One more field of a row that was already written to. *)
Ltac set_field Hrow :=
  match goal with
  | |- context [Np.set (<[?r := ?row]> ?a) ?r ?c ?v] =>
      rewrite (np_set_row (<[r := row]> a) r c row v
                 (lookup_inserted a r _ row Hrow)) by (simpl; lia);
      rewrite insert_again; simpl
  end.

Lemma namd_atom_ok (line : string) (a : atom) (v : namd_vars) (r : nat) :
  atom_of_line line = Some a ->
  coor v !! r = Some zero3 ->
  (r < length (element v))%nat ->
  namd_atom line (S (S r)) v =
    Ok {| atom_num := atom_num v; pcharge_num := pcharge_num v;
          element := <[r := Some (a_element a)]> (element v);
          coor := <[r := coor_row a]> (coor v); pcharge := pcharge v |}.
Proof.
  unfold atom_of_line, namd_atom. intros Ha Hrow Hr.
  destruct (fields line) as [|sx [|sy [|sz [|e rest]]]]; try discriminate.
  destruct (py_float sx) as [x|] eqn:Hx; try discriminate.
  destruct (py_float sy) as [y|] eqn:Hy; try discriminate.
  destruct (py_float sz) as [z|] eqn:Hz; try discriminate.
  simpl in Ha. injection Ha as <-.
  replace (S (S r) - 2)%nat with r by lia.
  simpl. rewrite Hx. simpl.
  rewrite (np_set_row _ _ 0 _ x Hrow) by (simpl; lia). simpl.
  rewrite Hy. simpl. set_field Hrow.
  rewrite Hz. simpl. set_field Hrow.
  unfold list_set. rewrite bool_decide_eq_true_2 by done.
  reflexivity.
Qed.

Lemma namd_pcharge_ok (line : string) (p : point_charge) (v : namd_vars) (r : nat) :
  point_charge_of_line line = Some p ->
  pcharge v !! r = Some zero4 ->
  namd_pcharge line (S (S (r + atom_num v))) v =
    Ok {| atom_num := atom_num v; pcharge_num := pcharge_num v;
          element := element v; coor := coor v;
          pcharge := <[r := pcharge_row p]> (pcharge v) |}.
Proof.
  unfold point_charge_of_line, namd_pcharge. intros Hp Hrow.
  destruct (fields line) as [|sx [|sy [|sz [|sq rest]]]]; try discriminate.
  destruct (py_float sx) as [x|] eqn:Hx; try discriminate.
  destruct (py_float sy) as [y|] eqn:Hy; try discriminate.
  destruct (py_float sz) as [z|] eqn:Hz; try discriminate.
  destruct (py_float sq) as [q|] eqn:Hq; try discriminate.
  simpl in Hp. injection Hp as <-.
  replace (S (S (r + atom_num v)) - 2 - atom_num v)%nat with r by lia.
  simpl. rewrite Hq. simpl.
  rewrite (np_set_row _ _ 0 _ q Hrow) by (simpl; lia). simpl.
  rewrite Hx. simpl. set_field Hrow.
  rewrite Hy. simpl. set_field Hrow.
  rewrite Hz. simpl. set_field Hrow.
  reflexivity.
Qed.

(** The comparisons of the loop counters, decided by arithmetic. *)
Ltac run_cond :=
  repeat first
    [ progress cbn [andb bound mbind result_bind]
    | progress cbv [atom_num pcharge_num]
    | match goal with
      | |- context [(?a =? ?b)%nat] => destruct (Nat.eqb_spec a b); [try lia | try lia]
      | |- context [(?a <=? ?b)%nat] => destruct (Nat.leb_spec a b); [try lia | try lia]
      | |- context [(?a <? ?b)%nat] => destruct (Nat.ltb_spec a b); [try lia | try lia]
      end ].

Lemma np_zeros_nat (n cols : nat) :
  Np.zeros (Z.of_nat n) cols = Ok (replicate n (replicate cols zero)).
Proof.
  unfold Np.zeros. destruct (Z.ltb_spec (Z.of_nat n) 0); [lia|].
  by rewrite Nat2Z.id.
Qed.

Lemma namd_header_ok (header : string) (n m : nat) :
  header_of_line header = Some (Z.of_nat n, Z.of_nat m) ->
  namd_line 1 header None =
    Ok (Some {| atom_num := n; pcharge_num := m; element := replicate n None;
                coor := replicate n zero3; pcharge := replicate m zero4 |}).
Proof.
  unfold header_of_line, namd_line, namd_header. intros H.
  destruct (fields header) as [|sn [|sm hrest]]; try discriminate.
  destruct (PyInt.py_int sn) as [n'|] eqn:Hn; try discriminate.
  destruct (PyInt.py_int sm) as [m'|] eqn:Hm; try discriminate.
  simpl in H. injection H as -> ->.
  simpl. rewrite Hn. simpl. rewrite Hm. simpl.
  rewrite !np_zeros_nat. simpl. rewrite !Nat2Z.id.
  run_cond. reflexivity.
Qed.


Lemma namd_line_atom (line : string) (a : atom) (n m r : nat)
    (e : list (option string)) (c p : Np.array) :
  atom_of_line line = Some a ->
  (r < n)%nat ->
  c !! r = Some zero3 ->
  (r < length e)%nat ->
  namd_line (S (S r)) line
    (Some {| atom_num := n; pcharge_num := m; element := e; coor := c; pcharge := p |}) =
  Ok (Some {| atom_num := n; pcharge_num := m;
              element := <[r := Some (a_element a)]> e;
              coor := <[r := coor_row a]> c; pcharge := p |}).
Proof.
  intros Ha Hr Hc He. unfold namd_line. run_cond.
  rewrite (namd_atom_ok line a _ r Ha) by done.
  cbv [element coor pcharge]. run_cond. reflexivity.
Qed.

Lemma namd_line_pcharge (line : string) (q : point_charge) (n m r : nat)
    (e : list (option string)) (c p : Np.array) :
  point_charge_of_line line = Some q ->
  (r < m)%nat ->
  p !! r = Some zero4 ->
  namd_line (S (S (r + n))) line
    (Some {| atom_num := n; pcharge_num := m; element := e; coor := c; pcharge := p |}) =
  Ok (Some {| atom_num := n; pcharge_num := m; element := e; coor := c;
              pcharge := <[r := pcharge_row q]> p |}).
Proof.
  intros Hq Hr Hp. unfold namd_line. run_cond.
  pose proof (namd_pcharge_ok line q
    {| atom_num := n; pcharge_num := m; element := e; coor := c; pcharge := p |}
    r Hq Hp) as H'.
  cbv [atom_num pcharge_num element coor pcharge] in H'.
  rewrite H'. reflexivity.
Qed.

Lemma namd_line_extra (line : string) (count : nat) (v : namd_vars) :
  (1 + atom_num v + pcharge_num v < count)%nat ->
  namd_line count line (Some v) = Ok (Some v).
Proof.
  intros Hc. unfold namd_line. destruct v as [n m e c p].
  cbv [atom_num pcharge_num] in Hc. run_cond. reflexivity.
Qed.

Lemma namd_loop_atoms (lines : list string) (atoms : list atom) :
  Forall2 (fun l a => atom_of_line l = Some a) lines atoms ->
  forall (n m : nat) (de : list (option string)) (dc p : Np.array) (tail : list string),
  length de = length dc ->
  (length dc + length lines <= n)%nat ->
  namd_loop (lines ++ tail) (S (length dc))
    (Some {| atom_num := n; pcharge_num := m;
             element := de ++ replicate (length lines) None;
             coor := dc ++ replicate (length lines) zero3; pcharge := p |}) =
  namd_loop tail (S (length dc + length lines))
    (Some {| atom_num := n; pcharge_num := m;
             element := de ++ ((fun a => Some (a_element a)) <$> atoms);
             coor := dc ++ (coor_row <$> atoms); pcharge := p |}).
Proof.
  induction 1 as [|line a lines atoms Ha _ IH]; intros n m de dc p tail Hlen Hn.
  - simpl. by rewrite Nat.add_0_r.
  - simpl in Hn. cbn [length app namd_loop].
    rewrite (namd_line_atom line a n m (length dc)); try done; try lia.
    + cbn [mbind result_bind].
      rewrite insert_next. rewrite <- Hlen, insert_next, Hlen.
      specialize (IH n m (de ++ [Some (a_element a)]) (dc ++ [coor_row a]) p tail).
      rewrite !length_app in IH. simpl in IH.
      replace (length dc + 1)%nat with (S (length dc)) in IH by lia.
      rewrite IH by lia.
      rewrite <- !app_assoc. simpl.
      by rewrite Nat.add_succ_r.
    + apply lookup_next.
    + rewrite length_app, length_replicate. simpl. lia.
Qed.

Lemma namd_loop_pcharges (lines : list string) (pcs : list point_charge) :
  Forall2 (fun l p => point_charge_of_line l = Some p) lines pcs ->
  forall (n m : nat) (e : list (option string)) (c dp : Np.array) (tail : list string),
  (length dp + length lines <= m)%nat ->
  namd_loop (lines ++ tail) (S (length dp + n))
    (Some {| atom_num := n; pcharge_num := m; element := e; coor := c;
             pcharge := dp ++ replicate (length lines) zero4 |}) =
  namd_loop tail (S (length dp + length lines + n))
    (Some {| atom_num := n; pcharge_num := m; element := e; coor := c;
             pcharge := dp ++ (pcharge_row <$> pcs) |}).
Proof.
  induction 1 as [|line q lines pcs Hq _ IH]; intros n m e c dp tail Hm.
  - simpl. by rewrite Nat.add_0_r, app_nil_r.
  - simpl in Hm. cbn [length app namd_loop].
    rewrite (namd_line_pcharge line q n m (length dp)); try done; try lia.
    + cbn [mbind result_bind]. rewrite insert_next.
      specialize (IH n m e c (dp ++ [pcharge_row q]) tail).
      rewrite !length_app in IH. simpl in IH.
      replace (length dp + 1 + n)%nat with (S (length dp + n)) in IH by lia.
      rewrite IH by lia.
      rewrite <- !app_assoc. simpl.
      by replace (length dp + 1 + length lines + n)%nat
        with (length dp + S (length lines) + n)%nat by lia.
    + apply lookup_next.
Qed.

Lemma namd_loop_extra (tail : list string) :
  forall (count : nat) (v : namd_vars),
  (1 + atom_num v + pcharge_num v <= count)%nat ->
  namd_loop tail count (Some v) = Ok (Some v).
Proof.
  induction tail as [|line tail IH]; intros count v Hc; [done|].
  cbn [namd_loop]. rewrite namd_line_extra by lia.
  cbn [mbind result_bind]. apply IH. lia.
Qed.

Lemma read_namdinput_lines_ok (header : string) (atom_lines pc_lines extra : list string)
    (atoms : list atom) (pcs : list point_charge) :
  header_of_line header = Some (len atom_lines, len pc_lines) ->
  mapM atom_of_line atom_lines = Some atoms ->
  mapM point_charge_of_line pc_lines = Some pcs ->
  read_namdinput_lines (header :: atom_lines ++ pc_lines ++ extra) =
    Ok ((fun a => Some (a_element a)) <$> atoms, coor_row <$> atoms,
        pcharge_row <$> pcs).
Proof.
  intros Hh Ha Hp. apply mapM_Some in Ha, Hp.
  unfold read_namdinput_lines. cbn [namd_loop].
  rewrite (namd_header_ok header (length atom_lines) (length pc_lines) Hh).
  cbn [mbind result_bind].
  pose proof (namd_loop_atoms _ _ Ha (length atom_lines) (length pc_lines)
                [] [] (replicate (length pc_lines) zero4) (pc_lines ++ extra)) as H1.
  simpl in H1. rewrite H1 by (done || lia). clear H1.
  pose proof (namd_loop_pcharges _ _ Hp (length atom_lines) (length pc_lines)
                ((fun a => Some (a_element a)) <$> atoms) (coor_row <$> atoms)
                [] extra) as H2.
  simpl in H2. rewrite H2 by lia. clear H2.
  rewrite namd_loop_extra by (simpl; lia).
  reflexivity.
Qed.
Lemma bind_raised {A B} (f : A -> result B) (m : result A) :
  is_Raise m -> is_Raise (m ≫= f).
Proof. intros [e ->]. by exists e. Qed.

(** ** [read_namdinput] on a malformed step file *)

Lemma namd_atom_counts (line : string) (count : nat) (v v' : namd_vars) :
  namd_atom line count v = Ok v' ->
  atom_num v' = atom_num v /\ pcharge_num v' = pcharge_num v.
Proof.
  unfold namd_atom. intros H.
  apply bind_Ok_inv in H as (c & _ & H).
  apply bind_Ok_inv in H as (d & _ & H).
  apply bind_Ok_inv in H as (e & _ & H).
  injection H as <-. done.
Qed.

Lemma namd_pcharge_counts (line : string) (count : nat) (v v' : namd_vars) :
  namd_pcharge line count v = Ok v' ->
  atom_num v' = atom_num v /\ pcharge_num v' = pcharge_num v.
Proof.
  unfold namd_pcharge. intros H.
  apply bind_Ok_inv in H as (d & _ & H).
  apply bind_Ok_inv in H as (q & _ & H).
  apply bind_Ok_inv in H as (p & _ & H).
  apply bind_Ok_inv in H as (p' & _ & H).
  injection H as <-. done.
Qed.

Lemma namd_line_counts (count : nat) (line : string) (v : namd_vars)
    (r : option namd_vars) :
  count <> 1%nat ->
  namd_line count line (Some v) = Ok r ->
  exists v', r = Some v' /\ atom_num v' = atom_num v /\ pcharge_num v' = pcharge_num v.
Proof.
  intros Hc. unfold namd_line.
  destruct (Nat.eqb_spec count 1) as [|_]; [done|].
  cbn [bound mbind result_bind]. intros H.
  apply bind_Ok_inv in H as (v1 & H1 & H).
  apply bind_Ok_inv in H as (v2 & H2 & H).
  injection H as <-. exists v2. split; [done|].
  assert (atom_num v1 = atom_num v /\ pcharge_num v1 = pcharge_num v) as [E1 E2].
  { destruct (_ && _) in H1; [by eapply namd_atom_counts|]. by injection H1 as <-. }
  assert (atom_num v2 = atom_num v1 /\ pcharge_num v2 = pcharge_num v1) as [E3 E4].
  { destruct (_ && _) in H2; [by eapply namd_pcharge_counts|]. by injection H2 as <-. }
  split; congruence.
Qed.

Lemma namd_atom_short (line : string) (count : nat) (v : namd_vars) :
  (length (fields line) < 4)%nat -> is_Raise (namd_atom line count v).
Proof.
  intros Hf. unfold namd_atom. apply bind_raises. intros c.
  rewrite py_get_short by lia. by eexists.
Qed.

Lemma namd_pcharge_short (line : string) (count : nat) (v : namd_vars) :
  (length (fields line) < 4)%nat -> is_Raise (namd_pcharge line count v).
Proof.
  intros Hf. unfold namd_pcharge. rewrite py_get_short by lia. by eexists.
Qed.

Lemma namd_line_short (count : nat) (line : string) (v : namd_vars) :
  (2 <= count <= 1 + atom_num v + pcharge_num v)%nat ->
  (length (fields line) < 4)%nat ->
  is_Raise (namd_line count line (Some v)).
Proof.
  intros Hc Hf. unfold namd_line.
  destruct (Nat.eqb_spec count 1) as [|_]; [lia|].
  cbn [bound mbind result_bind].
  destruct (Nat.leb_spec count (atom_num v + 1)) as [Hle|Hgt].
  - replace (1 <? count)%nat with true by (symmetry; apply Nat.ltb_lt; lia).
    cbn [andb]. apply bind_raised. by apply namd_atom_short.
  - rewrite andb_false_r. cbn [mbind result_bind].
    replace (1 + atom_num v <? count)%nat with true by (symmetry; apply Nat.ltb_lt; lia).
    replace (count <=? 1 + atom_num v + pcharge_num v)%nat with true
      by (symmetry; apply Nat.leb_le; lia).
    cbn [andb]. apply bind_raised. by apply namd_pcharge_short.
Qed.

Lemma namd_loop_short (rest : list string) :
  forall (k : nat) (line : string) (count : nat) (v : namd_vars),
  rest !! k = Some line ->
  (length (fields line) < 4)%nat ->
  (1 <= count)%nat ->
  (count + k + 1 <= 1 + atom_num v + pcharge_num v)%nat ->
  is_Raise (namd_loop rest count (Some v)).
Proof.
  induction rest as [|l rest IH]; intros k line count v Hk Hf Hc Hn; [done|].
  cbn [namd_loop]. destruct k as [|k].
  - injection Hk as ->. apply bind_raised. apply namd_line_short; [lia | done].
  - destruct (namd_line (S count) l (Some v)) as [r|e] eqn:Hl; [|by eexists].
    apply namd_line_counts in Hl as (v' & -> & E1 & E2); [|lia].
    cbn [mbind result_bind]. apply (IH k line); [done | done | lia |].
    rewrite E1, E2. lia.
Qed.

Lemma namd_header_inv (header : string) (n m : Z) (r : option namd_vars) :
  header_of_line header = Some (n, m) ->
  namd_line 1 header None = Ok r ->
  exists v, r = Some v /\ atom_num v = Z.to_nat n /\ pcharge_num v = Z.to_nat m
            /\ 0 <= n /\ 0 <= m.
Proof.
  unfold header_of_line, namd_line, namd_header. intros H.
  destruct (fields header) as [|sn [|sm hrest]]; try discriminate.
  destruct (PyInt.py_int sn) as [n'|] eqn:Hn; try discriminate.
  destruct (PyInt.py_int sm) as [m'|] eqn:Hm; try discriminate.
  simpl in H. injection H as -> ->.
  simpl. rewrite Hn. simpl. rewrite Hm. simpl.
  unfold Np.zeros.
  destruct (Z.ltb_spec n 0); [discriminate|].
  destruct (Z.ltb_spec m 0); [discriminate|].
  cbn [mbind result_bind bound]. run_cond.
  intros [= <-]. eexists. split; [done|]. simpl. lia.
Qed.

Lemma read_namdinput_lines_malformed (lines : list string) :
  malformed_step lines -> is_Raise (read_namdinput_lines lines).
Proof.
  intros M. unfold read_namdinput_lines. apply bind_raised.
  destruct M as [header rest Hs | header rest sn hrest Hf Hn
                | header rest sn sm hrest Hf Hm | header rest n m k line Hh Hk Hkn Hs];
    cbn [namd_loop].
  - apply bind_raised. unfold namd_line. cbn [Nat.eqb].
    do 2 apply bind_raised. unfold namd_header.
    destruct (fields header) as [|a [|b l]]; [by eexists | | simpl in Hs; lia].
    cbn. destruct (PyInt.py_int a); by eexists.
  - apply bind_raised. unfold namd_line. cbn [Nat.eqb].
    do 2 apply bind_raised. unfold namd_header.
    rewrite Hf. cbn. destruct Hn as [e ->]. by eexists.
  - apply bind_raised. unfold namd_line. cbn [Nat.eqb].
    do 2 apply bind_raised. unfold namd_header.
    rewrite Hf. cbn. destruct (PyInt.py_int sn); [|by eexists].
    cbn. destruct Hm as [e ->]. by eexists.
  - destruct (namd_line 1 header None) as [r|e] eqn:Hl; [|by eexists].
    apply (namd_header_inv header n m) in Hl as (v & -> & E1 & E2 & Hn & Hm); [|done].
    cbn [mbind result_bind]. apply (namd_loop_short rest k line); [done | done | lia |].
    rewrite E1, E2. lia.
Qed.

(** ** Checks of the text and number functions on known values *)

Example split_fields : fields "  0.1D-01   2.0  h " = ["0.1D-01"; "2.0"; "h"].
Proof. reflexivity. Qed.

Example readlines_keeps_ends :
  Text.readlines ("a" +:+ Text.nl +:+ Text.nl +:+ "b")
    = ["a" +:+ Text.nl; Text.nl; "b"].
Proof. reflexivity. Qed.

Example int_forms :
  PyInt.py_int " +1_0 " = Ok 10 /\ PyInt.py_int "-007" = Ok (-7) /\
  PyInt.py_int "1__0" = Raise ValueError /\ PyInt.py_int "" = Raise ValueError.
Proof. repeat split; reflexivity. Qed.

(** [int] and [float] skip TAB, LF, VT, FF, CR and the blank, and not the
    separators FS to US that [str.strip] removes. *)
Example number_separators :
  PyInt.py_int (String (ascii_of_nat 28) "0") = Raise ValueError /\
  PyInt.py_int (String "0" (String (ascii_of_nat 31) "")) = Raise ValueError /\
  py_float (String (ascii_of_nat 29) "0.5") = Raise ValueError /\
  PyInt.py_int (String (ascii_of_nat 11) "0" +:+ Text.nl) = Ok 0 /\
  py_float (String (ascii_of_nat 12) "0" +:+ Text.nl) = Ok (S754_zero false) /\
  Text.strip (String (ascii_of_nat 28) "0") = "0".
Proof. repeat split; vm_compute; reflexivity. Qed.

(** 0.1 is 0x1.999999999999ap-4, and 1.88973 is 0x1.e3c558644523fp+0. *)
Example float_tenth : py_float "0.1" = Ok (S754_finite false 7205759403792794 (-56)).
Proof. vm_compute. reflexivity. Qed.

Example float_bohr : bohr = S754_finite false 8510587323830847 (-52).
Proof. vm_compute. reflexivity. Qed.

Example float_forms :
  py_float "1.0D-01" = Raise ValueError /\
  py_float (fortran "1.0D-01") = py_float "0.1" /\
  py_float "." = Raise ValueError /\
  py_float "1e400" = Ok (S754_infinity false) /\
  py_float "5e-324" = Ok (S754_finite false 1 (-1074)) /\
  py_float "2.4e-324" = Ok (S754_zero false).
Proof. repeat split; vm_compute; reflexivity. Qed.

(** Six decimals, the binary value rounded to nearest, ties to even. *)
Example format_forms :
  format_6f (literal "0.0000005") = "0.000000" /\
  format_6f (literal "0.0000015") = "0.000002" /\
  format_6f (literal "-1e-10") = "-0.000000" /\
  format_6f (literal "123456789.1234565") = "123456789.123456" /\
  format_6f (literal "nan") = "nan".
Proof. repeat split; vm_compute; reflexivity. Qed.

Example dirname_forms :
  Path.dirname "/w/3/qmmm.input" = "/w/3" /\ Path.dirname "a//b" = "a" /\
  Path.dirname "/b" = "/" /\ Path.dirname "b" = "" /\
  Path.basename "/w/3/qmmm.input" = "qmmm.input".
Proof. repeat split; reflexivity. Qed.

(** The last segment of a path always exists: [split] gives a list that
    is not empty. *)
Lemma split_on_nonempty (sep : ascii) (s : string) : Text.split_on sep s <> [].
Proof.
  induction s as [|c s IH]; simpl; [done|].
  destruct (Ascii.eqb c sep); [done|]. by destruct (Text.split_on sep s).
Qed.

Lemma last_segment_exists (path : string) :
  is_Ok (py_index (Text.split_on "/"%char path) (-1)).
Proof.
  pose proof (split_on_nonempty "/"%char path) as Hne.
  unfold py_index. cbn [Z.ltb Z.compare].
  destruct (Text.split_on "/"%char path) as [|x l] eqn:E; [done|].
  set (n := length (x :: l)).
  assert (0 < Z.of_nat n) as Hpos by (subst n; simpl; lia).
  destruct (Z.leb_spec 0 (-1 + Z.of_nat n)); [|lia].
  destruct (Z.ltb_spec (-1 + Z.of_nat n) (Z.of_nat n)); [|lia].
  cbn [andb].
  destruct (lookup_lt_is_Some_2 (x :: l) (Z.to_nat (-1 + Z.of_nat n))) as [a ->];
    [fold n; lia|].
  by exists a.
Qed.
(** ** [read_xtboutput] *)

Lemma mapM_cons_Some {A B} (f : A -> option B) (x : A) (l : list A) (ys : list B) :
  mapM f (x :: l) = Some ys ->
  exists y ys', ys = y :: ys' /\ f x = Some y /\ mapM f l = Some ys'.
Proof.
  intros H. apply mapM_Some in H. inversion H as [|? y ? ys' Hy Hl]; subst.
  exists y, ys'. repeat split; [done|]. by apply mapM_Some.
Qed.

Lemma charge_loop_ok (lines : list string) :
  forall (acc qs : list float),
  charges_of lines = Some qs -> charge_loop lines acc = Ok (acc ++ qs).
Proof.
  unfold charges_of, nonblank_lines.
  induction lines as [|line lines IH]; intros acc qs H.
  - injection H as <-. by rewrite app_nil_r.
  - cbn [List.filter charge_loop] in *. unfold nonblank in H at 1.
    destruct (Text.is_empty (Text.strip line)); cbn [negb] in H.
    + by apply IH.
    + apply mapM_cons_Some in H as (q & qs' & -> & Hq & H).
      unfold charge_of_line in Hq. apply ok_Some in Hq. rewrite Hq.
      cbn [mbind result_bind]. rewrite (IH _ qs' H).
      by rewrite <- app_assoc.
Qed.

Ltac grad_cond :=
  repeat first
    [ progress cbn [andb bound mbind result_bind fst snd]
    | match goal with
      | |- context [(?a =? ?b)%nat] => destruct (Nat.eqb_spec a b); [try lia | try lia]
      | |- context [(?a <=? ?b)%nat] => destruct (Nat.leb_spec a b); [try lia | try lia]
      | |- context [(?a <? ?b)%nat] => destruct (Nat.ltb_spec a b); [try lia | try lia]
      end ].

Lemma grad_atom_ok (qs : list float) (line : string) (g : gradient) (q : float)
    (r : nat) (info : Np.array) :
  gradient_of_line line = Some g ->
  qs !! r = Some q ->
  info !! r = Some zero4 ->
  grad_atom qs line r info = Ok (<[r := info_row g q]> info).
Proof.
  unfold gradient_of_line, grad_atom. intros Hg Hq Hrow.
  destruct (fields line) as [|sx [|sy [|sz rest]]]; try discriminate.
  destruct (py_float (fortran sx)) as [x|] eqn:Hx; try discriminate.
  destruct (py_float (fortran sy)) as [y|] eqn:Hy; try discriminate.
  destruct (py_float (fortran sz)) as [z|] eqn:Hz; try discriminate.
  simpl in Hg. injection Hg as <-.
  simpl. rewrite Hx. simpl.
  rewrite (np_set_row _ _ 0 _ _ Hrow) by (simpl; lia). simpl.
  rewrite Hy. simpl. set_field Hrow.
  rewrite Hz. simpl. set_field Hrow.
  rewrite (py_get_lookup _ _ _ Hq). simpl. set_field Hrow.
  reflexivity.
Qed.

Lemma grad_line_skip (n : nat) (qs : list float) (count : nat) (line : string)
    (st : option float * Np.array) :
  (3 <= count)%nat -> (count <= n + 2 \/ n + n + 2 < count)%nat ->
  grad_line n qs count line st = Ok st.
Proof.
  intros H3 Hc. unfold grad_line. destruct st as [en info].
  destruct Hc; grad_cond; reflexivity.
Qed.

Lemma grad_line_row (n : nat) (qs : list float) (r : nat) (line : string)
    (g : gradient) (q : float) (en : option float) (info : Np.array) :
  gradient_of_line line = Some g ->
  qs !! r = Some q ->
  info !! r = Some zero4 ->
  (r < n)%nat ->
  grad_line n qs (n + 3 + r) line (en, info) = Ok (en, <[r := info_row g q]> info).
Proof.
  intros Hg Hq Hrow Hr. unfold grad_line. grad_cond.
  replace (n + 3 + r - n - 2 - 1)%nat with r by lia.
  rewrite (grad_atom_ok qs line g q r info) by done. reflexivity.
Qed.

Lemma grad_line_energy (n : nat) (qs : list float) (line d : string) (e : float)
    (en : option float) (info : Np.array) :
  fields line !! 6%nat = Some d ->
  py_float d = Ok e ->
  grad_line n qs 2 line (en, info) = Ok (Some (mul e kcal), info).
Proof.
  intros Hd He. unfold grad_line. cbn [Nat.eqb].
  rewrite (py_get_lookup _ _ _ Hd). cbn [mbind result_bind]. rewrite He.
  grad_cond. reflexivity.
Qed.

Lemma grad_loop_app (n : nat) (qs : list float) (l1 l2 : list string) :
  forall (count : nat) (st : option float * Np.array),
  grad_loop n qs (l1 ++ l2) count st =
    grad_loop n qs l1 count st ≫= grad_loop n qs l2 (count + length l1).
Proof.
  induction l1 as [|line l1 IH]; intros count st.
  - simpl. by rewrite Nat.add_0_r.
  - cbn [app grad_loop length].
    destruct (grad_line n qs (S count) line st) as [st'|e]; [|done].
    cbn [mbind result_bind]. rewrite IH. by rewrite Nat.add_succ_r.
Qed.

Lemma grad_loop_skip (n : nat) (qs : list float) (lines : list string) :
  forall (count : nat) (st : option float * Np.array),
  (2 <= count)%nat ->
  (count + length lines <= n + 2 \/ n + n + 2 <= count)%nat ->
  grad_loop n qs lines count st = Ok st.
Proof.
  induction lines as [|line lines IH]; intros count st H2 Hc; [done|].
  cbn [grad_loop]. cbn [length] in Hc.
  rewrite grad_line_skip by lia. cbn [mbind result_bind].
  apply IH; lia.
Qed.

Lemma grad_loop_rows (qs : list float) (lines : list string) (gs : list gradient) :
  Forall2 (fun l g => gradient_of_line l = Some g) lines gs ->
  forall (done : Np.array) (en : option float),
  (length done + length lines <= length qs)%nat ->
  grad_loop (length qs) qs lines (length qs + 2 + length done)
    (en, done ++ replicate (length qs - length done) zero4) =
  Ok (en, done ++ zip_with info_row gs (drop (length done) qs)
             ++ replicate (length qs - length done - length gs) zero4).
Proof.
  induction 1 as [|line g lines gs Hg Hall IH]; intros done en Hn.
  - simpl. by rewrite Nat.sub_0_r.
  - cbn [length] in Hn. cbn [grad_loop].
    destruct (lookup_lt_is_Some_2 qs (length done)) as [q Hq]; [lia|].
    replace (length qs - length done)%nat with (S (length qs - S (length done))) by lia.
    replace (S (length qs + 2 + length done)) with (length qs + 3 + length done)%nat by lia.
    rewrite (grad_line_row _ qs (length done) line g q) by
      (first [done | apply lookup_next | lia]).
    cbn [mbind result_bind]. rewrite insert_next.
    specialize (IH (done ++ [info_row g q]) en).
    rewrite length_app in IH. cbn [length] in IH.
    replace (length done + 1)%nat with (S (length done)) in IH by lia.
    replace (length qs + 2 + S (length done))%nat
      with (length qs + 3 + length done)%nat in IH by lia.
    rewrite IH by lia.
    rewrite (drop_S qs q (length done) Hq). cbn [zip_with length].
    rewrite <- !app_assoc. cbn [app].
    by replace (length qs - length done - S (length gs))%nat
      with (length qs - S (length done) - length gs)%nat by lia.
Qed.

Lemma grad_line_header (n : nat) (qs : list float) (line : string)
    (st : option float * Np.array) :
  grad_line n qs 1 line st = Ok st.
Proof. by destruct st. Qed.

(** What [read_xtboutput] returns for two files whose lines can be read:
    the energy, the rows of the atoms whose line of gradients is in the
    file and, for the other atoms, the rows of zeros that [np.zeros]
    made. *)
Lemma read_xtboutput_lines_ok (charge_lines grad_lines : list string)
    (qs : list float) (e : float) (gs : list gradient) :
  charges_of charge_lines = Some qs ->
  energy_of grad_lines = Some e ->
  gradients_of (length qs) grad_lines = Some gs ->
  read_xtboutput_lines charge_lines grad_lines =
    Ok (mul e kcal,
        zip_with info_row gs qs ++ replicate (length qs - length gs) zero4).
Proof.
  intros Hq He Hg. unfold read_xtboutput_lines.
  rewrite (charge_loop_ok charge_lines [] qs Hq). cbn [app mbind result_bind].
  rewrite np_zeros_nat. cbn [mbind result_bind]. fold zero4.
  unfold energy_of in He.
  destruct grad_lines as [|hdr [|eline rest]]; try discriminate.
  cbn [lookup list_lookup mbind option_bind] in He.
  destruct (fields eline !! 6%nat) as [d|] eqn:Hd; try discriminate.
  cbn [mbind option_bind] in He. apply ok_Some in He.
  unfold gradients_of, gradient_lines in Hg.
  replace (length qs + 2)%nat with (S (S (length qs))) in Hg by lia.
  cbn [drop] in Hg. apply mapM_Some in Hg.
  cbn [grad_loop]. rewrite grad_line_header. cbn [mbind result_bind].
  rewrite (grad_line_energy _ _ eline d e) by done. cbn [mbind result_bind].
  set (n := length qs) in *.
  destruct (Nat.le_gt_cases (length rest) n) as [Hshort|Hlong].
  - rewrite drop_ge in Hg by done. rewrite take_nil in Hg.
    apply Forall2_nil_inv_l in Hg as ->.
    rewrite grad_loop_skip by lia. cbn [mbind result_bind bound fst snd].
    cbn [zip_with length app]. by rewrite Nat.sub_0_r.
  - rewrite <- (take_drop n rest).
    rewrite grad_loop_app, length_take, Nat.min_l by lia.
    rewrite grad_loop_skip by (rewrite ?length_take; lia).
    cbn [mbind result_bind].
    replace (2 + n)%nat with (n + 2)%nat by lia.
    rewrite <- (take_drop n (drop n rest)).
    rewrite grad_loop_app.
    pose proof (grad_loop_rows qs _ gs Hg [] (Some (mul e kcal))) as Hrows.
    cbn [length app] in Hrows. fold n in Hrows.
    rewrite Nat.add_0_r, Nat.sub_0_r, drop_0 in Hrows.
    rewrite Hrows by (rewrite length_take; lia). clear Hrows.
    cbn [mbind result_bind].
    destruct (drop n (drop n rest)) as [|l3 rest3] eqn:H3.
    + cbn [grad_loop bound mbind result_bind fst snd]. reflexivity.
    + assert (n < length (drop n rest))%nat as Hlen.
      { assert (length (drop n (drop n rest)) <> 0)%nat as Hne by (by rewrite H3).
        rewrite length_drop in Hne. lia. }
      rewrite grad_loop_skip by (rewrite ?length_take; lia).
      cbn [bound mbind result_bind fst snd]. reflexivity.
Qed.

Lemma read_xtboutput_files (charge_file grad_file : string) (fs : files)
    (charge_lines grad_lines : list string) :
  file_lines fs charge_file = Some charge_lines ->
  file_lines fs grad_file = Some grad_lines ->
  read_xtboutput charge_file grad_file fs =
    read_xtboutput_lines charge_lines grad_lines.
Proof.
  unfold file_lines, read_xtboutput, read_xtboutput_lines, open_readlines.
  destruct (fs !! charge_file) as [cc|]; [|discriminate].
  destruct (fs !! grad_file) as [gc|]; [|discriminate].
  intros [= <-] [= <-]. reflexivity.
Qed.

(** The two files of xtb, read as [charges], [energy] and [gradients]. *)
Lemma read_xtboutput_ok (charge_file grad_file : string) (fs : files)
    (charge_lines grad_lines : list string)
    (qs : list float) (e : float) (gs : list gradient) :
  file_lines fs charge_file = Some charge_lines ->
  file_lines fs grad_file = Some grad_lines ->
  charges_of charge_lines = Some qs ->
  energy_of grad_lines = Some e ->
  gradients_of (length qs) grad_lines = Some gs ->
  read_xtboutput charge_file grad_file fs =
    Ok (mul e kcal,
        zip_with info_row gs qs ++ replicate (length qs - length gs) zero4).
Proof.
  intros Hc Hg ? ? ?. rewrite (read_xtboutput_files _ _ _ _ _ Hc Hg).
  by apply read_xtboutput_lines_ok.
Qed.

Lemma mul_comm (x y : float) : mul x y = mul y x.
Proof.
  destruct x as [sx|sx| |sx mx ex], y as [sy|sy| |sy my ey]; simpl;
    try reflexivity; try (by rewrite xorb_comm).
  unfold mul, SFmul. by rewrite xorb_comm, Pos.mul_comm, Z.add_comm.
Qed.

Lemma gradient_lines_lookup (n : nat) (grad_lines : list string)
    (gs : list gradient) (i : nat) (line : string) :
  gradients_of n grad_lines = Some gs ->
  (i < n)%nat ->
  grad_lines !! (n + 2 + i)%nat = Some line ->
  exists g, gs !! i = Some g /\ gradient_of_line line = Some g.
Proof.
  unfold gradients_of, gradient_lines. intros Hg Hi Hl.
  apply mapM_Some in Hg.
  assert (take n (drop (n + 2) grad_lines) !! i = Some line) as Hi'.
  { rewrite lookup_take_lt by done. by rewrite lookup_drop. }
  destruct (Forall2_lookup_l _ _ _ _ _ Hg Hi') as (g & ? & ?). by exists g.
Qed.

Lemma gradients_length (n : nat) (grad_lines : list string) (gs : list gradient) :
  gradients_of n grad_lines = Some gs ->
  length gs = (n `min` (length grad_lines - (n + 2)))%nat.
Proof.
  unfold gradients_of, gradient_lines. intros Hg. apply mapM_Some in Hg.
  rewrite <- (Forall2_length _ _ _ Hg). by rewrite length_take, length_drop.
Qed.

Lemma info_lookup_present (gs : list gradient) (qs : list float) (k i : nat)
    (g : gradient) (q : float) :
  gs !! i = Some g -> qs !! i = Some q ->
  (zip_with info_row gs qs ++ replicate k zero4) !! i = Some (info_row g q).
Proof.
  intros Hg Hq. rewrite lookup_app_l.
  - rewrite lookup_zip_with, Hg. simpl. by rewrite Hq.
  - rewrite length_zip_with.
    apply lookup_lt_Some in Hg, Hq. lia.
Qed.

Lemma info_lookup_absent (gs : list gradient) (qs : list float) (i : nat) :
  (length gs <= i < length qs)%nat ->
  (zip_with info_row gs qs ++ replicate (length qs - length gs) zero4) !! i
    = Some zero4.
Proof.
  intros Hi. rewrite lookup_app_r; rewrite length_zip_with; [|lia].
  apply lookup_replicate_2. lia.
Qed.

Lemma info_length (gs : list gradient) (qs : list float) :
  (length gs <= length qs)%nat ->
  length (zip_with info_row gs qs ++ replicate (length qs - length gs) zero4)
    = length qs.
Proof.
  intros H. rewrite length_app, length_zip_with, length_replicate. lia.
Qed.

Lemma charges_lookup (charge_lines : list string) (qs : list float) (i : nat)
    (line : string) :
  charges_of charge_lines = Some qs ->
  nonblank_lines charge_lines !! i = Some line ->
  exists q, qs !! i = Some q /\ py_float (Text.strip line) = Ok q.
Proof.
  unfold charges_of. intros Hq Hl. apply mapM_Some in Hq.
  destruct (Forall2_lookup_l _ _ _ _ _ Hq Hl) as (q & ? & Hp).
  exists q. split; [done|]. by apply ok_Some.
Qed.

Lemma charges_length (charge_lines : list string) (qs : list float) :
  charges_of charge_lines = Some qs ->
  length qs = length (nonblank_lines charge_lines).
Proof.
  unfold charges_of. intros Hq. apply mapM_Some in Hq.
  symmetry. by eapply Forall2_length.
Qed.

(** ** [run_qmmm]: the sequence of statements *)

Lemma andthen_Ok (a b : world -> result unit * world) (w : world) :
  fst (andthen a b w) = Ok () ->
  fst (a w) = Ok () /\ fst (b (snd (a w))) = Ok () /\
  snd (andthen a b w) = snd (b (snd (a w))).
Proof.
  unfold andthen. destruct (a w) as [[[]|e] w1]; simpl; [done | discriminate].
Qed.

Lemma on_files_calls (op : files -> result unit * files) (w : world) :
  w_calls (snd (on_files op w)) = w_calls w.
Proof. unfold on_files. by destruct (op (w_files w)). Qed.

Lemma on_files_files (op : files -> result unit * files) (w : world) :
  w_files (snd (on_files op w)) = snd (op (w_files w)).
Proof. unfold on_files. by destruct (op (w_files w)). Qed.

Lemma on_files_fst (op : files -> result unit * files) (w : world) :
  fst (on_files op w) = fst (op (w_files w)).
Proof. unfold on_files. by destruct (op (w_files w)). Qed.

Lemma keeps_calls_on_files (op : files -> result unit * files) :
  keeps_calls (on_files op).
Proof. intros w. apply on_files_calls. Qed.

Lemma keeps_calls_andthen (a b : world -> result unit * world) :
  keeps_calls a -> keeps_calls b -> keeps_calls (andthen a b).
Proof.
  intros Ha Hb w. unfold andthen. specialize (Ha w).
  destruct (a w) as [[[]|e] w1]; simpl in *; [|done].
  by rewrite Hb.
Qed.

Create HintDb calls.
#[local] Hint Resolve keeps_calls_on_files keeps_calls_andthen : calls.

Lemma os_remove_Ok (file : string) (fs : files) :
  fst (os_remove file fs) = Ok () -> snd (os_remove file fs) = delete file fs.
Proof. unfold os_remove. by destruct (fs !! file). Qed.

Lemma remove_Ok (file : string) (w : world) :
  fst (on_files (os_remove file) w) = Ok () ->
  w_files (snd (on_files (os_remove file) w)) = delete file (w_files w).
Proof.
  rewrite on_files_fst, on_files_files. apply os_remove_Ok.
Qed.

(** ** The text of the result file *)

Lemma append_nonempty (s t : string) : s <> "" -> s +:+ t <> "".
Proof. by destruct s. Qed.

Lemma write_rows_nonempty (rows : list (result string)) :
  forall written : string, written <> "" -> snd (write_rows rows written) <> "".
Proof.
  induction rows as [|[l|e] rows IH]; intros written H; simpl; [done | | done].
  apply IH. by apply append_nonempty.
Qed.

Lemma convert_output_Ok (charges grad out : string) (fs : files) :
  fst (convert_output charges grad out fs) = Ok () ->
  exists text, text <> "" /\ snd (convert_output charges grad out fs) = <[out := text]> fs.
Proof.
  unfold convert_output.
  destruct (read_xtboutput charges grad fs) as [[energy info]|e]; [|discriminate].
  unfold write_namdoutput, namd_text. intros _.
  pose proof (write_rows_nonempty (row4 info <$> seq 0 (length info))
                (format_6f energy +:+ Text.nl)) as Hne.
  destruct (write_rows _ _) as [r text]. exists text. split; [|done].
  apply Hne. by destruct (format_6f energy).
Qed.

(** ** The names of the files *)

Lemma ends_with_app (suffix s : string) : Text.ends_with suffix (s +:+ suffix) = true.
Proof.
  induction s as [|c s IH].
  - change ("" +:+ suffix) with suffix.
    destruct suffix; simpl; [done|]. by rewrite Ascii.eqb_refl, String.eqb_refl.
  - change (String c s +:+ suffix) with (String c (s +:+ suffix)).
    cbn [Text.ends_with]. rewrite IH. apply orb_true_r.
Qed.

(** The result file is none of the files with a fixed name. *)
Lemma result_name_fresh (path base name : string) :
  Text.ends_with ".result" name = false ->
  path +:+ "/" +:+ base +:+ ".result" <> path +:+ String "/" name.
Proof.
  intros Hn Heq. apply (inj (String.app path)) in Heq.
  change ("/" +:+ base +:+ ".result") with (String "/" (base +:+ ".result")) in Heq.
  injection Heq as Heq.
  pose proof (ends_with_app ".result" base) as H. rewrite Heq in H. congruence.
Qed.

(** * The claims *)

(** C7: for a well-formed step file, one whose first line gives the
    numbers N and M of the atom lines and point-charge lines that follow
    it, [read_namdinput] returns exactly N atoms, with the coordinates of
    the file unchanged and the fourth field as element, and exactly M point
    charges, each with its three coordinates multiplied by 1.88973 and its
    charge as the fourth field gives it, both in the order of the file. *)
Theorem read_namdinput_wellformed (file : string) (fs : files)
    (content header : string) (atom_lines pc_lines extra : list string)
    (atoms : list atom) (pcs : list point_charge) :
  fs !! file = Some content ->
  Text.readlines content = header :: atom_lines ++ pc_lines ++ extra ->
  header_of_line header = Some (len atom_lines, len pc_lines) ->
  mapM atom_of_line atom_lines = Some atoms ->
  mapM point_charge_of_line pc_lines = Some pcs ->
  read_namdinput file fs =
    Ok ((fun a => Some (a_element a)) <$> atoms,
        (fun a => [a_x a; a_y a; a_z a]) <$> atoms,
        (fun p => [p_charge p; mul (p_x p) (literal "1.88973");
                   mul (p_y p) (literal "1.88973");
                   mul (p_z p) (literal "1.88973")]) <$> pcs)
  /\ length atoms = length atom_lines
  /\ length pcs = length pc_lines.
Proof.
  intros Hfile Hlines Hh Ha Hp. split; [|split].
  - unfold read_namdinput, open_readlines. rewrite Hfile.
    cbn [mbind result_bind]. rewrite Hlines.
    by apply read_namdinput_lines_ok.
  - apply mapM_Some in Ha. symmetry. by eapply Forall2_length.
  - apply mapM_Some in Hp. symmetry. by eapply Forall2_length.
Qed.

Lemma read_namdinput_wellformed_witness :
  read_namdinput "/w/0/qmmm.input" {[ "/w/0/qmmm.input" := sample_step ]} =
    Ok ((fun a => Some (a_element a)) <$> sample_atoms,
        (fun a => [a_x a; a_y a; a_z a]) <$> sample_atoms,
        (fun p => [p_charge p; mul (p_x p) (literal "1.88973");
                   mul (p_y p) (literal "1.88973");
                   mul (p_z p) (literal "1.88973")]) <$> sample_pcharges)
  /\ length sample_atoms = 2%nat
  /\ length sample_pcharges = 1%nat.
Proof.
  apply (read_namdinput_wellformed "/w/0/qmmm.input"
           {[ "/w/0/qmmm.input" := sample_step ]} sample_step
           ("2 1" +:+ Text.nl)
           ["0.0 0.0 0.0 H" +:+ Text.nl; "0.0 0.0 1.0 H" +:+ Text.nl]
           ["0.0 0.0 2.0 0.5" +:+ Text.nl] []);
    vm_compute; reflexivity.
Defined.

(** C9: when the first line of the step file lacks one of the two counts
    or holds a count that [int] does not accept, or when one of the lines
    that the counts announce has fewer than four fields, [read_namdinput]
    raises: it returns no atoms and no point charges. *)
Theorem read_namdinput_malformed (file : string) (fs : files) (content : string) :
  fs !! file = Some content ->
  malformed_step (Text.readlines content) ->
  is_Raise (read_namdinput file fs).
Proof.
  intros Hfile M. unfold read_namdinput, open_readlines. rewrite Hfile.
  cbn [mbind result_bind]. by apply read_namdinput_lines_malformed.
Qed.

Lemma read_namdinput_malformed_witness :
  is_Raise (read_namdinput "/w/0/qmmm.input"
              {[ "/w/0/qmmm.input" :=
                   text_of_lines ["2 1"; "0.0 0.0 0.0 H"; "0.0 0.0 1.0"] ]}).
Proof.
  apply (read_namdinput_malformed "/w/0/qmmm.input" _
           (text_of_lines ["2 1"; "0.0 0.0 0.0 H"; "0.0 0.0 1.0"])).
  - vm_compute. reflexivity.
  - apply (line_short _ _ 2 1 1%nat ("0.0 0.0 1.0" +:+ Text.nl)).
    + vm_compute. reflexivity.
    + vm_compute. reflexivity.
    + lia.
    + vm_compute. lia.
Defined.

(** ** The claim on [convert_input] *)

(** C2, as the code has it: for the step file of the four lines [2 1],
    [0.0 0.0 0.0 H], [0.0 0.0 1.0 H] and [0.0 0.0 2.0 0.5],
    [convert_input] writes a structure file of the lines [2], an empty
    line, [H 0.000000 0.000000 0.000000] and [H 0.000000 0.000000 1.000000],
    and a file of point charges of the lines [1] and
    [0.500000 0.000000 0.000000 3.779460]. *)
Theorem convert_input_sample (namdinput xtbinput_xyz xtbinput_pc : string)
    (fs : files) :
  fs !! namdinput = Some sample_step ->
  xtbinput_xyz <> xtbinput_pc ->
  let after := snd (convert_input namdinput xtbinput_xyz xtbinput_pc fs) in
  fst (convert_input namdinput xtbinput_xyz xtbinput_pc fs) = Ok () /\
  after !! xtbinput_xyz =
    Some ("2" +:+ Text.nl +:+ Text.nl +:+
          "H 0.000000 0.000000 0.000000" +:+ Text.nl +:+
          "H 0.000000 0.000000 1.000000" +:+ Text.nl) /\
  after !! xtbinput_pc =
    Some ("1" +:+ Text.nl +:+
          "0.500000 0.000000 0.000000 3.779460" +:+ Text.nl).
Proof.
  intros Hfile Hne after. subst after.
  unfold convert_input, read_namdinput, open_readlines. rewrite Hfile.
  cbn [mbind result_bind].
  replace (read_namdinput_lines (Text.readlines sample_step))
    with (Ok ((fun a => Some (a_element a)) <$> sample_atoms,
              coor_row <$> sample_atoms, pcharge_row <$> sample_pcharges))
    by (vm_compute; reflexivity).
  unfold write_xtbinput.
  replace (xyz_text ((fun a => Some (a_element a)) <$> sample_atoms)
             (coor_row <$> sample_atoms))
    with (Ok (), "2" +:+ Text.nl +:+ Text.nl +:+
                 "H 0.000000 0.000000 0.000000" +:+ Text.nl +:+
                 "H 0.000000 0.000000 1.000000" +:+ Text.nl)
    by (vm_compute; reflexivity).
  replace (pc_text (pcharge_row <$> sample_pcharges))
    with (Ok (), "1" +:+ Text.nl +:+
                 "0.500000 0.000000 0.000000 3.779460" +:+ Text.nl)
    by (vm_compute; reflexivity).
  cbn [fst snd]. split; [done|]. split.
  - rewrite lookup_insert_ne by done. apply lookup_insert_eq.
  - apply lookup_insert_eq.
Qed.

Lemma convert_input_sample_witness :
  let after := snd (convert_input "/w/0/qmmm.input" "/w/0/xtbxyz.xyz"
                      "/w/0/pcharge" (w_files (sample_world "0"))) in
  fst (convert_input "/w/0/qmmm.input" "/w/0/xtbxyz.xyz" "/w/0/pcharge"
         (w_files (sample_world "0"))) = Ok () /\
  after !! "/w/0/xtbxyz.xyz" =
    Some ("2" +:+ Text.nl +:+ Text.nl +:+
          "H 0.000000 0.000000 0.000000" +:+ Text.nl +:+
          "H 0.000000 0.000000 1.000000" +:+ Text.nl) /\
  after !! "/w/0/pcharge" =
    Some ("1" +:+ Text.nl +:+
          "0.500000 0.000000 0.000000 3.779460" +:+ Text.nl).
Proof.
  apply (convert_input_sample "/w/0/qmmm.input" "/w/0/xtbxyz.xyz" "/w/0/pcharge"
           (w_files (sample_world "0"))).
  - vm_compute. reflexivity.
  - discriminate.
Defined.

(** C2, as the claim has it, fails: the file of point charges is not the
    text [1], [0.500000 0.000000 0.000000 3.779470] of the claim; its last
    number is 3.779460, for 2.0 * 1.88973 = 3.77946. *)
Lemma convert_input_counterexample :
  sample_step = "2 1" +:+ Text.nl +:+ "0.0 0.0 0.0 H" +:+ Text.nl +:+
                "0.0 0.0 1.0 H" +:+ Text.nl +:+ "0.0 0.0 2.0 0.5" +:+ Text.nl /\
  snd (convert_input "/w/0/qmmm.input" "/w/0/xtbxyz.xyz" "/w/0/pcharge"
         (w_files (sample_world "0"))) !! "/w/0/pcharge"
    <> Some ("1" +:+ Text.nl +:+
             "0.500000 0.000000 0.000000 3.779470" +:+ Text.nl) /\
  format_6f (mul (literal "2.0") (literal "1.88973")) = "3.779460".
Proof.
  split; [vm_compute; reflexivity|].
  split; [vm_compute; discriminate|].
  vm_compute. reflexivity.
Qed.

(** ** The claims on [read_xtboutput] *)

Section XtbOutput.

(** Two result files that can be read: the file of charges holds the
    charges [qs], one for each line that is not blank; the second line of
    the gradient file holds the energy [e] in its field of index 6; the
    lines of gradients that the file has hold the gradients [gs]. *)
Variables (fs : files) (charge_file grad_file : string).
Variables (charge_lines grad_lines : list string).
Variables (qs : list float) (e : float) (gs : list gradient).
Hypothesis charge_file_read : file_lines fs charge_file = Some charge_lines.
Hypothesis grad_file_read : file_lines fs grad_file = Some grad_lines.
Hypothesis charges_read : charges_of charge_lines = Some qs.
Hypothesis energy_read : energy_of grad_lines = Some e.
Hypothesis gradients_read : gradients_of (length qs) grad_lines = Some gs.

(** C1, as the code has it: with N the number of charges read from the file
    of charges, the gradients are taken from the lines N+3 to 2N+2 of the
    gradient file (its lines 3 to N+2 are passed over); row [i] of the
    array returned, counted from 0, is computed from line N+3+i, which is
    the element of index N+2+i of the list of lines. *)
Theorem read_xtboutput_gradient_lines :
  exists energy info,
    read_xtboutput charge_file grad_file fs = Ok (energy, info) /\
    forall (i : nat) (line : string) (q : float),
      (i < length qs)%nat ->
      grad_lines !! (length qs + 2 + i)%nat = Some line ->
      qs !! i = Some q ->
      exists row, row_of_line line q = Some row /\ info !! i = Some row.
Proof.
  eexists _, _. split.
  - by eapply read_xtboutput_ok.
  - intros i line q Hi Hl Hq.
    destruct (gradient_lines_lookup _ _ _ _ _ gradients_read Hi Hl) as (g & Hg & Hp).
    exists (info_row g q). split.
    + unfold row_of_line. by rewrite Hp.
    + by apply info_lookup_present.
Qed.

(** C5, as the code has it: every gradient [g] that is read from one of the
    three first fields of a line of gradients, its [D] replaced by [E],
    gives the force [(g * (-630)) * 1.88973] in the same column of the row
    of its atom, the two products taken in this order in binary64
    arithmetic. *)
Theorem read_xtboutput_force :
  exists energy info,
    read_xtboutput charge_file grad_file fs = Ok (energy, info) /\
    forall (i k : nat) (line field : string),
      (i < length qs)%nat -> (k < 3)%nat ->
      grad_lines !! (length qs + 2 + i)%nat = Some line ->
      fields line !! k = Some field ->
      exists g row,
        py_float (Text.replace "D"%char "E"%char field) = Ok g /\
        info !! i = Some row /\
        row !! k = Some (mul (mul g (of_int (-630))) (literal "1.88973")).
Proof.
  eexists _, _. split.
  - by eapply read_xtboutput_ok.
  - intros i k line field Hi Hk Hl Hf.
    destruct (gradient_lines_lookup _ _ _ _ _ gradients_read Hi Hl) as (g & Hg & Hp).
    destruct (lookup_lt_is_Some_2 qs i Hi) as [q Hq].
    rewrite (info_lookup_present gs qs _ i g q Hg Hq).
    unfold gradient_of_line in Hp.
    destruct (fields line) as [|sx [|sy [|sz rest]]]; try discriminate.
    destruct (py_float (fortran sx)) as [x|] eqn:Hx; try discriminate.
    destruct (py_float (fortran sy)) as [y|] eqn:Hy; try discriminate.
    destruct (py_float (fortran sz)) as [z|] eqn:Hz; try discriminate.
    simpl in Hp. injection Hp as <-.
    destruct k as [|[|[|k]]]; [| | |lia]; injection Hf as <-;
      eexists _, _; (split; [eassumption|]); split; reflexivity.
Qed.

(** C6: the energy returned is 630 times the number in the field of
    index 6 of the second line of the gradient file. *)
Theorem read_xtboutput_energy (line field : string) (hartree : float) :
  grad_lines !! 1%nat = Some line ->
  fields line !! 6%nat = Some field ->
  py_float field = Ok hartree ->
  exists info,
    read_xtboutput charge_file grad_file fs = Ok (mul (of_int 630) hartree, info).
Proof.
  intros Hl Hf Hp. eexists.
  assert (e = hartree) as <-.
  { unfold energy_of in energy_read. rewrite Hl in energy_read.
    cbn [mbind option_bind] in energy_read. rewrite Hf in energy_read.
    cbn [mbind option_bind] in energy_read. rewrite Hp in energy_read.
    by injection energy_read. }
  rewrite mul_comm. by eapply read_xtboutput_ok.
Qed.

(** C8, as the code has it: the array returned has one row for each line
    of the file of charges that is not blank; the row of an atom whose line
    of gradients is in the gradient file holds, as its charge, the number
    on the line of that atom in the file of charges. *)
Theorem read_xtboutput_charges :
  exists energy info,
    read_xtboutput charge_file grad_file fs = Ok (energy, info) /\
    length info = length (nonblank_lines charge_lines) /\
    forall (i : nat) (line : string),
      nonblank_lines charge_lines !! i = Some line ->
      (length (nonblank_lines charge_lines) + 2 + i < length grad_lines)%nat ->
      exists q row,
        py_float (Text.strip line) = Ok q /\
        info !! i = Some row /\ row !! 3%nat = Some q.
Proof.
  pose proof (charges_length _ _ charges_read) as Hn.
  pose proof (gradients_length _ _ _ gradients_read) as Hgs.
  eexists _, _. split; [by eapply read_xtboutput_ok|]. split.
  - rewrite info_length; [done | lia].
  - intros i line Hl Hi. rewrite <- Hn in Hi.
    destruct (charges_lookup _ _ _ _ charges_read Hl) as (q & Hq & Hp).
    destruct (lookup_lt_is_Some_2 grad_lines (length qs + 2 + i) Hi) as [gl Hgl].
    apply lookup_lt_Some in Hq as Hiq.
    destruct (gradient_lines_lookup _ _ _ _ _ gradients_read Hiq Hgl) as (g & Hg & _).
    exists q, (info_row g q). split; [done|]. split; [|done].
    by apply info_lookup_present.
Qed.

(** C10, as the code has it: when the files can be read and the gradient
    file ends before line 2N+2, [read_xtboutput] returns, and the row of
    every atom whose line of gradients is not in the file holds four
    zeros: three forces and the charge. *)
Theorem read_xtboutput_short_file :
  (0 < length qs)%nat ->
  (2 <= length grad_lines < length qs + length qs + 2)%nat ->
  exists energy info,
    read_xtboutput charge_file grad_file fs = Ok (energy, info) /\
    length info = length qs /\
    forall i : nat,
      (i < length qs)%nat ->
      (length grad_lines <= length qs + 2 + i)%nat ->
      info !! i = Some [zero; zero; zero; zero].
Proof.
  intros Hn Hlen.
  pose proof (gradients_length _ _ _ gradients_read) as Hgs.
  eexists _, _. split; [by eapply read_xtboutput_ok|]. split.
  - rewrite info_length; [done | lia].
  - intros i Hi Habsent. apply info_lookup_absent. lia.
Qed.

End XtbOutput.

Lemma read_xtboutput_gradient_lines_witness :
  exists energy info,
    read_xtboutput "/w/0/charges" "/w/0/gradient" sample_xtb_files
      = Ok (energy, info) /\
    forall (i : nat) (line : string) (q : float),
      (i < length (charges_in sample_xtb_files))%nat ->
      lines_in sample_xtb_files "/w/0/gradient"
        !! (length (charges_in sample_xtb_files) + 2 + i)%nat = Some line ->
      charges_in sample_xtb_files !! i = Some q ->
      exists row, row_of_line line q = Some row /\ info !! i = Some row.
Proof.
  apply (read_xtboutput_gradient_lines sample_xtb_files
           "/w/0/charges" "/w/0/gradient"
           (lines_in sample_xtb_files "/w/0/charges")
           (lines_in sample_xtb_files "/w/0/gradient")
           (charges_in sample_xtb_files) (energy_in sample_xtb_files)
           (gradients_in sample_xtb_files));
    vm_compute; reflexivity.
Defined.

(** C1, as the claim has it, fails: in the files of the sample the first
    row of the array is not the row computed from line 3 of the gradient
    file, which holds the coordinates of the first atom. *)
Lemma gradient_lines_counterexample :
  exists energy info line q row,
    read_xtboutput "/w/0/charges" "/w/0/gradient" sample_xtb_files
      = Ok (energy, info) /\
    lines_in sample_xtb_files "/w/0/gradient" !! 2%nat = Some line /\
    charges_in sample_xtb_files !! 0%nat = Some q /\
    row_of_line line q = Some row /\
    info !! 0%nat <> Some row.
Proof.
  eexists _, _, _, _, _.
  split; [vm_compute; reflexivity|].
  split; [vm_compute; reflexivity|].
  split; [vm_compute; reflexivity|].
  split; [vm_compute; reflexivity|].
  vm_compute. discriminate.
Qed.

Lemma read_xtboutput_force_witness :
  exists energy info,
    read_xtboutput "/w/0/charges" "/w/0/gradient" sample_xtb_files
      = Ok (energy, info) /\
    forall (i k : nat) (line field : string),
      (i < length (charges_in sample_xtb_files))%nat -> (k < 3)%nat ->
      lines_in sample_xtb_files "/w/0/gradient"
        !! (length (charges_in sample_xtb_files) + 2 + i)%nat = Some line ->
      fields line !! k = Some field ->
      exists g row,
        py_float (Text.replace "D"%char "E"%char field) = Ok g /\
        info !! i = Some row /\
        row !! k = Some (mul (mul g (of_int (-630))) (literal "1.88973")).
Proof.
  apply (read_xtboutput_force sample_xtb_files
           "/w/0/charges" "/w/0/gradient"
           (lines_in sample_xtb_files "/w/0/charges")
           (lines_in sample_xtb_files "/w/0/gradient")
           (charges_in sample_xtb_files) (energy_in sample_xtb_files)
           (gradients_in sample_xtb_files));
    vm_compute; reflexivity.
Defined.

(** C5, as the claim has it, fails: for the gradient [-0.0123] of the
    second atom of the sample, the force stored is neither the binary64
    product [(-630 * 1.88973) * g] nor the binary64 number nearest to the
    exact product, 14.64351777. *)
Lemma force_counterexample :
  exists energy info line g row,
    read_xtboutput "/w/0/charges" "/w/0/gradient" sample_xtb_files
      = Ok (energy, info) /\
    lines_in sample_xtb_files "/w/0/gradient" !! 5%nat = Some line /\
    fields line !! 2%nat = Some "-0.0123" /\
    py_float "-0.0123" = Ok g /\
    info !! 1%nat = Some row /\
    row !! 2%nat <> Some (mul (mul (of_int (-630)) (literal "1.88973")) g) /\
    row !! 2%nat <> Some (literal "14.64351777").
Proof.
  eexists _, _, _, _, _.
  split; [vm_compute; reflexivity|].
  split; [vm_compute; reflexivity|].
  split; [vm_compute; reflexivity|].
  split; [vm_compute; reflexivity|].
  split; [vm_compute; reflexivity|].
  split; vm_compute; discriminate.
Qed.

Lemma read_xtboutput_energy_witness :
  exists info,
    read_xtboutput "/w/0/charges" "/w/0/gradient" sample_xtb_files
      = Ok (mul (of_int 630) (literal "-5.07054444346"), info).
Proof.
  apply read_xtboutput_energy with
    (charge_lines := lines_in sample_xtb_files "/w/0/charges")
    (grad_lines := lines_in sample_xtb_files "/w/0/gradient")
    (qs := charges_in sample_xtb_files) (e := energy_in sample_xtb_files)
    (gs := gradients_in sample_xtb_files)
    (line := "  cycle =      1    SCF energy =    -5.07054444346   |dE/dxyz| =  0.000430"
               +:+ Text.nl)
    (field := "-5.07054444346");
    vm_compute; reflexivity.
Defined.

Lemma read_xtboutput_charges_witness :
  exists energy info,
    read_xtboutput "/w/0/charges" "/w/0/gradient" short_xtb_files
      = Ok (energy, info) /\
    length info = length (nonblank_lines (lines_in short_xtb_files "/w/0/charges")) /\
    forall (i : nat) (line : string),
      nonblank_lines (lines_in short_xtb_files "/w/0/charges") !! i = Some line ->
      (length (nonblank_lines (lines_in short_xtb_files "/w/0/charges")) + 2 + i
         < length (lines_in short_xtb_files "/w/0/gradient"))%nat ->
      exists q row,
        py_float (Text.strip line) = Ok q /\
        info !! i = Some row /\ row !! 3%nat = Some q.
Proof.
  apply (read_xtboutput_charges short_xtb_files
           "/w/0/charges" "/w/0/gradient"
           (lines_in short_xtb_files "/w/0/charges")
           (lines_in short_xtb_files "/w/0/gradient")
           (charges_in short_xtb_files) (energy_in short_xtb_files)
           (gradients_in short_xtb_files));
    vm_compute; reflexivity.
Defined.

(** C8, as the claim has it, fails: when the gradient file ends after the
    gradients of the first atom, the charge in the row of the second atom
    is zero, not the charge -0.1 of the second line of charges. *)
Lemma charges_counterexample :
  exists energy info line q row,
    read_xtboutput "/w/0/charges" "/w/0/gradient" short_xtb_files
      = Ok (energy, info) /\
    nonblank_lines (lines_in short_xtb_files "/w/0/charges") !! 1%nat = Some line /\
    py_float (Text.strip line) = Ok q /\
    info !! 1%nat = Some row /\
    row !! 3%nat <> Some q.
Proof.
  eexists _, _, _, _, _.
  split; [vm_compute; reflexivity|].
  split; [vm_compute; reflexivity|].
  split; [vm_compute; reflexivity|].
  split; [vm_compute; reflexivity|].
  vm_compute. discriminate.
Qed.

Lemma read_xtboutput_short_file_witness :
  exists energy info,
    read_xtboutput "/w/0/charges" "/w/0/gradient" short_xtb_files
      = Ok (energy, info) /\
    length info = length (charges_in short_xtb_files) /\
    forall i : nat,
      (i < length (charges_in short_xtb_files))%nat ->
      (length (lines_in short_xtb_files "/w/0/gradient")
         <= length (charges_in short_xtb_files) + 2 + i)%nat ->
      info !! i = Some [zero; zero; zero; zero].
Proof.
  apply (read_xtboutput_short_file short_xtb_files
           "/w/0/charges" "/w/0/gradient"
           (lines_in short_xtb_files "/w/0/charges")
           (lines_in short_xtb_files "/w/0/gradient")
           (charges_in short_xtb_files) (energy_in short_xtb_files)
           (gradients_in short_xtb_files));
    vm_compute; first [reflexivity | lia].
Defined.

(** C10, as the claim has it, fails: a gradient file of two lines, fewer
    than the six that two atoms call for, whose second line has no field
    of index 6, makes [read_xtboutput] raise. *)
Lemma short_file_counterexample :
  (0 < length (charges_in broken_xtb_files))%nat /\
  (2 <= length (lines_in broken_xtb_files "/w/0/gradient")
     < length (charges_in broken_xtb_files)
       + length (charges_in broken_xtb_files) + 2)%nat /\
  read_xtboutput "/w/0/charges" "/w/0/gradient" broken_xtb_files
    = Raise IndexError.
Proof.
  split; [vm_compute; lia|].
  split; [vm_compute; lia|].
  vm_compute. reflexivity.
Qed.

(** ** The claims on [run_qmmm] *)

(** C4: after a step that succeeded, the five files with fixed names (the
    structure file, the file of point charges, the two result files of xtb
    and its restart file) are not in the directory of the step file, and
    the result file, named after the step file with [.result] appended, in
    the same directory, is there and is not empty. *)
Theorem run_qmmm_cleanup (xtbdir : string) (qmcharge : list Z)
    (engine : list string -> files -> option files)
    (directory : string) (w : world) :
  fst (run_qmmm_with xtbdir qmcharge engine directory w) = Ok () ->
  let after := w_files (snd (run_qmmm_with xtbdir qmcharge engine directory w)) in
  let path := Path.dirname directory in
  after !! (path +:+ "/xtbxyz.xyz") = None /\
  after !! (path +:+ "/pcharge") = None /\
  after !! (path +:+ "/charges") = None /\
  after !! (path +:+ "/gradient") = None /\
  after !! (path +:+ "/xtbrestart") = None /\
  exists text,
    after !! (path +:+ "/" +:+ Path.basename directory +:+ ".result") = Some text /\
    text <> "".
Proof.
  intros H after path. subst after. unfold run_qmmm_with in *. fold path in H |- *.
  destruct (py_index _ _ ≫= _) as [qmpart|e]; [|discriminate].
  apply andthen_Ok in H as (_ & H & ->).
  apply andthen_Ok in H as (_ & H & ->).
  apply andthen_Ok in H as (Hout & H & ->).
  apply andthen_Ok in H as (H1 & H & ->).
  apply andthen_Ok in H as (H2 & H & ->).
  apply andthen_Ok in H as (H3 & H & ->).
  apply andthen_Ok in H as (H4 & H5 & ->).
  rewrite (remove_Ok _ _ H5), (remove_Ok _ _ H4), (remove_Ok _ _ H3),
    (remove_Ok _ _ H2), (remove_Ok _ _ H1).
  rewrite on_files_fst in Hout. rewrite on_files_files.
  destruct (convert_output_Ok _ _ _ _ Hout) as (text & Htext & ->).
  repeat split.
  1-5: rewrite !lookup_delete; repeat case_decide; done.
  exists text. split; [|done].
  rewrite !lookup_delete_ne by (apply not_eq_sym; by apply result_name_fresh).
  apply lookup_insert_eq.
Qed.

Lemma run_qmmm_cleanup_witness :
  let after := w_files (snd (run_qmmm sample_engine "/w/0/qmmm.input"
                               (sample_world "0"))) in
  after !! ("/w/0" +:+ "/xtbxyz.xyz") = None /\
  after !! ("/w/0" +:+ "/pcharge") = None /\
  after !! ("/w/0" +:+ "/charges") = None /\
  after !! ("/w/0" +:+ "/gradient") = None /\
  after !! ("/w/0" +:+ "/xtbrestart") = None /\
  exists text,
    after !! ("/w/0" +:+ "/" +:+ "qmmm.input" +:+ ".result") = Some text /\
    text <> "".
Proof.
  apply (run_qmmm_cleanup XTBDIR QMCHARGE sample_engine "/w/0/qmmm.input"
           (sample_world "0")).
  vm_compute. reflexivity.
Defined.

Lemma py_index_nat {A} (l : list A) (i : nat) (a : A) :
  l !! i = Some a -> py_index l (Z.of_nat i) = Ok a.
Proof.
  intros H. unfold py_index. apply lookup_lt_Some in H as Hlt.
  destruct (Z.ltb_spec (Z.of_nat i) 0); [lia|].
  destruct (Z.leb_spec 0 (Z.of_nat i)); [|lia].
  destruct (Z.ltb_spec (Z.of_nat i) (Z.of_nat (length l))); [|lia].
  cbn [andb]. by rewrite Nat2Z.id, H.
Qed.

Lemma py_index_outside {A} (l : list A) (k : Z) :
  len l <= k \/ k < - len l -> py_index l k = Raise IndexError.
Proof.
  intros H. unfold py_index, len in *.
  destruct (Z.ltb_spec k 0).
  - destruct (Z.leb_spec 0 (k + Z.of_nat (length l))); [|done].
    destruct (Z.ltb_spec (k + Z.of_nat (length l)) (Z.of_nat (length l))); [|done].
    lia.
  - destruct (Z.leb_spec 0 k); [|done].
    destruct (Z.ltb_spec k (Z.of_nat (length l))); [lia|done].
Qed.

Lemma andthen_second_raises (a rest : world -> result unit * world) (e : exn)
    (w : world) :
  is_Raise (fst (andthen a (andthen (fun w0 => (Raise e, w0)) rest) w)) /\
  snd (andthen a (andthen (fun w0 => (Raise e, w0)) rest) w) = snd (a w).
Proof.
  unfold andthen. destruct (a w) as [[[]|e'] w1]; simpl; split; by eauto.
Qed.

(** C3, as the code has it: the number of the QM part is read from the
    last segment of the directory of the step file.  When that segment is
    [3], xtb is started with the element of index 3 of [QMCHARGE] as its
    charge, once the input files are written.  When the segment is no
    integer for [int], or is an integer [k] with [k >= len(QMCHARGE)] or
    [k < -len(QMCHARGE)], the step raises and xtb is not started. *)
Theorem run_qmmm_region (xtbdir : string) (qmcharge : list Z)
    (engine : list string -> files -> option files)
    (directory : string) (w : world) (segment : string) :
  py_index (Text.split_on "/"%char (Path.dirname directory)) (-1) = Ok segment ->
  let path := Path.dirname directory in
  let run := run_qmmm_with xtbdir qmcharge engine directory w in
  (segment = "3" ->
   forall q : Z,
     qmcharge !! 3%nat = Some q ->
     fst (convert_input directory (path +:+ "/xtbxyz.xyz") (path +:+ "/pcharge")
            (w_files w)) = Ok () ->
     w_calls (snd run) =
       w_calls w ++ [[xtbdir; path +:+ "/xtbxyz.xyz"; "-grad"; "-charge";
                      PyInt.py_str q]]) /\
  (is_Raise (PyInt.py_int segment) \/
   (exists k : Z, PyInt.py_int segment = Ok k /\
                  (len qmcharge <= k \/ k < - len qmcharge)) ->
   is_Raise (fst run) /\ w_calls (snd run) = w_calls w).
Proof.
  intros Hseg path run. subst run. unfold run_qmmm_with.
  rewrite Hseg. fold path. cbn [mbind result_bind]. split.
  - intros -> q Hq Hin.
    change (PyInt.py_int "3") with (Ok 3).
    cbv beta iota.
    rewrite (py_index_nat qmcharge 3 q Hq : py_index qmcharge 3 = Ok q).
    unfold andthen at 1.
    pose proof (on_files_calls
      (convert_input directory (path +:+ "/xtbxyz.xyz") (path +:+ "/pcharge")) w) as Hc.
    rewrite <- on_files_fst in Hin.
    destruct (on_files _ w) as [r w1]. simpl in Hin, Hc. subst r.
    unfold andthen at 1. unfold subprocess_call.
    destruct (engine _ (w_files w1)) as [fs2|]; simpl; [|by rewrite Hc].
    match goal with
    | |- w_calls (snd (?rest ?w2)) = _ =>
        assert (keeps_calls rest) as Hk by auto 10 with calls;
        rewrite (Hk w2)
    end.
    simpl. by rewrite Hc.
  - intros [[e He] | (k & Hk & Hout)].
    + rewrite He. simpl. split; [by exists e | done].
    + rewrite Hk. cbv beta iota. rewrite (py_index_outside qmcharge k Hout).
      match goal with
      | |- context [andthen ?a (andthen ?b ?rest) w] =>
          destruct (andthen_second_raises a rest IndexError w) as [Hr ->]
      end.
      split; [done | apply on_files_calls].
Qed.

Lemma run_qmmm_region_witness :
  let path := Path.dirname "/w/3/qmmm.input" in
  let run := run_qmmm_with "xtb" [0; 0; 0; 1] sample_engine "/w/3/qmmm.input"
               (sample_world "3") in
  ("3" = "3" ->
   forall q : Z,
     [0; 0; 0; 1] !! 3%nat = Some q ->
     fst (convert_input "/w/3/qmmm.input" (path +:+ "/xtbxyz.xyz")
            (path +:+ "/pcharge") (w_files (sample_world "3"))) = Ok () ->
     w_calls (snd run) =
       w_calls (sample_world "3") ++
         [["xtb"; path +:+ "/xtbxyz.xyz"; "-grad"; "-charge"; PyInt.py_str q]]) /\
  (is_Raise (PyInt.py_int "3") \/
   (exists k : Z, PyInt.py_int "3" = Ok k /\
                  (len [0; 0; 0; 1] <= k \/ k < - len [0; 0; 0; 1])) ->
   is_Raise (fst run) /\ w_calls (snd run) = w_calls (sample_world "3")).
Proof.
  apply (run_qmmm_region "xtb" [0; 0; 0; 1] sample_engine "/w/3/qmmm.input"
           (sample_world "3") "3").
  vm_compute. reflexivity.
Defined.

(** C3, as the claim has it, fails: the segment [-1] is not an integer
    that is at least 0, yet with the [QMCHARGE] of the script the step
    succeeds, and xtb is started with the last charge of the list. *)
Lemma region_counterexample :
  py_index (Text.split_on "/"%char (Path.dirname "/w/-1/qmmm.input")) (-1)
    = Ok "-1" /\
  PyInt.py_int "-1" = Ok (-1) /\
  fst (run_qmmm sample_engine "/w/-1/qmmm.input" (sample_world "-1")) = Ok () /\
  w_calls (snd (run_qmmm sample_engine "/w/-1/qmmm.input" (sample_world "-1")))
    = [[XTBDIR; "/w/-1/xtbxyz.xyz"; "-grad"; "-charge"; "0"]].
Proof. repeat split; vm_compute; reflexivity. Qed.

(** * Further properties of the functions *)

(** ** Which exceptions the operations raise *)

Lemma py_float_raises (s : string) (e : exn) : py_float s = Raise e -> e = ValueError.
Proof.
  unfold py_float. destruct (PyInt.sign_of _) as [neg body].
  destruct (_ || _); [discriminate|].
  destruct (String.eqb _ _); [discriminate|].
  destruct (parse_number body) as [[m e10]|]; [discriminate|]. congruence.
Qed.

Lemma py_int_raises (s : string) (e : exn) : PyInt.py_int s = Raise e -> e = ValueError.
Proof.
  unfold PyInt.py_int. destruct (PyInt.sign_of _) as [neg body].
  destruct (PyInt.digitpart body) as [[n c]|]; [discriminate|]. congruence.
Qed.

Lemma py_get_raises {A} (l : list A) (i : nat) (e : exn) :
  py_get l i = Raise e -> e = IndexError.
Proof. unfold py_get. destruct (l !! i); [discriminate|]. congruence. Qed.

Lemma np_set_raises (a : Np.array) (r c : nat) (v : float) (e : exn) :
  Np.set a r c v = Raise e -> e = IndexError.
Proof.
  unfold Np.set. destruct (a !! r); [|congruence].
  destruct (bool_decide _); [discriminate|]. congruence.
Qed.

Lemma np_get_raises (a : Np.array) (r c : nat) (e : exn) :
  Np.get a r c = Raise e -> e = IndexError.
Proof.
  unfold Np.get. destruct (py_get a r) as [row|e'] eqn:Hr; cbn [mbind result_bind].
  - apply py_get_raises.
  - intros [= <-]. by eapply py_get_raises.
Qed.

Lemma np_zeros_raises (rows : Z) (cols : nat) (e : exn) :
  Np.zeros rows cols = Raise e -> e = ValueError /\ rows < 0.
Proof.
  unfold Np.zeros. destruct (Z.ltb_spec rows 0); [|discriminate].
  intros [= <-]. done.
Qed.

Lemma list_set_raises {A} (l : list A) (i : nat) (v : A) (e : exn) :
  list_set l i v = Raise e -> e = IndexError.
Proof. unfold list_set. destruct (bool_decide _); [discriminate|]. congruence. Qed.

(** An exception of a loop is an exception of its body. *)
Lemma for_each_raises {I S} (P : exn -> Prop) (l : list I)
    (body : I -> S -> result S) :
  (forall i s e, body i s = Raise e -> P e) ->
  forall s e, for_each l body s = Raise e -> P e.
Proof.
  intros Hb. induction l as [|i l IH]; intros s e; simpl; [discriminate|].
  destruct (body i s) as [s'|e'] eqn:Hi; cbn [mbind result_bind].
  - apply IH.
  - intros [= <-]. by eapply Hb.
Qed.

(** What a loop keeps when its body keeps it. *)
Lemma for_each_keeps {I S} (P : S -> Prop) (l : list I)
    (body : I -> S -> result S) :
  (forall i s s', body i s = Ok s' -> P s -> P s') ->
  forall s s', for_each l body s = Ok s' -> P s -> P s'.
Proof.
  intros Hb. induction l as [|i l IH]; intros s s'; simpl.
  - by intros [= <-].
  - destruct (body i s) as [s1|e] eqn:Hi; cbn [mbind result_bind]; [|discriminate].
    intros H Hs. eapply IH; [done|]. by eapply Hb.
Qed.

(** ** The sizes of the arrays *)

Lemma shape_zeros (n cols : nat) : shape n cols (replicate n (replicate cols zero)).
Proof.
  split; [apply length_replicate|].
  apply Forall_replicate. apply length_replicate.
Qed.

Lemma np_set_shape (a a' : Np.array) (r c : nat) (v : float) (rows cols : nat) :
  Np.set a r c v = Ok a' -> shape rows cols a -> shape rows cols a'.
Proof.
  unfold Np.set. destruct (a !! r) as [row|] eqn:Hr; [|discriminate].
  destruct (bool_decide _); [|discriminate].
  intros [= <-] [Hlen Hall]. split; [by rewrite length_insert|].
  apply Forall_insert; [done|].
  rewrite length_insert. by eapply (Forall_lookup_1 _ _ _ _ Hall).
Qed.

Lemma np_get_shape (a : Np.array) (r c rows cols : nat) :
  shape rows cols a -> (r < rows)%nat -> (c < cols)%nat -> is_Ok (Np.get a r c).
Proof.
  intros [Hlen Hall] Hr Hc. unfold Np.get, py_get.
  destruct (lookup_lt_is_Some_2 a r) as [row Hrow]; [lia|]. rewrite Hrow.
  cbn [mbind result_bind].
  pose proof (Forall_lookup_1 _ _ _ _ Hall Hrow) as Hl. cbn beta in Hl.
  destruct (lookup_lt_is_Some_2 row c) as [x ->]; [lia|]. by exists x.
Qed.

(** ** [read_namdinput]: sizes and exceptions on any file *)

Lemma namd_atom_sized (line : string) (count : nat) (v v' : namd_vars) :
  namd_atom line count v = Ok v' -> namd_sized v -> namd_sized v'.
Proof.
  unfold namd_atom. intros H (He & Hc & Hp).
  apply bind_Ok_inv in H as (c & Hfor & H).
  apply bind_Ok_inv in H as (d & _ & H).
  apply bind_Ok_inv in H as (el & Hset & H).
  injection H as <-. unfold namd_sized. cbn [element coor pcharge atom_num pcharge_num].
  split; [|split; [|done]].
  - unfold list_set in Hset. destruct (bool_decide _); [|discriminate].
    injection Hset as <-. by rewrite length_insert.
  - revert Hfor Hc. apply for_each_keeps. intros i s s' Hb.
    apply bind_Ok_inv in Hb as (d' & _ & Hb).
    apply bind_Ok_inv in Hb as (x & _ & Hb).
    by eapply np_set_shape.
Qed.

Lemma namd_pcharge_sized (line : string) (count : nat) (v v' : namd_vars) :
  namd_pcharge line count v = Ok v' -> namd_sized v -> namd_sized v'.
Proof.
  unfold namd_pcharge. intros H (He & Hc & Hp).
  apply bind_Ok_inv in H as (d & _ & H).
  apply bind_Ok_inv in H as (q & _ & H).
  apply bind_Ok_inv in H as (p0 & Hset & H).
  apply bind_Ok_inv in H as (p1 & Hfor & H).
  injection H as <-. unfold namd_sized. cbn [element coor pcharge atom_num pcharge_num].
  split; [done|]. split; [done|].
  apply (np_set_shape _ _ _ _ _ _ _ Hset) in Hp.
  revert Hfor Hp. apply for_each_keeps. intros i s s' Hb.
  apply bind_Ok_inv in Hb as (d' & _ & Hb).
  apply bind_Ok_inv in Hb as (x & _ & Hb).
  by eapply np_set_shape.
Qed.

Lemma namd_header_sized (line : string) (v : namd_vars) :
  namd_header line = Ok v -> namd_sized v.
Proof.
  unfold namd_header. intros H.
  apply bind_Ok_inv in H as (a & _ & H).
  apply bind_Ok_inv in H as (n & _ & H).
  apply bind_Ok_inv in H as (b & _ & H).
  apply bind_Ok_inv in H as (m & _ & H).
  apply bind_Ok_inv in H as (c & Hc & H).
  apply bind_Ok_inv in H as (p & Hp & H).
  injection H as <-. unfold Np.zeros in Hc, Hp.
  destruct (n <? 0); [discriminate|]. destruct (m <? 0); [discriminate|].
  injection Hc as <-. injection Hp as <-.
  split; [apply length_replicate|]. split; apply shape_zeros.
Qed.

Lemma namd_line_sized (count : nat) (line : string) (vars vars' : option namd_vars) :
  namd_line count line vars = Ok vars' ->
  (forall v, vars = Some v -> namd_sized v) ->
  exists v', vars' = Some v' /\ namd_sized v'.
Proof.
  unfold namd_line. intros H Hinv.
  apply bind_Ok_inv in H as (vars1 & H1 & H).
  apply bind_Ok_inv in H as (v1 & Hb & H).
  apply bind_Ok_inv in H as (v2 & H2 & H).
  apply bind_Ok_inv in H as (v3 & H3 & H).
  injection H as <-. exists v3. split; [done|].
  assert (namd_sized v1) as S1.
  { destruct vars1 as [v|]; [|discriminate]. injection Hb as <-.
    destruct (count =? 1)%nat.
    - apply bind_Ok_inv in H1 as (v0 & Hh & H1). injection H1 as <-.
      by eapply namd_header_sized.
    - injection H1 as ->. by apply Hinv. }
  assert (namd_sized v2) as S2.
  { destruct (_ && _) in H2; [by eapply namd_atom_sized|]. by injection H2 as <-. }
  destruct (_ && _) in H3; [by eapply namd_pcharge_sized|]. by injection H3 as <-.
Qed.

Lemma namd_loop_sized (lines : list string) :
  forall (count : nat) (vars vars' : option namd_vars),
  namd_loop lines count vars = Ok vars' ->
  (forall v, vars = Some v -> namd_sized v) ->
  forall v', vars' = Some v' -> namd_sized v'.
Proof.
  induction lines as [|line lines IH]; intros count vars vars' H Hinv v' Hv'.
  - injection H as <-. by apply Hinv.
  - cbn [namd_loop] in H. apply bind_Ok_inv in H as (vars1 & H1 & H).
    destruct (namd_line_sized _ _ _ _ H1 Hinv) as (v1 & -> & S1).
    eapply IH; [done | | done]. by intros v [= <-].
Qed.

Lemma read_namdinput_lines_sized (lines : list string)
    (element : list (option string)) (coor pcharge : Np.array) :
  read_namdinput_lines lines = Ok (element, coor, pcharge) ->
  shape (length element) 3 coor /\ exists m, shape m 4 pcharge.
Proof.
  unfold read_namdinput_lines. intros H.
  apply bind_Ok_inv in H as (vars & Hl & H).
  apply bind_Ok_inv in H as (v & Hb & H).
  destruct vars as [v0|]; [|discriminate]. injection Hb as ->.
  injection H as <- <- <-.
  destruct (namd_loop_sized _ _ _ _ Hl (fun v H => ltac:(discriminate)) v eq_refl)
    as (He & Hc & Hp).
  split; [by rewrite He | by eexists].
Qed.

Lemma namd_line_Some (count : nat) (line : string) (vars vars' : option namd_vars) :
  namd_line count line vars = Ok vars' -> is_Some vars'.
Proof.
  unfold namd_line. intros H.
  apply bind_Ok_inv in H as (vars1 & _ & H).
  apply bind_Ok_inv in H as (v1 & _ & H).
  apply bind_Ok_inv in H as (v2 & _ & H).
  apply bind_Ok_inv in H as (v3 & _ & H).
  injection H as <-. by eexists.
Qed.

Lemma namd_header_raises (line : string) (e : exn) :
  namd_header line = Raise e -> parse_error e.
Proof.
  unfold namd_header, parse_error.
  destruct (py_get (fields line) 0) as [a|e1] eqn:H0; cbn [mbind result_bind];
    [|intros [= <-]; left; by eapply py_get_raises].
  destruct (PyInt.py_int a) as [n|e1] eqn:Hn; cbn [mbind result_bind];
    [|intros [= <-]; right; by eapply py_int_raises].
  destruct (py_get (fields line) 1) as [b|e1] eqn:H1; cbn [mbind result_bind];
    [|intros [= <-]; left; by eapply py_get_raises].
  destruct (PyInt.py_int b) as [m|e1] eqn:Hm; cbn [mbind result_bind];
    [|intros [= <-]; right; by eapply py_int_raises].
  destruct (Np.zeros n 3) as [c|e1] eqn:Hc; cbn [mbind result_bind];
    [|intros [= <-]; right; by eapply np_zeros_raises].
  destruct (Np.zeros m 4) as [p|e1] eqn:Hp; cbn [mbind result_bind];
    [discriminate|intros [= <-]; right; by eapply np_zeros_raises].
Qed.

(** The exceptions of reading one value into an array. *)
Lemma read_value_raises (data : list string) (i r c : nat) (f : float -> float)
    (a : Np.array) (e : exn) :
  (d ← py_get data i; x ← py_float d; Np.set a r c (f x)) = Raise e ->
  parse_error e.
Proof.
  unfold parse_error.
  destruct (py_get data i) as [d|e1] eqn:Hd; cbn [mbind result_bind];
    [|intros [= <-]; left; by eapply py_get_raises].
  destruct (py_float d) as [x|e1] eqn:Hx; cbn [mbind result_bind];
    [|intros [= <-]; right; by eapply py_float_raises].
  intros H. left. by eapply np_set_raises.
Qed.

Lemma namd_atom_raises (line : string) (count : nat) (v : namd_vars) (e : exn) :
  namd_atom line count v = Raise e -> parse_error e.
Proof.
  unfold namd_atom.
  destruct (for_each _ _ _) as [c|e1] eqn:Hfor; cbn [mbind result_bind].
  - destruct (py_get (fields line) 3) as [d|e1] eqn:Hd; cbn [mbind result_bind];
      [|intros [= <-]; left; by eapply py_get_raises].
    destruct (list_set _ _ _) as [el|e1] eqn:Hs; cbn [mbind result_bind];
      [discriminate|intros [= <-]; left; by eapply list_set_raises].
  - intros [= <-]. revert Hfor. apply for_each_raises. intros i s e2.
    apply (read_value_raises (fields line) i (count - 2) i (fun x => x)).
Qed.

Lemma namd_pcharge_raises (line : string) (count : nat) (v : namd_vars) (e : exn) :
  namd_pcharge line count v = Raise e -> parse_error e.
Proof.
  unfold namd_pcharge.
  destruct (py_get (fields line) 3) as [d|e1] eqn:Hd; cbn [mbind result_bind];
    [|intros [= <-]; left; by eapply py_get_raises].
  destruct (py_float d) as [q|e1] eqn:Hq; cbn [mbind result_bind];
    [|intros [= <-]; right; by eapply py_float_raises].
  destruct (Np.set _ _ 0 q) as [p|e1] eqn:Hs; cbn [mbind result_bind];
    [|intros [= <-]; left; by eapply np_set_raises].
  destruct (for_each _ _ _) as [c|e1] eqn:Hfor; cbn [mbind result_bind];
    [discriminate|].
  intros [= <-]. revert Hfor. apply for_each_raises. intros i s e2.
  apply (read_value_raises (fields line) i _ (i + 1) (fun x => mul x bohr)).
Qed.

Lemma namd_line_raises (count : nat) (line : string) (vars : option namd_vars)
    (e : exn) :
  count = 1%nat \/ is_Some vars ->
  namd_line count line vars = Raise e -> parse_error e.
Proof.
  intros Hc. unfold namd_line.
  assert (forall vars1,
    (if (count =? 1)%nat then v ← namd_header line; Ok (Some v) else Ok vars)
      = Ok vars1 -> is_Some vars1) as Hsome.
  { intros vars1. destruct (Nat.eqb_spec count 1) as [->|Hne].
    - intros H. apply bind_Ok_inv in H as (v & _ & [= <-]). by eexists.
    - intros [= <-]. by destruct Hc. }
  destruct (if (count =? 1)%nat then _ else _) as [vars1|e1] eqn:H1;
    cbn [mbind result_bind].
  - destruct (Hsome vars1 eq_refl) as [v1 ->]. cbn [bound mbind result_bind].
    destruct (if _ && _ then namd_atom _ _ _ else _) as [v2|e2] eqn:H2;
      cbn [mbind result_bind].
    + destruct (if _ && _ then namd_pcharge _ _ _ else _) as [v3|e3] eqn:H3;
        cbn [mbind result_bind]; [discriminate|].
      intros [= <-]. destruct (_ && _) in H3; [|discriminate].
      by eapply namd_pcharge_raises.
    + intros [= <-]. destruct (_ && _) in H2; [|discriminate].
      by eapply namd_atom_raises.
  - intros [= <-]. destruct (count =? 1)%nat; [|discriminate].
    destruct (namd_header line) as [v|e0] eqn:Hh; [discriminate|].
    injection H1 as <-. by eapply namd_header_raises.
Qed.

Lemma namd_loop_raises (lines : list string) :
  forall (count : nat) (vars : option namd_vars) (e : exn),
  is_Some vars ->
  namd_loop lines count vars = Raise e -> parse_error e.
Proof.
  induction lines as [|line lines IH]; intros count vars e Hv; [discriminate|].
  cbn [namd_loop].
  destruct (namd_line (S count) line vars) as [vars1|e1] eqn:H1;
    cbn [mbind result_bind].
  - apply IH. by eapply namd_line_Some.
  - intros [= <-]. eapply namd_line_raises; [|done]. by right.
Qed.

Lemma namd_loop_Some (lines : list string) :
  forall (count : nat) (vars vars' : option namd_vars),
  is_Some vars ->
  namd_loop lines count vars = Ok vars' -> is_Some vars'.
Proof.
  induction lines as [|line lines IH]; intros count vars vars' Hv.
  - by intros [= <-].
  - cbn [namd_loop]. intros H. apply bind_Ok_inv in H as (vars1 & H1 & H).
    eapply IH; [|done]. by eapply namd_line_Some.
Qed.

Lemma read_namdinput_lines_raises (lines : list string) (e : exn) :
  read_namdinput_lines lines = Raise e ->
  (lines = [] /\ e = UnboundLocalError) \/ (lines <> [] /\ parse_error e).
Proof.
  unfold read_namdinput_lines. destruct lines as [|header rest].
  - simpl. intros [= <-]. by left.
  - intros H. right. split; [done|]. cbn [namd_loop] in H.
    destruct (namd_line 1 header None) as [vars1|e1] eqn:H1;
      cbn [mbind result_bind] in H.
    + apply namd_line_Some in H1 as Hs.
      destruct (namd_loop rest 1 vars1) as [vars2|e2] eqn:H2;
        cbn [mbind result_bind] in H.
      * apply namd_loop_Some in H2 as [v2 ->]; [|done]. discriminate.
      * injection H as <-. by eapply namd_loop_raises.
    + injection H as <-. eapply namd_line_raises; [|done]. by left.
Qed.

Lemma readlines_go_nonempty (c : ascii) (s : string) :
  Text.is_empty (fst (Text.readlines_go (String c s))) = false.
Proof.
  cbn [Text.readlines_go]. destruct (Text.readlines_go s) as [l ls] eqn:Hs.
  destruct (Ascii.eqb c _); [done|].
  destruct (Ascii.eqb c _); [|done].
  destruct s as [|c' s']; [done|].
  destruct (Ascii.eqb c' (ascii_of_nat 10)) eqn:Hc'; [|done].
  cbn [Text.readlines_go] in Hs. rewrite Hc' in Hs.
  destruct (Text.readlines_go s'). by injection Hs as <- <-.
Qed.

Lemma readlines_nil (content : string) : Text.readlines content = [] <-> content = "".
Proof.
  split; [|by intros ->].
  destruct content as [|c s]; [done|]. unfold Text.readlines.
  pose proof (readlines_go_nonempty c s) as H.
  destruct (Text.readlines_go (String c s)) as [l ls]. simpl in H. by rewrite H.
Qed.

(** ** [read_namdinput] on a file of any length *)

Lemma namd_loop_atoms_part (lines : list string) (atoms : list atom) :
  Forall2 (fun l a => atom_of_line l = Some a) lines atoms ->
  forall (n m extra : nat) (de : list (option string)) (dc p : Np.array)
         (tail : list string),
  length de = length dc ->
  (length dc + length lines <= n)%nat ->
  namd_loop (lines ++ tail) (S (length dc))
    (Some {| atom_num := n; pcharge_num := m;
             element := de ++ replicate (length lines + extra) None;
             coor := dc ++ replicate (length lines + extra) zero3; pcharge := p |}) =
  namd_loop tail (S (length dc + length lines))
    (Some {| atom_num := n; pcharge_num := m;
             element := de ++ ((fun a => Some (a_element a)) <$> atoms)
                           ++ replicate extra None;
             coor := dc ++ (coor_row <$> atoms) ++ replicate extra zero3;
             pcharge := p |}).
Proof.
  induction 1 as [|line a lines atoms Ha _ IH];
    intros n m extra de dc p tail Hlen Hn.
  - simpl. by rewrite Nat.add_0_r.
  - simpl in Hn. cbn [length app namd_loop Nat.add].
    rewrite (namd_line_atom line a n m (length dc)); try done; try lia.
    + cbn [mbind result_bind].
      rewrite insert_next. rewrite <- Hlen, insert_next, Hlen.
      specialize (IH n m extra (de ++ [Some (a_element a)]) (dc ++ [coor_row a])
                    p tail).
      rewrite !length_app in IH. simpl in IH.
      replace (length dc + 1)%nat with (S (length dc)) in IH by lia.
      rewrite IH by lia.
      rewrite <- !app_assoc. simpl.
      by rewrite Nat.add_succ_r.
    + apply lookup_next.
    + rewrite length_app, length_replicate. simpl. lia.
Qed.

Lemma namd_loop_pcharges_part (lines : list string) (pcs : list point_charge) :
  Forall2 (fun l p => point_charge_of_line l = Some p) lines pcs ->
  forall (n m extra : nat) (e : list (option string)) (c dp : Np.array)
         (tail : list string),
  (length dp + length lines <= m)%nat ->
  namd_loop (lines ++ tail) (S (length dp + n))
    (Some {| atom_num := n; pcharge_num := m; element := e; coor := c;
             pcharge := dp ++ replicate (length lines + extra) zero4 |}) =
  namd_loop tail (S (length dp + length lines + n))
    (Some {| atom_num := n; pcharge_num := m; element := e; coor := c;
             pcharge := dp ++ (pcharge_row <$> pcs) ++ replicate extra zero4 |}).
Proof.
  induction 1 as [|line q lines pcs Hq _ IH]; intros n m extra e c dp tail Hm.
  - simpl. by rewrite Nat.add_0_r.
  - simpl in Hm. cbn [length app namd_loop Nat.add].
    rewrite (namd_line_pcharge line q n m (length dp)); try done; try lia.
    + cbn [mbind result_bind]. rewrite insert_next.
      specialize (IH n m extra e c (dp ++ [pcharge_row q]) tail).
      rewrite !length_app in IH. simpl in IH.
      replace (length dp + 1 + n)%nat with (S (length dp + n)) in IH by lia.
      rewrite IH by lia.
      rewrite <- !app_assoc. simpl.
      by replace (length dp + 1 + length lines + n)%nat
        with (length dp + S (length lines) + n)%nat by lia.
    + apply lookup_next.
Qed.

Lemma read_namdinput_lines_any (header : string) (body : list string)
    (n m : nat) (atoms : list atom) (pcs : list point_charge) :
  header_of_line header = Some (Z.of_nat n, Z.of_nat m) ->
  mapM atom_of_line (take n body) = Some atoms ->
  mapM point_charge_of_line (take m (drop n body)) = Some pcs ->
  read_namdinput_lines (header :: body) =
    Ok (((fun a => Some (a_element a)) <$> atoms)
          ++ replicate (n - length atoms) None,
        (coor_row <$> atoms) ++ replicate (n - length atoms) zero3,
        (pcharge_row <$> pcs) ++ replicate (m - length pcs) zero4).
Proof.
  intros Hh Ha Hp. apply mapM_Some in Ha, Hp.
  pose proof (Forall2_length _ _ _ Ha) as La.
  pose proof (Forall2_length _ _ _ Hp) as Lp.
  rewrite length_take in La, Lp. rewrite length_drop in Lp.
  unfold read_namdinput_lines. cbn [namd_loop].
  rewrite (namd_header_ok header n m Hh). cbn [mbind result_bind].
  rewrite <- (take_drop n body) at 1.
  pose proof (namd_loop_atoms_part _ _ Ha n m (n - length atoms) [] []
                (replicate m zero4) (drop n body)) as H1.
  cbn [app length] in H1.
  replace (length (take n body) + (n - length atoms))%nat with n in H1
    by (rewrite length_take; lia).
  rewrite H1 by (first [done | rewrite length_take; lia]). clear H1.
  cbn [Nat.add].
  destruct (Nat.le_gt_cases n (length body)) as [Hlong|Hshort].
  - rewrite <- (take_drop m (drop n body)) at 1.
    pose proof (namd_loop_pcharges_part _ _ Hp n m (m - length pcs)
                  (((fun a => Some (a_element a)) <$> atoms)
                     ++ replicate (n - length atoms) None)
                  ((coor_row <$> atoms) ++ replicate (n - length atoms) zero3)
                  [] (drop m (drop n body))) as H2.
    cbn [app length Nat.add] in H2.
    replace (length (take m (drop n body)) + (m - length pcs))%nat with m in H2
      by (rewrite length_take, length_drop; lia).
    replace (length (take n body)) with n by (rewrite length_take; lia).
    rewrite H2 by (rewrite length_take, length_drop; lia). clear H2.
    destruct (drop m (drop n body)) as [|l3 rest3] eqn:H3; [done|].
    assert (m < length (drop n body))%nat as Hm.
    { assert (length (drop m (drop n body)) <> 0)%nat as Hne by (by rewrite H3).
      rewrite length_drop in Hne. lia. }
    rewrite length_drop in Hm.
    rewrite namd_loop_extra;
      [done | cbn [atom_num pcharge_num]; rewrite length_take, length_drop; lia].
  - rewrite drop_ge in Hp |- * by lia. rewrite take_nil in Hp.
    apply Forall2_nil_inv_l in Hp as ->. cbn [namd_loop bound mbind result_bind].
    simpl. by rewrite Nat.sub_0_r.
Qed.

(** ** The text that the writers leave *)

Lemma write_rows_ok (rows : list (result string)) :
  Forall is_Ok rows -> forall written, fst (write_rows rows written) = Ok ().
Proof.
  induction 1 as [|r rows [l ->] _ IH]; intros written; simpl; [done|]. apply IH.
Qed.

Lemma write_rows_raises (ex : exn) (rows : list (result string)) :
  Forall (fun r => forall e, r = Raise e -> e = ex) rows ->
  Exists is_Raise rows ->
  forall written, fst (write_rows rows written) = Raise ex.
Proof.
  induction 1 as [|r rows Hr Hall IH]; intros Hex written.
  - by apply Exists_nil in Hex.
  - destruct r as [l|e]; simpl.
    + apply IH. apply Exists_cons in Hex as [[e He]|Hex]; [discriminate|done].
    + by rewrite (Hr e eq_refl).
Qed.

Lemma xyz_row_raises (element : list (option string)) (coor : Np.array) (i : nat)
    (e : exn) :
  xyz_row element coor i = Raise e -> e = IndexError.
Proof.
  unfold xyz_row.
  destruct (py_get element i) as [el|e1] eqn:H0; cbn [mbind result_bind];
    [|intros [= <-]; by eapply py_get_raises].
  destruct (Np.get coor i 0) as [x|e1] eqn:H1; cbn [mbind result_bind];
    [|intros [= <-]; by eapply np_get_raises].
  destruct (Np.get coor i 1) as [y|e1] eqn:H2; cbn [mbind result_bind];
    [|intros [= <-]; by eapply np_get_raises].
  destruct (Np.get coor i 2) as [z|e1] eqn:H3; cbn [mbind result_bind];
    [discriminate|intros [= <-]; by eapply np_get_raises].
Qed.

Lemma xyz_row_ok (element : list (option string)) (coor : Np.array) (i : nat) :
  shape (length element) 3 coor -> (i < length element)%nat ->
  is_Ok (xyz_row element coor i).
Proof.
  intros Hs Hi. unfold xyz_row.
  destruct (lookup_lt_is_Some_2 element i Hi) as [el Hel].
  rewrite (py_get_lookup _ _ _ Hel). cbn [mbind result_bind].
  destruct (np_get_shape coor i 0 _ _ Hs Hi) as [x ->]; [lia|].
  destruct (np_get_shape coor i 1 _ _ Hs Hi) as [y ->]; [lia|].
  destruct (np_get_shape coor i 2 _ _ Hs Hi) as [z ->]; [lia|].
  by eexists.
Qed.

Lemma row4_ok (a : Np.array) (rows i : nat) :
  shape rows 4 a -> (i < rows)%nat -> is_Ok (row4 a i).
Proof.
  intros Hs Hi. unfold row4.
  destruct (np_get_shape a i 0 _ _ Hs Hi) as [x0 ->]; [lia|].
  destruct (np_get_shape a i 1 _ _ Hs Hi) as [x1 ->]; [lia|].
  destruct (np_get_shape a i 2 _ _ Hs Hi) as [x2 ->]; [lia|].
  destruct (np_get_shape a i 3 _ _ Hs Hi) as [x3 ->]; [lia|].
  by eexists.
Qed.

Lemma rows_ok {A} (row : nat -> result A) (n : nat) :
  (forall i, (i < n)%nat -> is_Ok (row i)) -> Forall is_Ok (row <$> seq 0 n).
Proof.
  intros H. apply Forall_fmap, Forall_forall. intros i Hi.
  apply elem_of_seq in Hi. apply H. lia.
Qed.

Lemma xyz_text_ok (element : list (option string)) (coor : Np.array) :
  shape (length element) 3 coor -> fst (xyz_text element coor) = Ok ().
Proof.
  intros Hs. unfold xyz_text. apply write_rows_ok, rows_ok.
  intros i Hi. by apply xyz_row_ok.
Qed.

Lemma pc_text_ok (pcharge : Np.array) (m : nat) :
  shape m 4 pcharge -> fst (pc_text pcharge) = Ok ().
Proof.
  intros Hs. unfold pc_text. apply write_rows_ok, rows_ok.
  intros i Hi. apply (row4_ok pcharge m); [done|]. destruct Hs as [<- _]. done.
Qed.

Lemma namd_text_ok (energy : float) (info : Np.array) (n : nat) :
  shape n 4 info -> fst (namd_text energy info) = Ok ().
Proof.
  intros Hs. unfold namd_text. apply write_rows_ok, rows_ok.
  intros i Hi. apply (row4_ok info n); [done|]. destruct Hs as [<- _]. done.
Qed.

(** ** More on [read_namdinput], [write_xtbinput] and [convert_input] *)

(** X1: the exceptions of [read_namdinput].  It raises
    [FileNotFoundError] only when the step file does not exist,
    [UnboundLocalError] only when the file is empty, and otherwise
    [IndexError] or [ValueError], on a file that is not empty. *)
Theorem read_namdinput_errors (file : string) (fs : files) (e : exn) :
  read_namdinput file fs = Raise e ->
  (e = FileNotFoundError /\ fs !! file = None) \/
  (e = UnboundLocalError /\ fs !! file = Some "") \/
  ((e = IndexError \/ e = ValueError) /\
   exists content, fs !! file = Some content /\ content <> "").
Proof.
  unfold read_namdinput, open_readlines.
  destruct (fs !! file) as [content|]; cbn [mbind result_bind].
  - intros H. right.
    apply read_namdinput_lines_raises in H as [[Hl ->]|[Hl He]].
    + left. split; [done|]. apply readlines_nil in Hl. by subst.
    + right. split; [done|]. exists content. split; [done|].
      intros ->. by apply Hl.
  - intros [= <-]. by left.
Qed.

Lemma read_namdinput_errors_witness :
  (UnboundLocalError = FileNotFoundError /\
   ({[ "/w/0/qmmm.input" := "" ]} : files) !! "/w/0/qmmm.input" = None) \/
  (UnboundLocalError = UnboundLocalError /\
   ({[ "/w/0/qmmm.input" := "" ]} : files) !! "/w/0/qmmm.input" = Some "") \/
  ((UnboundLocalError = IndexError \/ UnboundLocalError = ValueError) /\
   exists content,
     ({[ "/w/0/qmmm.input" := "" ]} : files) !! "/w/0/qmmm.input" = Some content
     /\ content <> "").
Proof.
  apply (read_namdinput_errors "/w/0/qmmm.input" {[ "/w/0/qmmm.input" := "" ]}).
  vm_compute. reflexivity.
Defined.

(** X2: a count of the first line that is negative makes
    [read_namdinput] raise [ValueError], whatever follows the first line. *)
Theorem read_namdinput_negative_count (file : string) (fs : files)
    (content header : string) (rest : list string) (n m : Z) :
  fs !! file = Some content ->
  Text.readlines content = header :: rest ->
  header_of_line header = Some (n, m) ->
  n < 0 \/ m < 0 ->
  read_namdinput file fs = Raise ValueError.
Proof.
  intros Hfile Hlines Hh Hneg.
  unfold read_namdinput, open_readlines. rewrite Hfile. cbn [mbind result_bind].
  rewrite Hlines. unfold read_namdinput_lines. cbn [namd_loop].
  unfold namd_line. cbn [Nat.eqb]. unfold header_of_line in Hh.
  unfold namd_header.
  destruct (fields header) as [|sn [|sm hrest]]; try discriminate.
  destruct (PyInt.py_int sn) as [n'|] eqn:Hn; try discriminate.
  destruct (PyInt.py_int sm) as [m'|] eqn:Hm; try discriminate.
  simpl in Hh. injection Hh as -> ->.
  simpl. rewrite Hn. simpl. rewrite Hm. simpl. unfold Np.zeros.
  destruct (Z.ltb_spec n 0); [done|].
  destruct (Z.ltb_spec m 0); [done|lia].
Qed.

Lemma read_namdinput_negative_count_witness :
  read_namdinput "/w/0/qmmm.input"
    {[ "/w/0/qmmm.input" := text_of_lines ["2 -1"; "0.0 0.0 0.0 H"] ]}
  = Raise ValueError.
Proof.
  apply (read_namdinput_negative_count "/w/0/qmmm.input" _
           (text_of_lines ["2 -1"; "0.0 0.0 0.0 H"])
           ("2 -1" +:+ Text.nl) ["0.0 0.0 0.0 H" +:+ Text.nl] 2 (-1)).
  - vm_compute. reflexivity.
  - vm_compute. reflexivity.
  - vm_compute. reflexivity.
  - right. lia.
Defined.

(** X3: [read_namdinput] on a step file of any length.  With the counts N
    and M of the first line, it reads the atoms from the lines 2 to N+1
    that the file has and the point charges from the lines N+2 to N+M+1
    that the file has; it ignores the lines after them, and it does not
    notice lines that are missing: their atoms keep the element [None]
    and the position zero, their point charges a row of zeros. *)
Theorem read_namdinput_any_length (file : string) (fs : files)
    (content header : string) (body : list string) (n m : nat)
    (atoms : list atom) (pcs : list point_charge) :
  fs !! file = Some content ->
  Text.readlines content = header :: body ->
  header_of_line header = Some (Z.of_nat n, Z.of_nat m) ->
  mapM atom_of_line (take n body) = Some atoms ->
  mapM point_charge_of_line (take m (drop n body)) = Some pcs ->
  read_namdinput file fs =
    Ok (((fun a => Some (a_element a)) <$> atoms)
          ++ replicate (n - length atoms) None,
        ((fun a => [a_x a; a_y a; a_z a]) <$> atoms)
          ++ replicate (n - length atoms) [zero; zero; zero],
        ((fun p => [p_charge p; mul (p_x p) (literal "1.88973");
                    mul (p_y p) (literal "1.88973");
                    mul (p_z p) (literal "1.88973")]) <$> pcs)
          ++ replicate (m - length pcs) [zero; zero; zero; zero]).
Proof.
  intros Hfile Hlines Hh Ha Hp.
  unfold read_namdinput, open_readlines. rewrite Hfile. cbn [mbind result_bind].
  rewrite Hlines. by apply read_namdinput_lines_any.
Qed.

Lemma read_namdinput_any_length_witness :
  read_namdinput "/w/0/qmmm.input"
    {[ "/w/0/qmmm.input" := text_of_lines ["2 1"; "0.0 0.0 1.0 H"] ]}
  = Ok ([Some "H"; None],
        [[zero; zero; literal "1.0"]; [zero; zero; zero]],
        [[zero; zero; zero; zero]]).
Proof.
  apply (read_namdinput_any_length "/w/0/qmmm.input" _
           (text_of_lines ["2 1"; "0.0 0.0 1.0 H"])
           ("2 1" +:+ Text.nl) ["0.0 0.0 1.0 H" +:+ Text.nl] 2 1
           [ {| a_x := zero; a_y := zero; a_z := literal "1.0"; a_element := "H" |} ]
           []);
    vm_compute; reflexivity.
Defined.

(** [write_xtbinput] on arrays of the sizes that the lists have. *)
Lemma write_xtbinput_shaped (xyzfile pchargefile : string)
    (element : list (option string)) (coor pcharge : Np.array) (m : nat)
    (fs : files) :
  shape (length element) 3 coor -> shape m 4 pcharge ->
  fst (write_xtbinput xyzfile pchargefile element coor pcharge fs) = Ok () /\
  is_Some (snd (write_xtbinput xyzfile pchargefile element coor pcharge fs)
             !! xyzfile) /\
  is_Some (snd (write_xtbinput xyzfile pchargefile element coor pcharge fs)
             !! pchargefile).
Proof.
  intros Hc Hp. unfold write_xtbinput.
  pose proof (xyz_text_ok element coor Hc) as Hx.
  pose proof (pc_text_ok pcharge m Hp) as Hpc.
  destruct (xyz_text element coor) as [rx tx]. simpl in Hx. subst rx.
  destruct (pc_text pcharge) as [rp tp]. simpl in Hpc. subst rp.
  cbn [fst snd]. split; [done|]. split.
  - destruct (decide (pchargefile = xyzfile)) as [->|Hne].
    + rewrite lookup_insert_eq. by eexists.
    + rewrite lookup_insert_ne by done. rewrite lookup_insert_eq. by eexists.
  - rewrite lookup_insert_eq. by eexists.
Qed.

(** X4: [write_xtbinput] does not raise on what [read_namdinput] returns:
    when [read_namdinput] returns, [convert_input] returns too, and both
    input files of xtb are written. *)
Theorem convert_input_succeeds (namdinput xtbinput_xyz xtbinput_pc : string)
    (fs : files) (r : list (option string) * Np.array * Np.array) :
  read_namdinput namdinput fs = Ok r ->
  let after := snd (convert_input namdinput xtbinput_xyz xtbinput_pc fs) in
  fst (convert_input namdinput xtbinput_xyz xtbinput_pc fs) = Ok () /\
  is_Some (after !! xtbinput_xyz) /\ is_Some (after !! xtbinput_pc).
Proof.
  intros Hr after. subst after. unfold convert_input. rewrite Hr.
  destruct r as [[element coor] pcharge].
  unfold read_namdinput in Hr.
  apply bind_Ok_inv in Hr as (lines & _ & Hr).
  apply read_namdinput_lines_sized in Hr as (Hc & m & Hp).
  by apply (write_xtbinput_shaped _ _ _ _ _ m).
Qed.

Lemma convert_input_succeeds_witness :
  let after := snd (convert_input "/w/0/qmmm.input" "/w/0/xtbxyz.xyz"
                      "/w/0/pcharge" (w_files (sample_world "0"))) in
  fst (convert_input "/w/0/qmmm.input" "/w/0/xtbxyz.xyz" "/w/0/pcharge"
         (w_files (sample_world "0"))) = Ok () /\
  is_Some (after !! "/w/0/xtbxyz.xyz") /\ is_Some (after !! "/w/0/pcharge").
Proof.
  apply (convert_input_succeeds "/w/0/qmmm.input" "/w/0/xtbxyz.xyz" "/w/0/pcharge"
           (w_files (sample_world "0"))
           ((fun a => Some (a_element a)) <$> sample_atoms,
            coor_row <$> sample_atoms, pcharge_row <$> sample_pcharges)).
  vm_compute. reflexivity.
Defined.

(** X5: on a malformed step file [convert_input] raises before it opens a
    file for writing: every file is left as it was. *)
Theorem convert_input_malformed (namdinput xtbinput_xyz xtbinput_pc : string)
    (fs : files) (content : string) :
  fs !! namdinput = Some content ->
  malformed_step (Text.readlines content) ->
  is_Raise (fst (convert_input namdinput xtbinput_xyz xtbinput_pc fs)) /\
  snd (convert_input namdinput xtbinput_xyz xtbinput_pc fs) = fs.
Proof.
  intros Hfile M. unfold convert_input, read_namdinput, open_readlines.
  rewrite Hfile. cbn [mbind result_bind].
  destruct (read_namdinput_lines_malformed _ M) as [e ->].
  split; [by exists e | done].
Qed.

Lemma convert_input_malformed_witness :
  is_Raise (fst (convert_input "/w/0/qmmm.input" "/w/0/xtbxyz.xyz" "/w/0/pcharge"
                   {[ "/w/0/qmmm.input" := text_of_lines ["2 x"] ]})) /\
  snd (convert_input "/w/0/qmmm.input" "/w/0/xtbxyz.xyz" "/w/0/pcharge"
         {[ "/w/0/qmmm.input" := text_of_lines ["2 x"] ]})
    = {[ "/w/0/qmmm.input" := text_of_lines ["2 x"] ]}.
Proof.
  apply (convert_input_malformed "/w/0/qmmm.input" "/w/0/xtbxyz.xyz" "/w/0/pcharge"
           _ (text_of_lines ["2 x"])).
  - vm_compute. reflexivity.
  - apply (pcharge_count_bad _ _ "2" "x" []).
    + vm_compute. reflexivity.
    + exists ValueError. vm_compute. reflexivity.
Defined.

(** [write_xtbinput] leaves the files that are not its own as they were. *)
Lemma write_xtbinput_other (xyzfile pchargefile other : string)
    (element : list (option string)) (coor pcharge : Np.array) (fs : files) :
  other <> xyzfile -> other <> pchargefile ->
  snd (write_xtbinput xyzfile pchargefile element coor pcharge fs) !! other
    = fs !! other.
Proof.
  intros Hx Hp. unfold write_xtbinput.
  destruct (xyz_text element coor) as [[[]|e] tx].
  - destruct (pc_text pcharge) as [rp tp]. cbn [snd].
    by rewrite !lookup_insert_ne.
  - cbn [snd]. by rewrite lookup_insert_ne.
Qed.

(** X6: [convert_input] writes to the two files that it is given and to
    no other file, whether it returns or raises. *)
Theorem convert_input_frame (namdinput xtbinput_xyz xtbinput_pc other : string)
    (fs : files) :
  other <> xtbinput_xyz -> other <> xtbinput_pc ->
  snd (convert_input namdinput xtbinput_xyz xtbinput_pc fs) !! other = fs !! other.
Proof.
  intros Hx Hp. unfold convert_input.
  destruct (read_namdinput namdinput fs) as [[[element coor] pcharge]|e].
  - by apply write_xtbinput_other.
  - reflexivity.
Qed.

Lemma convert_input_frame_witness :
  snd (convert_input "/w/0/qmmm.input" "/w/0/xtbxyz.xyz" "/w/0/pcharge"
         (w_files (sample_world "0"))) !! "/w/0/qmmm.input"
  = w_files (sample_world "0") !! "/w/0/qmmm.input".
Proof.
  apply (convert_input_frame "/w/0/qmmm.input" "/w/0/xtbxyz.xyz" "/w/0/pcharge"
           "/w/0/qmmm.input" (w_files (sample_world "0"))); discriminate.
Defined.

(** X7: when the list of elements is longer than the array of
    coordinates, [write_xtbinput] raises [IndexError]; the structure file
    is left with the lines written so far, and the file of point charges
    is not written. *)
Theorem write_xtbinput_short_coor (xyzfile pchargefile : string)
    (element : list (option string)) (coor pcharge : Np.array) (fs : files) :
  (length coor < length element)%nat ->
  xyzfile <> pchargefile ->
  let r := write_xtbinput xyzfile pchargefile element coor pcharge fs in
  fst r = Raise IndexError /\
  is_Some (snd r !! xyzfile) /\
  snd r !! pchargefile = fs !! pchargefile.
Proof.
  intros Hlen Hne r. subst r. unfold write_xtbinput.
  assert (fst (xyz_text element coor) = Raise IndexError) as Hx.
  { unfold xyz_text. apply write_rows_raises.
    - apply Forall_fmap, Forall_forall. intros i _ e. apply xyz_row_raises.
    - apply Exists_fmap, Exists_exists. exists (length coor). split.
      + apply elem_of_seq. lia.
      + unfold compose, xyz_row. cbv beta.
        destruct (lookup_lt_is_Some_2 element (length coor) Hlen) as [el Hel].
        rewrite (py_get_lookup _ _ _ Hel). cbn [mbind result_bind].
        unfold Np.get. rewrite py_get_short by lia. by eexists. }
  destruct (xyz_text element coor) as [rx tx]. simpl in Hx. subst rx.
  cbn [fst snd]. split; [done|]. split.
  - rewrite lookup_insert_eq. by eexists.
  - by rewrite lookup_insert_ne.
Qed.

Lemma write_xtbinput_short_coor_witness :
  let r := write_xtbinput "/w/0/xtbxyz.xyz" "/w/0/pcharge"
             [Some "H"; Some "H"] [[zero; zero; zero]] [] ∅ in
  fst r = Raise IndexError /\
  is_Some (snd r !! "/w/0/xtbxyz.xyz") /\
  snd r !! "/w/0/pcharge" = (∅ : files) !! "/w/0/pcharge".
Proof.
  apply (write_xtbinput_short_coor "/w/0/xtbxyz.xyz" "/w/0/pcharge"
           [Some "H"; Some "H"] [[zero; zero; zero]] [] ∅).
  - simpl. lia.
  - discriminate.
Defined.

(** ** [read_xtboutput]: sizes and exceptions on any files *)

Lemma charge_loop_inv (lines : list string) :
  forall acc out : list float,
  charge_loop lines acc = Ok out ->
  exists qs, charges_of lines = Some qs /\ out = acc ++ qs.
Proof.
  unfold charges_of, nonblank_lines.
  induction lines as [|line lines IH]; intros acc out H.
  - injection H as <-. exists []. by rewrite app_nil_r.
  - cbn [charge_loop List.filter] in *. unfold nonblank at 1.
    destruct (Text.is_empty (Text.strip line)); cbn [negb].
    + by apply IH.
    + apply bind_Ok_inv in H as (q & Hq & H).
      apply IH in H as (qs & Hqs & ->).
      exists (q :: qs). split; [|by rewrite <- app_assoc].
      apply mapM_Some. constructor.
      * unfold charge_of_line. by rewrite Hq.
      * by apply mapM_Some.
Qed.

Lemma charge_loop_raises (lines : list string) :
  forall (acc : list float) (e : exn),
  charge_loop lines acc = Raise e -> e = ValueError.
Proof.
  induction lines as [|line lines IH]; intros acc e; [discriminate|].
  cbn [charge_loop]. destruct (Text.is_empty _); [apply IH|].
  destruct (py_float (Text.strip line)) as [q|e1] eqn:Hq; cbn [mbind result_bind].
  - apply IH.
  - intros [= <-]. by eapply py_float_raises.
Qed.

Lemma grad_atom_shape (qs : list float) (line : string) (row : nat)
    (info info' : Np.array) (n : nat) :
  grad_atom qs line row info = Ok info' -> shape n 4 info -> shape n 4 info'.
Proof.
  unfold grad_atom. intros H Hs.
  apply bind_Ok_inv in H as (info1 & Hfor & H).
  apply bind_Ok_inv in H as (q & _ & H).
  apply (np_set_shape _ _ _ _ _ _ _ H).
  revert Hfor Hs. apply for_each_keeps. intros i s s' Hb.
  apply bind_Ok_inv in Hb as (d & _ & Hb).
  apply bind_Ok_inv in Hb as (g & _ & Hb).
  by eapply np_set_shape.
Qed.

Lemma grad_line_shape (n : nat) (qs : list float) (count : nat) (line : string)
    (st st' : option float * Np.array) (rows : nat) :
  grad_line n qs count line st = Ok st' -> shape rows 4 (snd st) ->
  shape rows 4 (snd st').
Proof.
  unfold grad_line. destruct st as [energy info].
  destruct (count =? 1)%nat; [by intros [= <-]|].
  intros H Hs. apply bind_Ok_inv in H as (en & _ & H).
  apply bind_Ok_inv in H as (info' & Hi & H). injection H as <-. cbn [snd] in *.
  destruct (_ && _) in Hi; [by eapply grad_atom_shape|]. by injection Hi as <-.
Qed.

Lemma grad_loop_shape (n : nat) (qs : list float) (lines : list string) :
  forall (count : nat) (st st' : option float * Np.array) (rows : nat),
  grad_loop n qs lines count st = Ok st' -> shape rows 4 (snd st) ->
  shape rows 4 (snd st').
Proof.
  induction lines as [|line lines IH]; intros count st st' rows.
  - by intros [= <-].
  - cbn [grad_loop]. intros H Hs. apply bind_Ok_inv in H as (st1 & H1 & H).
    eapply IH; [done|]. by eapply grad_line_shape.
Qed.

Lemma read_xtboutput_lines_shape (charge_lines grad_lines : list string)
    (energy : float) (info : Np.array) :
  read_xtboutput_lines charge_lines grad_lines = Ok (energy, info) ->
  shape (length (nonblank_lines charge_lines)) 4 info.
Proof.
  unfold read_xtboutput_lines. intros H.
  apply bind_Ok_inv in H as (qs & Hq & H).
  apply charge_loop_inv in Hq as (qs' & Hqs & ->). cbn [app] in H.
  rewrite np_zeros_nat in H. cbn [mbind result_bind] in H.
  apply bind_Ok_inv in H as (st & Hl & H).
  apply bind_Ok_inv in H as (en & _ & H). injection H as _ <-.
  rewrite <- (charges_length _ _ Hqs).
  eapply grad_loop_shape; [done|]. apply shape_zeros.
Qed.

(** X8: whenever [read_xtboutput] returns, the array has one row of four
    numbers for each line of the file of charges that is not blank, and
    [write_namdoutput] does not raise on it: [convert_output] returns and
    leaves a result file that is not empty. *)
Theorem convert_output_succeeds (xtboutput_charge xtboutput_grad namdoutput : string)
    (fs : files) (charge_lines : list string) (energy : float) (info : Np.array) :
  file_lines fs xtboutput_charge = Some charge_lines ->
  read_xtboutput xtboutput_charge xtboutput_grad fs = Ok (energy, info) ->
  let r := convert_output xtboutput_charge xtboutput_grad namdoutput fs in
  length info = length (nonblank_lines charge_lines) /\
  Forall (fun row => length row = 4%nat) info /\
  fst r = Ok () /\
  exists text, snd r !! namdoutput = Some text /\ text <> "".
Proof.
  intros Hc Hr r.
  assert (shape (length (nonblank_lines charge_lines)) 4 info) as Hs.
  { unfold file_lines in Hc. unfold read_xtboutput, open_readlines in Hr.
    destruct (fs !! xtboutput_charge) as [cc|]; [|discriminate].
    injection Hc as <-. cbn [mbind result_bind] in Hr.
    destruct (fs !! xtboutput_grad) as [gc|] eqn:Hg.
    - by apply (read_xtboutput_lines_shape _ (Text.readlines gc) energy).
    - apply bind_Ok_inv in Hr as (qs & _ & Hr).
      apply bind_Ok_inv in Hr as (i0 & _ & Hr). discriminate. }
  destruct Hs as [Hlen Hall]. split; [done|]. split; [done|].
  assert (fst r = Ok ()) as Hok.
  { subst r. unfold convert_output. rewrite Hr. unfold write_namdoutput.
    pose proof (namd_text_ok energy info _ (conj Hlen Hall)) as Ht.
    by destruct (namd_text energy info). }
  split; [done|].
  destruct (convert_output_Ok _ _ _ _ Hok) as (text & Hne & Hfs).
  exists text. subst r. rewrite Hfs. split; [apply lookup_insert_eq | done].
Qed.

Lemma convert_output_succeeds_witness :
  let r := convert_output "/w/0/charges" "/w/0/gradient" "/w/0/qmmm.input.result"
             short_xtb_files in
  length (default [] (snd <$> ok (read_xtboutput "/w/0/charges" "/w/0/gradient"
                                    short_xtb_files)))
    = length (nonblank_lines (lines_in short_xtb_files "/w/0/charges")) /\
  Forall (fun row => length row = 4%nat)
    (default [] (snd <$> ok (read_xtboutput "/w/0/charges" "/w/0/gradient"
                               short_xtb_files))) /\
  fst r = Ok () /\
  exists text, snd r !! "/w/0/qmmm.input.result" = Some text /\ text <> "".
Proof.
  apply (convert_output_succeeds "/w/0/charges" "/w/0/gradient"
           "/w/0/qmmm.input.result" short_xtb_files
           (lines_in short_xtb_files "/w/0/charges")
           (default zero (fst <$> ok (read_xtboutput "/w/0/charges" "/w/0/gradient"
                                         short_xtb_files))));
    vm_compute; reflexivity.
Defined.

(** X9: a gradient file of fewer than two lines leaves the energy
    unbound: [read_xtboutput] raises [UnboundLocalError], once the file of
    charges is read. *)
Theorem read_xtboutput_no_energy_line (charge_file grad_file : string) (fs : files)
    (charge_lines grad_lines : list string) (qs : list float) :
  file_lines fs charge_file = Some charge_lines ->
  file_lines fs grad_file = Some grad_lines ->
  charges_of charge_lines = Some qs ->
  (length grad_lines < 2)%nat ->
  read_xtboutput charge_file grad_file fs = Raise UnboundLocalError.
Proof.
  intros Hc Hg Hq Hlen. rewrite (read_xtboutput_files _ _ _ _ _ Hc Hg).
  unfold read_xtboutput_lines.
  rewrite (charge_loop_ok charge_lines [] qs Hq). cbn [app mbind result_bind].
  rewrite np_zeros_nat. cbn [mbind result_bind].
  destruct grad_lines as [|hdr [|l2 rest]]; [done| |simpl in Hlen; lia].
  cbn [grad_loop]. by rewrite grad_line_header.
Qed.

Lemma read_xtboutput_no_energy_line_witness :
  read_xtboutput "/w/0/charges" "/w/0/gradient"
    {[ "/w/0/charges" := text_of_lines sample_charge_lines;
       "/w/0/gradient" := text_of_lines ["$grad"] ]}
  = Raise UnboundLocalError.
Proof.
  apply (read_xtboutput_no_energy_line "/w/0/charges" "/w/0/gradient" _
           ((fun l => l +:+ Text.nl) <$> sample_charge_lines)
           ["$grad" +:+ Text.nl] [literal "0.1"; literal "-0.1"]);
    vm_compute; first [reflexivity | lia].
Defined.

(** X10: a line of the file of charges that is not blank and holds no
    number makes [read_xtboutput] raise [ValueError] before it opens the
    gradient file: whether that file exists makes no difference. *)
Theorem read_xtboutput_bad_charge (charge_file grad_file : string) (fs : files)
    (charge_lines : list string) :
  file_lines fs charge_file = Some charge_lines ->
  charges_of charge_lines = None ->
  read_xtboutput charge_file grad_file fs = Raise ValueError.
Proof.
  unfold file_lines, read_xtboutput, open_readlines. intros Hc Hq.
  destruct (fs !! charge_file) as [cc|]; [|discriminate]. injection Hc as <-.
  cbn [mbind result_bind].
  destruct (charge_loop (Text.readlines cc) []) as [qs|e] eqn:Hl.
  - apply charge_loop_inv in Hl as (qs' & Hqs & _). congruence.
  - apply charge_loop_raises in Hl as ->. reflexivity.
Qed.

Lemma read_xtboutput_bad_charge_witness :
  read_xtboutput "/w/0/charges" "/w/0/gradient"
    {[ "/w/0/charges" := text_of_lines ["0.1"; "q"] ]}
  = Raise ValueError.
Proof.
  apply (read_xtboutput_bad_charge "/w/0/charges" "/w/0/gradient" _
           ["0.1" +:+ Text.nl; "q" +:+ Text.nl]);
    vm_compute; reflexivity.
Defined.

(** ** [read_xtboutput]: the lines that matter *)

Lemma bind_skip {A} (m : result A) (f : A -> result A) :
  (forall a, f a = Ok a) -> (m ≫= f) = m.
Proof. intros H. destruct m as [a|e]; [apply H | done]. Qed.

(** The loop over the gradient file comes down to the line of the energy
    and the lines of gradients. *)
Lemma grad_loop_core (n : nat) (qs : list float) (hdr eline : string)
    (rest : list string) (st : option float * Np.array) :
  grad_loop n qs (hdr :: eline :: rest) 0 st =
    grad_line n qs 2 eline st
      ≫= grad_loop n qs (take n (drop n rest)) (n + 2).
Proof.
  cbn [grad_loop]. rewrite grad_line_header. cbn [mbind result_bind].
  destruct (grad_line n qs 2 eline st) as [st1|e]; [|done].
  cbn [mbind result_bind].
  destruct (Nat.le_gt_cases (length rest) n) as [Hshort|Hlong].
  - rewrite (drop_ge rest n) by done. rewrite take_nil.
    cbn [grad_loop]. apply grad_loop_skip; lia.
  - rewrite <- (take_drop n rest) at 1.
    rewrite grad_loop_app, length_take, Nat.min_l by lia.
    rewrite grad_loop_skip by (rewrite ?length_take; lia).
    cbn [mbind result_bind]. replace (2 + n)%nat with (n + 2)%nat by lia.
    rewrite <- (take_drop n (drop n rest)) at 1.
    rewrite grad_loop_app. apply bind_skip. intros st2.
    destruct (drop n (drop n rest)) as [|l3 rest3] eqn:H3; [done|].
    assert (n < length (drop n rest))%nat as Hlen.
    { assert (length (drop n (drop n rest)) <> 0)%nat as Hne by (by rewrite H3).
      rewrite length_drop in Hne. lia. }
    apply grad_loop_skip; rewrite ?length_take; lia.
Qed.

Lemma grad_loop_same (n : nat) (qs : list float) (g1 g2 : list string)
    (st : option float * Np.array) :
  g1 !! 1%nat = g2 !! 1%nat ->
  gradient_lines n g1 = gradient_lines n g2 ->
  grad_loop n qs g1 0 st ≫= (fun st' => bound (fst st') ≫= fun en => Ok (en, snd st'))
  = grad_loop n qs g2 0 st ≫= (fun st' => bound (fst st') ≫= fun en => Ok (en, snd st')).
Proof.
  unfold gradient_lines. replace (n + 2)%nat with (S (S n)) by lia.
  intros H1 Hg.
  destruct g1 as [|h1 [|e1 r1]], g2 as [|h2 [|e2 r2]]; try discriminate.
  1-4: cbn [grad_loop]; rewrite ?grad_line_header; reflexivity.
  injection H1 as ->. cbn [drop] in Hg.
  by rewrite (grad_loop_core n qs h1 e2 r1), (grad_loop_core n qs h2 e2 r2), Hg.
Qed.

(** X11: of the gradient file, [read_xtboutput] uses the second line and
    the lines N+3 to 2N+2 only: two gradient files that agree on these
    lines give the same result, or the same exception, whatever their first
    line, their lines 3 to N+2 and their lines after 2N+2 are. *)
Theorem read_xtboutput_lines_used (charge_file grad_file : string)
    (fs1 fs2 : files) (charge_lines grad_lines1 grad_lines2 : list string) :
  file_lines fs1 charge_file = Some charge_lines ->
  file_lines fs2 charge_file = Some charge_lines ->
  file_lines fs1 grad_file = Some grad_lines1 ->
  file_lines fs2 grad_file = Some grad_lines2 ->
  grad_lines1 !! 1%nat = grad_lines2 !! 1%nat ->
  gradient_lines (length (nonblank_lines charge_lines)) grad_lines1
    = gradient_lines (length (nonblank_lines charge_lines)) grad_lines2 ->
  read_xtboutput charge_file grad_file fs1 = read_xtboutput charge_file grad_file fs2.
Proof.
  intros Hc1 Hc2 Hg1 Hg2 H1 Hg.
  rewrite (read_xtboutput_files _ _ _ _ _ Hc1 Hg1),
    (read_xtboutput_files _ _ _ _ _ Hc2 Hg2).
  unfold read_xtboutput_lines.
  destruct (charge_loop charge_lines []) as [qs|e] eqn:Hq; [|done].
  cbn [mbind result_bind].
  apply charge_loop_inv in Hq as (qs' & Hqs & ->). cbn [app].
  rewrite np_zeros_nat. cbn [mbind result_bind].
  rewrite <- (charges_length _ _ Hqs) in Hg.
  by apply grad_loop_same.
Qed.

Lemma read_xtboutput_lines_used_witness :
  read_xtboutput "/w/0/charges" "/w/0/gradient" sample_xtb_files
  = read_xtboutput "/w/0/charges" "/w/0/gradient"
      {[ "/w/0/charges" := text_of_lines sample_charge_lines;
         "/w/0/gradient" :=
           text_of_lines
             ["some header";
              "  cycle =      1    SCF energy =    -5.07054444346   |dE/dxyz| =  0.000430";
              "not"; "read";
              "  -0.1234D-01  0.0D+00  1.0D-01";
              "  0.1234D-01  0.0D+00  -0.0123";
              "nor"; "these"; "lines"] ]}.
Proof.
  apply read_xtboutput_lines_used with
    (charge_lines := lines_in sample_xtb_files "/w/0/charges")
    (grad_lines1 := lines_in sample_xtb_files "/w/0/gradient")
    (grad_lines2 := (fun l => l +:+ Text.nl) <$>
       ["some header";
        "  cycle =      1    SCF energy =    -5.07054444346   |dE/dxyz| =  0.000430";
        "not"; "read";
        "  -0.1234D-01  0.0D+00  1.0D-01";
        "  0.1234D-01  0.0D+00  -0.0123";
        "nor"; "these"; "lines"]);
    vm_compute; reflexivity.
Defined.

(** ** The conversion of a gradient to a force *)

Lemma round_aux_opp (s : bool) (m e : Z) (l : location) :
  binary_round_aux prec emax (negb s) m e l
  = SFopp (binary_round_aux prec emax s m e l).
Proof.
  unfold binary_round_aux.
  destruct (shr_fexp prec emax m e l) as [mrs' e'].
  destruct (shr_fexp prec emax _ e' loc_Exact) as [mrs'' e''].
  destruct (shr_m mrs''); [done| |done]. by destruct (_ <=? _).
Qed.

Lemma mul_opp_l (x y : float) : mul (SFopp x) y = SFopp (mul x y).
Proof.
  destruct x as [sx|sx| |sx mx ex], y as [sy|sy| |sy my ey]; simpl;
    try reflexivity; try (by rewrite negb_xorb_l).
  unfold mul, SFmul. by rewrite <- negb_xorb_l, round_aux_opp.
Qed.

(** X12: the force of the opposite gradient is the opposite force, to the
    last bit: the two roundings of the conversion do not depend on the
    sign. *)
Theorem force_of_grad_odd (g : float) :
  force_of_grad (SFopp g) = SFopp (force_of_grad g).
Proof. unfold force_of_grad. by rewrite !mul_opp_l. Qed.

Lemma shr_1_nonneg (mrs : shr_record) : 0 <= shr_m mrs -> 0 <= shr_m (shr_1 mrs).
Proof.
  destruct mrs as [m r s]. simpl.
  destruct m as [|[p|p|]|[p|p|]]; simpl; lia.
Qed.

Lemma iter_pos_keeps {A} (P : A -> Prop) (f : A -> A) (n : positive) :
  (forall x, P x -> P (f x)) -> forall x, P x -> P (SpecFloat.iter_pos f n x).
Proof.
  intros Hf. induction n as [n IH|n IH|]; intros x Hx; simpl; auto.
Qed.

Lemma shr_fexp_nonneg (m e : Z) (l : location) :
  0 <= m -> 0 <= shr_m (fst (shr_fexp prec emax m e l)).
Proof.
  intros Hm. unfold shr_fexp, shr.
  assert (0 <= shr_m (shr_record_of_loc m l)) as H0
    by (destruct l as [|[]]; simpl; lia).
  destruct (_ - e) as [|p|p]; cbn [fst]; [done| |done].
  by apply (iter_pos_keeps (fun mrs => 0 <= shr_m mrs)), H0; apply shr_1_nonneg.
Qed.

Lemma round_nearest_even_nonneg (m : Z) (l : location) :
  0 <= m -> 0 <= round_nearest_even m l.
Proof.
  intros Hm. destruct l as [|[]]; simpl; try lia. destruct (Z.even m); lia.
Qed.

(** Rounding keeps the sign that it is given. *)
Lemma round_aux_sign (s : bool) (m e : Z) (l : location) :
  0 <= m -> sign_bit (binary_round_aux prec emax s m e l) = Some s.
Proof.
  intros Hm. unfold binary_round_aux.
  pose proof (shr_fexp_nonneg m e l Hm) as H1.
  destruct (shr_fexp prec emax m e l) as [mrs' e']. cbn [fst] in H1.
  pose proof (shr_fexp_nonneg
    (round_nearest_even (shr_m mrs') (loc_of_shr_record mrs')) e' loc_Exact
    (round_nearest_even_nonneg _ _ H1)) as H2.
  destruct (shr_fexp prec emax _ e' loc_Exact) as [mrs'' e'']. cbn [fst] in H2.
  destruct (shr_m mrs''); [done| |lia]. by destruct (_ <=? _).
Qed.

Lemma mul_finite_sign (x : float) (sy : bool) (my : positive) (ey : Z) :
  sign_bit (mul x (S754_finite sy my ey)) = (fun sx => xorb sx sy) <$> sign_bit x.
Proof.
  destruct x as [sx|sx| |sx mx ex]; simpl; try reflexivity.
  unfold mul, SFmul. by rewrite round_aux_sign.
Qed.

(** X13: the force has the sign opposite to the sign of the gradient, for
    every gradient that is a number, zeros and infinities included: a
    gradient of zero gives the force minus zero, and no rounding, underflow
    or overflow changes the sign. *)
Theorem force_of_grad_sign (g : float) :
  sign_bit (force_of_grad g) = negb <$> sign_bit g.
Proof.
  unfold force_of_grad.
  change bohr with (S754_finite false 8510587323830847 (-52)).
  change (of_int (-630)) with (S754_finite true 5541538603991040 (-43)).
  rewrite !mul_finite_sign.
  destruct (sign_bit g) as [[]|]; reflexivity.
Qed.

(** ** More on [run_qmmm] *)

Lemma run_qmmm_unfold (xtbdir : string) (qmcharge : list Z)
    (engine : list string -> files -> option files) (directory : string)
    (w : world) (k : Z) :
  qmpart_of directory = Ok k ->
  let path := Path.dirname directory in
  run_qmmm_with xtbdir qmcharge engine directory w =
    andthen (on_files (convert_input directory (path +:+ "/xtbxyz.xyz")
                         (path +:+ "/pcharge")))
   (andthen (fun w =>
               match py_index qmcharge k with
               | Raise e => (Raise e, w)
               | Ok q => subprocess_call engine (command xtbdir directory q) w
               end)
   (andthen (on_files (convert_output (path +:+ "/charges") (path +:+ "/gradient")
                         (path +:+ "/" +:+ Path.basename directory +:+ ".result")))
   (andthen (on_files (os_remove (path +:+ "/xtbxyz.xyz")))
   (andthen (on_files (os_remove (path +:+ "/pcharge")))
   (andthen (on_files (os_remove (path +:+ "/charges")))
   (andthen (on_files (os_remove (path +:+ "/gradient")))
            (on_files (os_remove (path +:+ "/xtbrestart")))))))))
      w.
Proof.
  unfold qmpart_of, run_qmmm_with. intros ->. reflexivity.
Qed.

Lemma run_qmmm_bad_part (xtbdir : string) (qmcharge : list Z)
    (engine : list string -> files -> option files) (directory : string)
    (w : world) (e : exn) :
  qmpart_of directory = Raise e ->
  run_qmmm_with xtbdir qmcharge engine directory w = (Raise e, w).
Proof. unfold qmpart_of, run_qmmm_with. by intros ->. Qed.

Lemma subprocess_call_calls (engine : list string -> files -> option files)
    (args : list string) (w : world) :
  w_calls (snd (subprocess_call engine args w)) = w_calls w ++ [args].
Proof. unfold subprocess_call. by destruct (engine args (w_files w)). Qed.

Lemma andthen_cases (a b : world -> result unit * world) (w : world) :
  (exists e w1, a w = (Raise e, w1) /\ andthen a b w = (Raise e, w1)) \/
  (exists w1, a w = (Ok (), w1) /\ andthen a b w = b w1).
Proof.
  unfold andthen. destruct (a w) as [[[]|e] w1]; [right | left]; by eauto.
Qed.

(** A directory whose last segment begins with a separator that [int] does
    not skip: the step raises [ValueError] at the number of the QM part,
    before a file is written and before xtb is started. *)
Example run_qmmm_separator_segment :
  run_qmmm sample_engine ("/w/" +:+ String (ascii_of_nat 28) "0" +:+ "/qmmm.input")
      (sample_world (String (ascii_of_nat 28) "0"))
    = (Raise ValueError, sample_world (String (ascii_of_nat 28) "0")).
Proof. vm_compute. reflexivity. Qed.

(** X14: [run_qmmm] starts xtb at most once, with the command line
    [XTBDIR, <directory>/xtbxyz.xyz, -grad, -charge, <charge>] for a charge
    of [QMCHARGE]; when it is not started, the step has raised. *)
Theorem run_qmmm_calls (xtbdir : string) (qmcharge : list Z)
    (engine : list string -> files -> option files) (directory : string)
    (w : world) :
  let run := run_qmmm_with xtbdir qmcharge engine directory w in
  (w_calls (snd run) = w_calls w /\ is_Raise (fst run)) \/
  exists k q, qmpart_of directory = Ok k /\ py_index qmcharge k = Ok q /\
              w_calls (snd run) = w_calls w ++ [command xtbdir directory q].
Proof.
  intros run. subst run.
  destruct (qmpart_of directory) as [k|e] eqn:Hk.
  - rewrite (run_qmmm_unfold _ _ _ _ _ k Hk). cbv zeta.
    pose proof (on_files_calls
      (convert_input directory (Path.dirname directory +:+ "/xtbxyz.xyz")
         (Path.dirname directory +:+ "/pcharge")) w) as Hc.
    match goal with
    | |- context [andthen ?a ?b w] =>
        destruct (andthen_cases a b w) as [(e & w1 & Ha & ->) | (w1 & Ha & ->)]
    end; rewrite Ha in Hc; simpl in Hc.
    { left. split; [done | by eexists]. }
    match goal with
    | |- context [andthen ?a ?b w1] =>
        destruct (andthen_cases a b w1) as [(e & w2 & Hb & ->) | (w2 & Hb & ->)]
    end.
    + destruct (py_index qmcharge k) as [q|e'] eqn:Hq.
      * right. exists k, q. split; [done|]. split; [done|].
        pose proof (subprocess_call_calls engine (command xtbdir directory q) w1) as Hs.
        rewrite Hb in Hs. simpl in *. by rewrite Hs, Hc.
      * injection Hb as <- <-. left. split; [done | by eexists].
    + destruct (py_index qmcharge k) as [q|e'] eqn:Hq; [|discriminate].
      right. exists k, q. split; [done|]. split; [done|].
      pose proof (subprocess_call_calls engine (command xtbdir directory q) w1) as Hs.
      rewrite Hb in Hs. simpl in Hs.
      match goal with
      | |- w_calls (snd (?rest w2)) = _ =>
          assert (keeps_calls rest) as Hkc by auto 10 with calls; rewrite (Hkc w2)
      end.
      by rewrite Hs, Hc.
  - rewrite (run_qmmm_bad_part _ _ _ _ _ e Hk). left. split; [done | by eexists].
Qed.

(** X15: the charge given to xtb.  When [int] reads the last segment of
    the directory as [k] and [QMCHARGE[k]] exists, where a negative [k]
    counts from the end of the list as Python has it, xtb is started once
    the input files are written, with [str(QMCHARGE[k])] as its charge. *)
Theorem run_qmmm_charge (xtbdir : string) (qmcharge : list Z)
    (engine : list string -> files -> option files) (directory : string)
    (w : world) (k q : Z) :
  qmpart_of directory = Ok k ->
  py_index qmcharge k = Ok q ->
  fst (convert_input directory (Path.dirname directory +:+ "/xtbxyz.xyz")
         (Path.dirname directory +:+ "/pcharge") (w_files w)) = Ok () ->
  w_calls (snd (run_qmmm_with xtbdir qmcharge engine directory w)) =
    w_calls w ++ [[xtbdir; Path.dirname directory +:+ "/xtbxyz.xyz"; "-grad";
                   "-charge"; PyInt.py_str q]].
Proof.
  intros Hk Hq Hin.
  rewrite (run_qmmm_unfold _ _ _ _ _ k Hk). cbv zeta.
  pose proof (on_files_calls
    (convert_input directory (Path.dirname directory +:+ "/xtbxyz.xyz")
       (Path.dirname directory +:+ "/pcharge")) w) as Hc.
  rewrite <- on_files_fst in Hin.
  match goal with
  | |- context [andthen ?a ?b w] =>
      destruct (andthen_cases a b w) as [(e & w1 & Ha & ->) | (w1 & Ha & ->)]
  end; rewrite Ha in Hc, Hin; simpl in Hc, Hin; [discriminate|].
  rewrite Hq.
  pose proof (subprocess_call_calls engine (command xtbdir directory q) w1) as Hs.
  match goal with
  | |- context [andthen ?a ?b w1] =>
      destruct (andthen_cases a b w1) as [(e & w2 & Hb & ->) | (w2 & Hb & ->)]
  end; rewrite Hb in Hs; simpl in Hs.
  - simpl. by rewrite Hs, Hc.
  - match goal with
    | |- w_calls (snd (?rest w2)) = _ =>
        assert (keeps_calls rest) as Hkc by auto 10 with calls; rewrite (Hkc w2)
    end.
    by rewrite Hs, Hc.
Qed.

Lemma run_qmmm_charge_witness :
  w_calls (snd (run_qmmm_with "xtb" [0; 1; -2] sample_engine "/w/-1/qmmm.input"
                  (sample_world "-1"))) =
    w_calls (sample_world "-1") ++
      [["xtb"; Path.dirname "/w/-1/qmmm.input" +:+ "/xtbxyz.xyz"; "-grad";
        "-charge"; PyInt.py_str (-2)]].
Proof.
  apply (run_qmmm_charge "xtb" [0; 1; -2] sample_engine "/w/-1/qmmm.input"
           (sample_world "-1") (-1) (-2));
    vm_compute; reflexivity.
Defined.

(** ** What a step leaves in the directory *)

Lemma name_neq (path a b : string) : a <> b -> path +:+ a <> path +:+ b.
Proof. intros Hab Heq. by apply (inj (String.app path)) in Heq. Qed.

Lemma convert_output_frame (charges grad out other : string) (fs : files) :
  other <> out -> snd (convert_output charges grad out fs) !! other = fs !! other.
Proof.
  intros Hne. unfold convert_output.
  destruct (read_xtboutput charges grad fs) as [[energy info]|e]; [|done].
  unfold write_namdoutput. destruct (namd_text energy info) as [r text].
  cbn [snd]. by rewrite lookup_insert_ne.
Qed.

Lemma os_remove_frame (file other : string) (fs : files) :
  other <> file -> snd (os_remove file fs) !! other = fs !! other.
Proof.
  intros Hne. unfold os_remove. destruct (fs !! file); [|done].
  cbn [snd]. by rewrite lookup_delete_ne.
Qed.

Lemma keeps_file_on_files (f : string) (op : files -> result unit * files) :
  (forall fs, snd (op fs) !! f = fs !! f) -> keeps_file f (on_files op).
Proof. intros H w. rewrite on_files_files. apply H. Qed.

Lemma keeps_file_andthen (f : string) (a b : world -> result unit * world) :
  keeps_file f a -> keeps_file f b -> keeps_file f (andthen a b).
Proof.
  intros Ha Hb w. unfold andthen. specialize (Ha w).
  destruct (a w) as [[[]|e] w1]; simpl in *; [|done]. by rewrite Hb.
Qed.

Lemma keeps_file_convert_input (f namdinput xyzfile pchargefile : string) :
  f <> xyzfile -> f <> pchargefile ->
  keeps_file f (on_files (convert_input namdinput xyzfile pchargefile)).
Proof.
  intros Hx Hp. apply keeps_file_on_files. intros fs. unfold convert_input.
  destruct (read_namdinput namdinput fs) as [[[element coor] pcharge]|e].
  - by apply write_xtbinput_other.
  - reflexivity.
Qed.

Lemma convert_output_reads (charges grad out : string) (fs : files) :
  fst (convert_output charges grad out fs) = Ok () ->
  is_Some (fs !! charges) /\ is_Some (fs !! grad).
Proof.
  unfold convert_output, read_xtboutput, open_readlines.
  destruct (fs !! charges) as [cc|]; [|discriminate]. cbn [mbind result_bind].
  destruct (charge_loop _ _) as [qs|e]; [|discriminate]. cbn [mbind result_bind].
  destruct (Np.zeros _ 4) as [info|e]; [|discriminate]. cbn [mbind result_bind].
  destruct (fs !! grad) as [gc|]; [|discriminate]. by eauto.
Qed.

Lemma andthen_remove (file : string) (rest : world -> result unit * world)
    (fs : files) (calls : list (list string)) :
  is_Some (fs !! file) ->
  andthen (on_files (os_remove file)) rest {| w_files := fs; w_calls := calls |}
  = rest {| w_files := delete file fs; w_calls := calls |}.
Proof.
  intros [v Hv]. unfold andthen, on_files, os_remove. cbn [w_files w_calls].
  by rewrite Hv.
Qed.

(** X16: a number of the QM part outside [QMCHARGE] is found out only
    after the input files of xtb are written: the step raises
    [IndexError], xtb is not started, and the two input files are left in
    the directory. *)
Theorem run_qmmm_charge_missing (xtbdir : string) (qmcharge : list Z)
    (engine : list string -> files -> option files) (directory : string)
    (w : world) (k : Z) (r : list (option string) * Np.array * Np.array) :
  qmpart_of directory = Ok k ->
  len qmcharge <= k \/ k < - len qmcharge ->
  read_namdinput directory (w_files w) = Ok r ->
  let run := run_qmmm_with xtbdir qmcharge engine directory w in
  let path := Path.dirname directory in
  fst run = Raise IndexError /\
  w_calls (snd run) = w_calls w /\
  is_Some (w_files (snd run) !! (path +:+ "/xtbxyz.xyz")) /\
  is_Some (w_files (snd run) !! (path +:+ "/pcharge")).
Proof.
  intros Hk Hout Hr run path. subst run.
  rewrite (run_qmmm_unfold _ _ _ _ _ k Hk). cbv zeta. fold path.
  assert (fst (convert_input directory (path +:+ "/xtbxyz.xyz")
                 (path +:+ "/pcharge") (w_files w)) = Ok () /\
          is_Some (snd (convert_input directory (path +:+ "/xtbxyz.xyz")
                          (path +:+ "/pcharge") (w_files w))
                     !! (path +:+ "/xtbxyz.xyz")) /\
          is_Some (snd (convert_input directory (path +:+ "/xtbxyz.xyz")
                          (path +:+ "/pcharge") (w_files w))
                     !! (path +:+ "/pcharge"))) as (Hok & Hx & Hp).
  { unfold convert_input. rewrite Hr. destruct r as [[element coor] pcharge].
    unfold read_namdinput in Hr.
    apply bind_Ok_inv in Hr as (lines & _ & Hr).
    apply read_namdinput_lines_sized in Hr as (Hc & m & Hp).
    by apply (write_xtbinput_shaped _ _ _ _ _ m). }
  rewrite (py_index_outside qmcharge k Hout).
  rewrite <- on_files_fst in Hok. rewrite <- !on_files_files in Hx, Hp.
  pose proof (on_files_calls
    (convert_input directory (path +:+ "/xtbxyz.xyz") (path +:+ "/pcharge")) w) as Hc.
  match goal with
  | |- context [andthen ?a ?b w] =>
      destruct (andthen_cases a b w) as [(e & w1 & Ha & ->) | (w1 & Ha & ->)]
  end; rewrite Ha in Hok, Hx, Hp, Hc; cbn [fst snd] in Hok, Hx, Hp, Hc;
    [discriminate|].
  unfold andthen at 1. cbn [fst snd]. done.
Qed.

Lemma run_qmmm_charge_missing_witness :
  let run := run_qmmm sample_engine "/w/1/qmmm.input" (sample_world "1") in
  let path := Path.dirname "/w/1/qmmm.input" in
  fst run = Raise IndexError /\
  w_calls (snd run) = w_calls (sample_world "1") /\
  is_Some (w_files (snd run) !! (path +:+ "/xtbxyz.xyz")) /\
  is_Some (w_files (snd run) !! (path +:+ "/pcharge")).
Proof.
  apply (run_qmmm_charge_missing XTBDIR QMCHARGE sample_engine "/w/1/qmmm.input"
           (sample_world "1") 1
           ((fun a => Some (a_element a)) <$> sample_atoms,
            coor_row <$> sample_atoms, pcharge_row <$> sample_pcharges)).
  - vm_compute. reflexivity.
  - left. vm_compute. discriminate.
  - vm_compute. reflexivity.
Defined.

(** X17: when xtb leaves no restart file, the step raises
    [FileNotFoundError] at the last [os.remove], after the result file is
    written and the four other files are removed. *)
Theorem run_qmmm_no_restart_file (xtbdir : string) (qmcharge : list Z)
    (engine : list string -> files -> option files) (directory : string)
    (w : world) (k q : Z) (fs1 fs2 : files) :
  let path := Path.dirname directory in
  let namdoutput := path +:+ "/" +:+ Path.basename directory +:+ ".result" in
  qmpart_of directory = Ok k ->
  py_index qmcharge k = Ok q ->
  convert_input directory (path +:+ "/xtbxyz.xyz") (path +:+ "/pcharge") (w_files w)
    = (Ok (), fs1) ->
  engine (command xtbdir directory q) fs1 = Some fs2 ->
  fst (convert_output (path +:+ "/charges") (path +:+ "/gradient") namdoutput fs2)
    = Ok () ->
  is_Some (fs2 !! (path +:+ "/xtbxyz.xyz")) ->
  is_Some (fs2 !! (path +:+ "/pcharge")) ->
  fs2 !! (path +:+ "/xtbrestart") = None ->
  let run := run_qmmm_with xtbdir qmcharge engine directory w in
  fst run = Raise FileNotFoundError /\
  w_files (snd run) !! (path +:+ "/xtbxyz.xyz") = None /\
  w_files (snd run) !! (path +:+ "/pcharge") = None /\
  w_files (snd run) !! (path +:+ "/charges") = None /\
  w_files (snd run) !! (path +:+ "/gradient") = None /\
  exists text, w_files (snd run) !! namdoutput = Some text /\ text <> "".
Proof.
  intros path namdoutput Hk Hq Hin Heng Hout Hxyz Hpc Hrestart run. subst run.
  rewrite (run_qmmm_unfold _ _ _ _ _ k Hk). cbv zeta. fold path namdoutput.
  destruct (convert_output_reads _ _ _ _ Hout) as [Hch Hgr].
  destruct (convert_output_Ok _ _ _ _ Hout) as (text & Htext & Hfs3).
  assert (forall name, Text.ends_with ".result" name = false ->
            namdoutput <> path +:+ String "/" name) as Hfresh
    by (intros name; apply result_name_fresh).
  match goal with
  | |- context [andthen ?a ?b w] =>
      assert (andthen a b w =
        (Raise FileNotFoundError,
         {| w_files :=
              delete (path +:+ "/gradient") (delete (path +:+ "/charges")
                (delete (path +:+ "/pcharge") (delete (path +:+ "/xtbxyz.xyz")
                   (<[namdoutput := text]> fs2))));
            w_calls := w_calls w ++ [command xtbdir directory q] |})) as ->
  end.
  { unfold andthen at 1. unfold on_files at 1. rewrite Hin. rewrite Hq.
    unfold andthen at 1. unfold subprocess_call. cbn [w_files w_calls]. rewrite Heng.
    unfold andthen at 1. unfold on_files at 1. cbn [w_files w_calls].
    destruct (convert_output _ _ namdoutput fs2) as [r3 fs3].
    cbn [fst snd] in Hout, Hfs3. subst r3 fs3.
    rewrite andthen_remove
      by (rewrite lookup_insert_ne by (by apply Hfresh); done).
    rewrite andthen_remove
      by (rewrite lookup_delete_ne by (by apply name_neq);
          rewrite lookup_insert_ne by (by apply Hfresh); done).
    rewrite andthen_remove
      by (rewrite !lookup_delete_ne by (by apply name_neq);
          rewrite lookup_insert_ne by (by apply Hfresh); done).
    rewrite andthen_remove
      by (rewrite !lookup_delete_ne by (by apply name_neq);
          rewrite lookup_insert_ne by (by apply Hfresh); done).
    unfold on_files, os_remove. cbn [w_files w_calls].
    rewrite !lookup_delete_ne by (by apply name_neq).
    rewrite lookup_insert_ne by (by apply Hfresh). by rewrite Hrestart. }
  cbn [fst snd w_files]. split; [done|].
  repeat split.
  1-4: rewrite !lookup_delete; repeat case_decide; done.
  exists text. split; [|done].
  rewrite !lookup_delete_ne by (apply not_eq_sym; by apply Hfresh).
  apply lookup_insert_eq.
Qed.

Lemma run_qmmm_no_restart_file_witness :
  let path := Path.dirname "/w/0/qmmm.input" in
  let namdoutput := path +:+ "/" +:+ Path.basename "/w/0/qmmm.input" +:+ ".result" in
  let run := run_qmmm forgetful_engine "/w/0/qmmm.input" (sample_world "0") in
  fst run = Raise FileNotFoundError /\
  w_files (snd run) !! (path +:+ "/xtbxyz.xyz") = None /\
  w_files (snd run) !! (path +:+ "/pcharge") = None /\
  w_files (snd run) !! (path +:+ "/charges") = None /\
  w_files (snd run) !! (path +:+ "/gradient") = None /\
  exists text, w_files (snd run) !! namdoutput = Some text /\ text <> "".
Proof.
  apply (run_qmmm_no_restart_file XTBDIR QMCHARGE forgetful_engine
           "/w/0/qmmm.input" (sample_world "0") 0 0
           (snd (convert_input "/w/0/qmmm.input" "/w/0/xtbxyz.xyz" "/w/0/pcharge"
                   (w_files (sample_world "0"))))
           (default ∅ (forgetful_engine (command XTBDIR "/w/0/qmmm.input" 0)
              (snd (convert_input "/w/0/qmmm.input" "/w/0/xtbxyz.xyz"
                      "/w/0/pcharge" (w_files (sample_world "0")))))));
    vm_compute; first [reflexivity | by eexists].
Defined.

(** X18: apart from what xtb does, a step changes no file but the six
    files of the step: a file with another name that xtb leaves as it is
    is the same after the step, whether the step succeeds or raises. *)
Theorem run_qmmm_frame (xtbdir : string) (qmcharge : list Z)
    (engine : list string -> files -> option files) (directory : string)
    (w : world) (f : string) :
  f ∉ step_files directory ->
  (forall args fs fs', engine args fs = Some fs' -> fs' !! f = fs !! f) ->
  w_files (snd (run_qmmm_with xtbdir qmcharge engine directory w)) !! f
    = w_files w !! f.
Proof.
  intros Hf Heng. unfold step_files in Hf.
  repeat (apply not_elem_of_cons in Hf as [? Hf]).
  destruct (qmpart_of directory) as [k|e] eqn:Hk;
    [|by rewrite (run_qmmm_bad_part _ _ _ _ _ e Hk)].
  rewrite (run_qmmm_unfold _ _ _ _ _ k Hk). cbv zeta.
  match goal with
  | |- w_files (snd (?step w)) !! f = _ => assert (keeps_file f step) as Hkeep
  end; [|apply Hkeep].
  repeat apply keeps_file_andthen;
    try (by apply keeps_file_convert_input);
    try (apply keeps_file_on_files; intros fs;
         first [ by apply convert_output_frame
               | by apply os_remove_frame ]).
  intros w1. destruct (py_index qmcharge k) as [q|e]; [|done].
  unfold subprocess_call.
  destruct (engine _ (w_files w1)) as [fs2|] eqn:He; [|done].
  cbn [snd w_files]. by eapply Heng.
Qed.

Lemma run_qmmm_frame_witness :
  w_files (snd (run_qmmm sample_engine "/w/0/qmmm.input" (sample_world "0")))
    !! "/w/0/qmmm.input"
  = w_files (sample_world "0") !! "/w/0/qmmm.input".
Proof.
  apply (run_qmmm_frame XTBDIR QMCHARGE sample_engine "/w/0/qmmm.input"
           (sample_world "0") "/w/0/qmmm.input").
  - vm_compute. intros H.
    repeat (apply elem_of_cons in H as [H|H]; [discriminate|]).
    by apply elem_of_nil in H.
  - intros args fs fs' H. unfold sample_engine in H.
    destruct (args !! 1%nat) as [xyz|]; [|discriminate]. injection H as <-.
    rewrite !lookup_insert_ne; [done | | | ];
      intros Heq;
      match type of Heq with
      | ?dir +:+ ?name = _ =>
          pose proof (ends_with_app name dir) as He; rewrite Heq in He;
          vm_compute in He; discriminate
      end.
Defined.

(** ** The script run as a program *)

Lemma log_not_step_file (directory : string) :
  Path.dirname directory +:+ "/useless.log" ∉ step_files directory.
Proof.
  unfold step_files. cbv zeta.
  repeat (apply not_elem_of_cons; split);
    [apply name_neq; discriminate .. | | apply not_elem_of_nil].
  apply not_eq_sym. by apply result_name_fresh.
Qed.

Lemma app_one_neq {A} (l : list A) (x : A) : l ++ [x] <> l.
Proof.
  intros H. apply (f_equal length) in H. rewrite length_app in H. simpl in H. lia.
Qed.

(** X19: the log file of the program.  [main] empties the log before the
    step.  No statement of the step removes it: if xtb does not remove it,
    the log exists after the step, whether the step succeeded or raised;
    and when the step ends without xtb started, the log is empty. *)
Theorem main_log (xtbdir : string) (qmcharge : list Z)
    (engine : list string -> files -> option files) (argv1 : string) (w : world) :
  let useless := Path.dirname argv1 +:+ "/useless.log" in
  let after := snd (main_with xtbdir qmcharge engine argv1 w) in
  (forall args fs fs', engine args fs = Some fs' ->
     is_Some (fs !! useless) -> is_Some (fs' !! useless)) ->
  is_Some (w_files after !! useless) /\
  (w_calls after = w_calls w -> w_files after !! useless = Some "").
Proof.
  intros useless after Heng. subst after. unfold main_with. fold useless.
  set (w0 := {| w_files := <[useless := ""]> (w_files w); w_calls := w_calls w |}).
  assert (w_files w0 !! useless = Some "") as H0 by apply lookup_insert_eq.
  pose proof (log_not_step_file argv1) as Hlog. fold useless in Hlog.
  unfold step_files in Hlog. cbv zeta in Hlog.
  apply not_elem_of_cons in Hlog as [Hn1 Hlog].
  apply not_elem_of_cons in Hlog as [Hn2 Hlog].
  apply not_elem_of_cons in Hlog as [Hn3 Hlog].
  apply not_elem_of_cons in Hlog as [Hn4 Hlog].
  apply not_elem_of_cons in Hlog as [Hn5 Hlog].
  apply not_elem_of_cons in Hlog as [Hn6 _].
  destruct (qmpart_of argv1) as [k|e] eqn:Hk;
    [|rewrite (run_qmmm_bad_part _ _ _ _ _ e Hk); cbn [snd]; by rewrite H0].
  rewrite (run_qmmm_unfold _ _ _ _ _ k Hk). cbv zeta.
  pose proof (on_files_calls
    (convert_input argv1 (Path.dirname argv1 +:+ "/xtbxyz.xyz")
       (Path.dirname argv1 +:+ "/pcharge")) w0) as Hc.
  pose proof (keeps_file_convert_input useless argv1
    (Path.dirname argv1 +:+ "/xtbxyz.xyz")
    (Path.dirname argv1 +:+ "/pcharge") Hn1 Hn2 w0) as Hf.
  match goal with
  | |- context [andthen ?a ?b w0] =>
      destruct (andthen_cases a b w0) as [(e & w1 & Ha & ->) | (w1 & Ha & ->)]
  end; rewrite Ha in Hc, Hf; cbn [fst snd] in Hc, Hf |- *; rewrite H0 in Hf.
  { by rewrite Hf. }
  match goal with
  | |- context [andthen ?a ?b w1] =>
      destruct (andthen_cases a b w1) as [(e & w2 & Hb & ->) | (w2 & Hb & ->)]
  end.
  - destruct (py_index qmcharge k) as [q|e'].
    + pose proof (subprocess_call_calls engine (command xtbdir argv1 q) w1) as Hs.
      rewrite Hb in Hs. cbn [fst snd] in Hs |- *.
      unfold subprocess_call in Hb.
      destruct (engine _ (w_files w1)) as [fs2|] eqn:He; [discriminate|].
      injection Hb as _ <-. cbn [w_files w_calls]. rewrite Hf. split; [done|].
      rewrite Hc. intros Hx. by apply app_one_neq in Hx.
    + injection Hb as _ <-. cbn [snd]. by rewrite Hf.
  - destruct (py_index qmcharge k) as [q|e']; [|discriminate].
    pose proof (subprocess_call_calls engine (command xtbdir argv1 q) w1) as Hs.
    rewrite Hb in Hs. cbn [snd] in Hs.
    unfold subprocess_call in Hb.
    destruct (engine _ (w_files w1)) as [fs2|] eqn:He; [|discriminate].
    injection Hb as <-. cbn [w_files w_calls] in *.
    match goal with
    | |- context [?rest {| w_files := fs2; w_calls := ?c |}] =>
        assert (keeps_calls rest) as Hkc by auto 10 with calls;
        assert (keeps_file useless rest) as Hkf
    end.
    { repeat apply keeps_file_andthen;
        apply keeps_file_on_files; intros fs;
        first [ by apply convert_output_frame | by apply os_remove_frame ]. }
    rewrite Hkf, Hkc. cbn [w_files w_calls]. split.
    + eapply Heng; [done|]. by rewrite Hf.
    + rewrite Hc. intros Hx. by apply app_one_neq in Hx.
Qed.

Lemma main_log_witness :
  let useless := Path.dirname "/w/1/qmmm.input" +:+ "/useless.log" in
  let after := snd (main_with XTBDIR QMCHARGE sample_engine "/w/1/qmmm.input"
                      (sample_world "1")) in
  is_Some (w_files after !! useless) /\
  (w_calls after = w_calls (sample_world "1") ->
   w_files after !! useless = Some "").
Proof.
  apply (main_log XTBDIR QMCHARGE sample_engine "/w/1/qmmm.input"
           (sample_world "1")).
  intros args fs fs' H Hs. unfold sample_engine in H.
  destruct (args !! 1%nat) as [xyz|]; [|discriminate]. injection H as <-.
  rewrite !lookup_insert_ne; [done | | | ];
    intros Heq;
    match type of Heq with
    | ?dir +:+ ?name = _ =>
        pose proof (ends_with_app name dir) as He; rewrite Heq in He;
        vm_compute in He; discriminate
    end.
Defined.

(** ** The lines of the result file *)

Lemma app_empty_r (s : string) : s +:+ "" = s.
Proof.
  induction s as [|c s IH]; [done|].
  change (String c s +:+ "") with (String c (s +:+ "")). by rewrite IH.
Qed.

Lemma no_space_app (a b : string) : no_space (a +:+ b) = no_space a && no_space b.
Proof.
  induction a as [|c a IH]; [done|].
  change (String c a +:+ b) with (String c (a +:+ b)). cbn [no_space].
  by rewrite IH, andb_assoc.
Qed.

Lemma is_empty_app (a b : string) :
  Text.is_empty (a +:+ b) = Text.is_empty a && Text.is_empty b.
Proof. by destruct a. Qed.

Lemma split_go_word (w s : string) :
  no_space w = true ->
  Text.split_go (w +:+ s) = (w +:+ fst (Text.split_go s), snd (Text.split_go s)).
Proof.
  intros Hw. induction w as [|c w IH].
  - change ("" +:+ s) with s. by destruct (Text.split_go s).
  - cbn [no_space] in Hw. apply andb_true_iff in Hw as [Hc Hw].
    change (String c w +:+ s) with (String c (w +:+ s)). cbn [Text.split_go].
    rewrite (IH Hw). apply negb_true_iff in Hc. by rewrite Hc.
Qed.

(** White space at the end of a text adds no word. *)
Lemma split_go_rstrip (s : string) :
  Text.split_go (Text.rstrip s) = Text.split_go s.
Proof.
  induction s as [|c s IH]; [done|]. cbn [Text.rstrip Text.split_go].
  destruct (Text.rstrip s) as [|c' r] eqn:Hr.
  - rewrite <- IH. cbn [Text.split_go].
    destruct (Text.is_space c) eqn:Hc; [done|]. cbn [Text.split_go]. by rewrite Hc.
  - cbn [Text.split_go] in *. by rewrite IH.
Qed.

Lemma split_lstrip (s : string) : Text.split (Text.lstrip s) = Text.split s.
Proof.
  induction s as [|c s IH]; [done|]. cbn [Text.lstrip].
  destruct (Text.is_space c) eqn:Hc; [|done].
  rewrite IH. unfold Text.split. cbn [Text.split_go]. rewrite Hc.
  by destruct (Text.split_go s).
Qed.

(** [line.strip().split()] is [line.split()]. *)
Lemma fields_split (line : string) : fields line = Text.split line.
Proof.
  unfold fields, Text.strip, Text.split. rewrite split_go_rstrip.
  apply split_lstrip.
Qed.

Lemma split_go_space (c : ascii) (s : string) :
  Text.is_space c = true ->
  Text.split_go (String c s) = ("", Text.split s).
Proof.
  intros Hc. unfold Text.split. cbn [Text.split_go]. rewrite Hc.
  by destruct (Text.split_go s).
Qed.

Lemma split_word_space (w : string) (c : ascii) (s : string) :
  is_field w -> Text.is_space c = true ->
  Text.split (w +:+ String c s) = w :: Text.split s.
Proof.
  intros [Hne Hw] Hc. unfold Text.split at 1.
  rewrite (split_go_word w _ Hw), (split_go_space c s Hc). cbn [fst snd].
  by rewrite app_empty_r, Hne.
Qed.

Lemma fields_four (a b c d : string) :
  is_field a -> is_field b -> is_field c -> is_field d ->
  fields (a +:+ " " +:+ b +:+ " " +:+ c +:+ " " +:+ d +:+ Text.nl) = [a; b; c; d].
Proof.
  intros Ha Hb Hc Hd. rewrite fields_split.
  change (" " +:+ ?s) with (String " "%char s).
  rewrite (split_word_space a) by done.
  change (" " +:+ ?s) with (String " "%char s).
  rewrite (split_word_space b) by done.
  change (" " +:+ ?s) with (String " "%char s).
  rewrite (split_word_space c) by done.
  unfold Text.nl. rewrite (split_word_space d) by done. reflexivity.
Qed.

(** The digits of a number in base ten. *)
Lemma uint_no_space (d : Decimal.uint) : no_space (NilEmpty.string_of_uint d) = true.
Proof. induction d; simpl; done. Qed.

Lemma py_str_field (n : Z) : is_field (PyInt.py_str n).
Proof.
  unfold PyInt.py_str, NilZero.string_of_int, NilZero.string_of_uint.
  destruct (Z.to_int n) as [d|d]; split.
  - by destruct d.
  - destruct d; try done; apply (uint_no_space (_ d)).
  - done.
  - change ("-" +:+ ?s)%string with (String "-"%char s). cbn [no_space].
    destruct d; try done; apply (uint_no_space (_ d)).
Qed.

Lemma digit_char_no_space (d : Z) : Text.is_space (digit_char d) = false.
Proof.
  unfold digit_char.
  assert (0 <= d mod 10 < 10) as H by (apply Z.mod_pos_bound; lia).
  generalize dependent (d mod 10). intros r Hr.
  assert (r = 0 \/ r = 1 \/ r = 2 \/ r = 3 \/ r = 4 \/ r = 5 \/ r = 6 \/ r = 7
          \/ r = 8 \/ r = 9) as Hc by lia.
  repeat (destruct Hc as [->|Hc]; [reflexivity|]). by subst.
Qed.

Lemma digits_fixed_no_space (k : nat) : forall n, no_space (digits_fixed k n) = true.
Proof.
  induction k as [|k IH]; intros n; [done|]. cbn [digits_fixed].
  rewrite no_space_app, IH. cbn [no_space andb]. by rewrite digit_char_no_space.
Qed.

Lemma fixed6_field (n : Z) : is_field (fixed6 n).
Proof.
  unfold fixed6. destruct (py_str_field (n / 10 ^ 6)) as [Hne Hns]. split.
  - by rewrite is_empty_app, Hne.
  - rewrite !no_space_app, Hns, digits_fixed_no_space. done.
Qed.

Lemma sign_field (s : bool) (t : string) : is_field t -> is_field (sign_text s +:+ t).
Proof.
  intros [Hne Hns]. destruct s; [|done]. split; [done|].
  change (sign_text true +:+ t) with (String "-"%char t). cbn [no_space].
  by rewrite Hns.
Qed.

(** A number printed with six decimals is one field. *)
Lemma format_6f_field (x : float) : is_field (format_6f x).
Proof.
  destruct x as [s|s| |s m e]; cbn [format_6f]; try done.
  - apply sign_field, fixed6_field.
  - by apply sign_field.
  - apply sign_field, fixed6_field.
Qed.

(** X20: the lines of the result file.  Every line that
    [write_namdoutput] writes for an atom splits into exactly four fields,
    the three forces and the charge of the atom printed with six decimals,
    whatever the numbers are (infinities and NaN included). *)
Theorem row4_fields (info : Np.array) (i : nat) (x0 x1 x2 x3 : float)
    (rest : list float) :
  info !! i = Some (x0 :: x1 :: x2 :: x3 :: rest) ->
  exists line,
    row4 info i = Ok line /\
    fields line = [format_6f x0; format_6f x1; format_6f x2; format_6f x3].
Proof.
  intros Hi. eexists. split.
  - unfold row4, Np.get. rewrite (py_get_lookup _ _ _ Hi). reflexivity.
  - apply fields_four; apply format_6f_field.
Qed.

Lemma row4_fields_witness :
  exists line,
    row4 [[literal "14.691139"; literal "-0.0"; literal "nan"; literal "0.1"]] 0
      = Ok line /\
    fields line = [format_6f (literal "14.691139"); format_6f (literal "-0.0");
                   format_6f (literal "nan"); format_6f (literal "0.1")].
Proof.
  apply (row4_fields _ 0 _ _ _ _ []). reflexivity.
Defined.
